(** * beheader: byte layout of the polyglot generator

    A shallow embedding of [beheader.py] (the Python port of the polyglot
    generator) and the properties of its binary layout: the custom 288-byte
    header region, the "skip" wrapper box, the re-assembly of the transcoded
    media container and the renumbering of the cross-reference table of an
    attached document.

    Conventions of the embedding:
    - Python [bytes]/[bytearray] values are [list byte]; a [bytearray] that
      is mutated in place is passed along explicitly.
    - Python [int] is [Z]; indices are [Z] as well and follow Python's
      clamping rules for slices.
    - Python [str] is a list of code points ([list N]).
    - Exceptions are values of [exn] carried by the [res] monad.
    - The external collaborators (image conversion, ffprobe/ffmpeg, archive
      merge) are not modelled: their results are inputs of [main]. *)

From Stdlib Require Import ZArith NArith Lia List Bool.
From Stdlib Require Import Strings.Byte Strings.Ascii Strings.String.
From stdpp Require Import base list.

Local Open Scope Z_scope.

(** ** Exceptions and the result monad *)

Inductive exn : Type :=
  | OverflowError        (* int.to_bytes: value does not fit / is negative *)
  | IndexError           (* bytearray index assignment out of range *)
  | UnicodeEncodeError   (* str.encode("utf-8") on a surrogate *)
  | UnicodeDecodeError   (* bytes.decode("utf-8") *)
  | ValueError           (* int(): invalid literal *)
  | XrefNotFound         (* Exception("Failed to find xref table") *)
  | OutOfFuel.           (* not a Python exception: the loop was cut off *)

Inductive res (A : Type) : Type :=
  | Ok (a : A)
  | Raise (e : exn).
Arguments Ok {A} a.
Arguments Raise {A} e.

Definition bind {A B} (m : res A) (k : A -> res B) : res B :=
  match m with
  | Ok a => k a
  | Raise e => Raise e
  end.

Notation "'do' x <- m ; k" := (bind m (fun x => k))
  (at level 10, x name, m at level 100, k at level 200).
Notation "'do' ' ( x , y ) <- m ; k" := (bind m (fun '(x, y) => k))
  (at level 10, x name, y name, m at level 100, k at level 200).

Definition is_ok {A} (m : res A) : bool :=
  match m with Ok _ => true | Raise _ => false end.

(** ** Bytes, bytearrays and Python slices *)

Abbreviation bytes := (list byte).

Definition len {A} (l : list A) : Z := Z.of_nat (length l).

(** [byte_of_Z n] is the byte with value [n mod 256]. *)
Definition byte_of_Z (n : Z) : byte :=
  match Byte.of_N (Z.to_N (n mod 256)) with
  | Some b => b
  | None => x00
  end.

Definition byte_to_Z (b : byte) : Z := Z.of_N (Byte.to_N b).

(** A string literal of the source, as bytes ([b"..."]). *)
Definition lit (s : string) : bytes := list_byte_of_string s.

(** [bytearray(n)] *)
Definition bytearray (n : nat) : bytes := replicate n x00.

(** Python's normalisation of one slice bound against a length: negative
    bounds count from the end, and everything is clamped to [0, len]. *)
Definition norm_index {A} (l : list A) (k : Z) : nat :=
  Z.to_nat (if k <? 0 then Z.max (k + len l) 0 else Z.min k (len l)).

(** [l[i:j]] *)
Definition slice {A} (l : list A) (i j : Z) : list A :=
  let lo := norm_index l i in
  let hi := norm_index l j in
  take (hi - lo) (drop lo l).

(** [l[i:]] *)
Definition slice_from {A} (l : list A) (i : Z) : list A :=
  drop (norm_index l i) l.

(** [l[:j]] *)
Definition slice_to {A} (l : list A) (j : Z) : list A :=
  take (norm_index l j) l.

(** [b[i:j] = v] on a bytearray: the (clamped) range is replaced by [v],
    whatever the length of [v]; the bytearray grows or shrinks. *)
Definition set_slice {A} (l : list A) (i j : Z) (v : list A) : list A :=
  let lo := norm_index l i in
  let hi := Nat.max lo (norm_index l j) in
  take lo l ++ v ++ drop hi l.

(** [b[i] = v] on a bytearray: [IndexError] out of range. *)
Definition set_item (l : bytes) (i : Z) (v : byte) : res bytes :=
  if (0 <=? i) && (i <? len l) then Ok (<[Z.to_nat i := v]> l)
  else if (- len l <=? i) && (i <? 0) then Ok (<[Z.to_nat (i + len l) := v]> l)
  else Raise IndexError.

(** ** ByteOffsetMath: the integer helpers of the source *)

Fixpoint le_bytes (n : nat) (v : Z) : bytes :=
  match n with
  | O => []
  | S n' => byte_of_Z v :: le_bytes n' (v / 256)
  end.

(** [int(num).to_bytes(4, order)] raises [OverflowError] on a negative
    number and on one that needs more than four bytes. *)
Definition to_bytes4_le (num : Z) : res bytes :=
  if (0 <=? num) && (num <? 2 ^ 32) then Ok (le_bytes 4 num)
  else Raise OverflowError.

Definition number_to_4b_le (num : Z) : res bytes := to_bytes4_le num.

Definition number_to_4b_be (num : Z) : res bytes :=
  do b <- to_bytes4_le num; Ok (rev b).

(** [int.from_bytes(b, "big")], for any number of bytes. *)
Definition int_from_bytes_be (b : bytes) : Z :=
  fold_left (fun acc x => acc * 256 + byte_to_Z x) b 0.

Definition int_from_bytes_le (b : bytes) : Z :=
  int_from_bytes_be (rev b).

Definition bytes_eqb (a b : bytes) : bool :=
  (length a =? length b)%nat && forallb (fun p => Byte.eqb (fst p) (snd p)) (combine a b).

(** [is_prefix sub l]: [l] starts with [sub]. *)
Fixpoint is_prefix (sub l : bytes) : bool :=
  match sub, l with
  | [], _ => true
  | _ :: _, [] => false
  | x :: sub', y :: l' => Byte.eqb x y && is_prefix sub' l'
  end.

(** Scan of [l], whose first element has index [i], for the first
    occurrence of [sub]; [-1] when there is none. *)
Fixpoint find_aux (sub l : bytes) (i : Z) : Z :=
  if is_prefix sub l then i
  else match l with
       | [] => -1
       | _ :: l' => find_aux sub l' (i + 1)
       end.

(** [data.find(sub, start)] for [start >= 0]. *)
Definition py_find (data sub : bytes) (start : Z) : Z :=
  if len data <? start then -1
  else find_aux sub (drop (Z.to_nat start) data) (Z.max start 0).

Definition find_sub_array_index (data sub : bytes) (start : Z) : Z :=
  py_find data sub start.

(** ** Python strings

    A [str] is its list of code points.  Only what the source uses is
    modelled: [encode("utf-8")], [decode("utf-8")], [str(int)], [int(str)],
    [strip], [replace] and [split] on one character. *)

Abbreviation str := (list N).

(** A string literal of the source (ASCII only). *)
Definition slit (s : string) : str := map N_of_ascii (list_ascii_of_string s).

Definition byte_of_N (n : N) : byte := byte_of_Z (Z.of_N n).

(** UTF-8 encoding of one code point; surrogates and values beyond
    U+10FFFF cannot be encoded. *)
Definition utf8_encode_cp (c : N) : res bytes :=
  (if c <? 0x80 then Ok [byte_of_N c]
   else if c <? 0x800 then
     Ok [byte_of_N (0xC0 + c / 64); byte_of_N (0x80 + c mod 64)]
   else if (0xD800 <=? c) && (c <? 0xE000) then Raise UnicodeEncodeError
   else if c <? 0x10000 then
     Ok [byte_of_N (0xE0 + c / 4096); byte_of_N (0x80 + (c / 64) mod 64);
         byte_of_N (0x80 + c mod 64)]
   else if c <? 0x110000 then
     Ok [byte_of_N (0xF0 + c / 262144); byte_of_N (0x80 + (c / 4096) mod 64);
         byte_of_N (0x80 + (c / 64) mod 64); byte_of_N (0x80 + c mod 64)]
   else Raise UnicodeEncodeError)%N.

(** [s.encode("utf-8")] *)
Fixpoint encode_utf8 (s : str) : res bytes :=
  match s with
  | [] => Ok []
  | c :: s' =>
      do b <- utf8_encode_cp c;
      do bs <- encode_utf8 s';
      Ok (b ++ bs)
  end.

(** [b.decode("utf-8")], restricted to ASCII input: a byte of 0x80 or more
    is reported as [UnicodeDecodeError].  Python also accepts well-formed
    multi-byte sequences; the numeric fields this is applied to are ASCII
    in every document the properties below speak about. *)
Definition decode_utf8 (b : bytes) : res str :=
  if forallb (fun x => byte_to_Z x <? 128) b
  then Ok (map Byte.to_N b)
  else Raise UnicodeDecodeError.

(** Decimal digits of a natural number, most significant first.  The fuel
    is the bit length of the number, which bounds its number of decimal
    digits ([digits_fuel_enough] below). *)
Fixpoint digits_fuel (fuel : nat) (n : N) (acc : str) : str :=
  match fuel with
  | O => acc
  | S f =>
      let acc' := (48 + n mod 10)%N :: acc in
      if (n / 10 =? 0)%N then acc' else digits_fuel f (n / 10)%N acc'
  end.

Definition str_of_N (n : N) : str :=
  digits_fuel (S (N.to_nat (N.log2 n))) n [].

(** [str(z)] *)
Definition py_str (z : Z) : str :=
  if z <? 0 then 45%N :: str_of_N (Z.to_N (- z)) else str_of_N (Z.to_N z).

(** Code points below 128 for which [str.isspace] holds. *)
Definition is_space (c : N) : bool :=
  ((9 <=? c) && (c <=? 13) || (28 <=? c) && (c <=? 32))%N.

Fixpoint lstrip (s : str) : str :=
  match s with
  | c :: s' => if is_space c then lstrip s' else s
  | [] => []
  end.

(** [s.strip()] *)
Definition strip (s : str) : str := rev (lstrip (rev (lstrip s))).

(** [s.replace(a, b)] for one-character [a] and [b]. *)
Definition replace_char (a b : N) (s : str) : str :=
  map (fun c => if (c =? a)%N then b else c) s.

(** [s.split(sep)[-1]] for a one-character separator: the part of [s]
    after the last [sep] (all of [s] when there is none). *)
Fixpoint split_last (sep : N) (s : str) (cur : str) : str :=
  match s with
  | [] => rev cur
  | c :: s' => if (c =? sep)%N then split_last sep s' [] else split_last sep s' (c :: cur)
  end.

Definition is_digit (c : N) : bool := ((48 <=? c) && (c <=? 57))%N.

(** Digits of an [int] literal: decimal digits, single underscores allowed
    between digits.  [prev_digit] tells whether the previous character was
    a digit. *)
Fixpoint parse_digits (s : str) (acc : Z) (prev_digit : bool) : res Z :=
  match s with
  | [] => if prev_digit then Ok acc else Raise ValueError
  | c :: s' =>
      if is_digit c then parse_digits s' (acc * 10 + (Z.of_N c - 48)) true
      else if (c =? 95)%N && prev_digit then parse_digits s' acc false
      else Raise ValueError
  end.

(** The white space that [int] skips around an ASCII literal: tab, line
    feed, vertical tab, form feed, carriage return and space.  Unlike
    [str.strip], [int] does not skip the separators 28-31. *)
Definition is_int_space (c : N) : bool :=
  ((9 <=? c) && (c <=? 13) || (c =? 32))%N.

Fixpoint int_lstrip (s : str) : str :=
  match s with
  | c :: s' => if is_int_space c then int_lstrip s' else s
  | [] => []
  end.

Definition int_strip (s : str) : str :=
  rev (int_lstrip (rev (int_lstrip s))).

(** [int(s)] on ASCII text: surrounding white space, an optional sign and
    a non-empty digit string.  The interpreter's configurable limit on the
    number of digits of [int]/[str] conversions is not modelled. *)
Definition py_int (s : str) : res Z :=
  match int_strip s with
  | c :: d =>
      if (c =? 45)%N then do v <- parse_digits d 0 false; Ok (- v)
      else if (c =? 43)%N then parse_digits d 0 false
      else parse_digits (c :: d) 0 false
  | [] => Raise ValueError
  end.

(** [pad_left] of the source. *)
Definition pad_left (s : Z) (target_len : Z) (pad_char : str) : str :=
  let s := py_str s in
  concat (replicate (Z.to_nat (Z.max 0 (target_len - len s))) pad_char) ++ s.

(** ** SkipBoxBuilder: [build_skip_atom] *)

Definition build_skip_atom (png_bytes : bytes) (html_string : str) : res bytes :=
  do html_bytes <- match html_string with
                   | [] => Ok []
                   | _ => encode_utf8 html_string
                   end;
  let skip_data := html_bytes ++ png_bytes in
  do size <- number_to_4b_be (len skip_data + 8);
  let skip_head := size ++ lit "skip" in
  Ok (skip_head ++ skip_data).

(** ** The inputs of one run

    [png_bytes] is the file written by [convert_image], [orig_bytes] the
    container written by ffmpeg; the optional inputs are [None] when the
    command-line option is absent.  An appendable whose path does not
    exist is [None]; [merged_zip] is the archive produced by the merge of
    the [-z] options. *)

Record inputs : Type := {
  png_bytes : bytes;
  orig_bytes : bytes;
  html_text : option str;
  extra_bytes : bytes;
  pdf_bytes : option bytes;
  appendables : list (option bytes);
  merged_zip : option bytes
}.

(** ** HeaderSynthesizer: the [ftyp_buffer] of [main] *)

Definition ftyp_template : bytes :=
  [x00; x00; x00; x20; x66; x74; x79; x70;
   x69; x73; x6f; x6d; x00; x00; x02; x00;
   x69; x73; x6f; x6d; x69; x73; x6f; x32;
   x61; x76; x63; x31; x6d; x70; x34; x31].

(** Lines 85-96: the zeroed buffer, the template and the image size. *)
Definition ftyp_init (png_size : Z) : res bytes :=
  let b := bytearray (256 + 32) in
  do b <- set_item b 2 x01;
  do b <- set_item b 3 x20;
  let b := set_slice b 4 8 (lit "ftyp") in
  let b := set_slice b 256 288 ftyp_template in
  do b <- set_item b 12 x20;
  do sz <- number_to_4b_le png_size;
  Ok (set_slice b 14 18 sz).

Definition html_prefix : str :=
  slit "--><style>body{font-size:0}</style><div style=font-size:initial>".
Definition html_suffix : str := slit "</div><!--".

(** Lines 118-124. *)
Definition make_html_string (html : option str) : str :=
  match html with
  | Some text => html_prefix ++ text ++ html_suffix
  | None => []
  end.

(** Lines 132-135: the image offset and the brand bytes. *)
Definition ftyp_offsets (b : bytes) (png_offset : Z) : res bytes :=
  do le <- number_to_4b_le png_offset;
  let b := set_slice b 18 22 le in
  let b := set_slice b 4 8 [x01; x00; x00; x00] in
  Ok (set_slice b 240 256 (lit "isomiso2avc1mp41")).

(** Lines 137-141: the extra bytes and the comment marker.  Returns the
    buffer and [atom_free_addr]. *)
Definition ftyp_extra (b : bytes) (extra : bytes) : bytes * Z :=
  let atom_free_addr := 22 in
  let b := set_slice b atom_free_addr (atom_free_addr + len extra) extra in
  let atom_free_addr := atom_free_addr + len extra in
  let b := set_slice b (22 + len extra) (22 + len extra + 4) (lit "<!--") in
  (b, atom_free_addr + 4).

Definition nl : N := 10.

(** The f-string of line 153. *)
Definition obj_string_of (length_value : Z) : str :=
  [nl] ++ slit "1 0 obj" ++ [nl] ++ slit "<</Length " ++ py_str length_value
  ++ slit ">>" ++ [nl] ++ slit "stream" ++ [nl].

(** Lines 150-156: the [while True] loop, cut off after [fuel]
    iterations.  [offset] is the value before the decrement. *)
Fixpoint obj_search (fuel : nat) (mp4_size atom_free_addr extra_len offset : Z)
  : res str :=
  match fuel with
  | O => Raise OutOfFuel
  | S fuel' =>
      let offset := offset - 1 in
      let obj_string :=
        obj_string_of (mp4_size - atom_free_addr - extra_len - offset) in
      if offset =? len obj_string then Ok obj_string
      else obj_search fuel' mp4_size atom_free_addr extra_len offset
  end.

(** Lines 144-160: the document prefix and the object header. *)
Definition ftyp_pdf (fuel : nat) (b : bytes) (atom_free_addr : Z)
    (extra pdf : bytes) (skip_len rest_len : Z) : res bytes :=
  let mp4_size := len b + skip_len + rest_len in
  do b <- set_item b atom_free_addr x0a;
  let b := set_slice b (atom_free_addr + 1) (atom_free_addr + 10) (slice_to pdf 9) in
  let atom_free_addr := atom_free_addr + 10 in
  let offset := 30 + len (py_str mp4_size) in
  do obj_string <- obj_search fuel mp4_size atom_free_addr (len extra) offset;
  do obj_bytes <- encode_utf8 obj_string;
  let start := atom_free_addr + len extra in
  Ok (set_slice b start (start + len obj_bytes) obj_bytes).

(** ** ContainerReassembler: lines 128-130 *)

Definition strip_leading_box (orig : bytes) : bytes :=
  let orig_ftyp_size := int_from_bytes_be (slice orig 0 4) in
  slice_from orig orig_ftyp_size.

(** The three regions of [final_mp4] (line 162), as [main] computes them:
    the header buffer, the skip atom and the media remainder. *)
Record regions : Type := {
  ftyp_buffer : bytes;
  skip_atom : bytes;
  rest_bytes : bytes
}.

Definition build_regions (fuel : nat) (inp : inputs) : res regions :=
  do ftyp <- ftyp_init (len (png_bytes inp));
  let html_string := make_html_string (html_text inp) in
  do skip <- build_skip_atom (png_bytes inp) html_string;
  let rest := strip_leading_box (orig_bytes inp) in
  do html_enc <- encode_utf8 html_string;
  let png_offset := len ftyp + len (slice_to skip 8) + len html_enc in
  do ftyp <- ftyp_offsets ftyp png_offset;
  let '(ftyp, atom_free_addr) := ftyp_extra ftyp (extra_bytes inp) in
  do ftyp <- match pdf_bytes inp with
             | Some pdf =>
                 ftyp_pdf fuel ftyp atom_free_addr (extra_bytes inp) pdf
                   (len skip) (len rest)
             | None => Ok ftyp
             end;
  Ok {| ftyp_buffer := ftyp; skip_atom := skip; rest_bytes := rest |}.

Definition final_mp4 (r : regions) : bytes :=
  ftyp_buffer r ++ skip_atom r ++ rest_bytes r.

(** ** The output file

    The file is its content.  [file_write_at] is [seek(pos)] followed by
    [write(data)] on a file opened ["r+b"]; appending is [++]. *)

Definition file_write_at (f : bytes) (pos : Z) (data : bytes) : bytes :=
  let p := Z.to_nat pos in
  take p f ++ replicate (p - length f) x00 ++ data ++ drop (p + length data) f.

(** Lines 163-166: the file is written, then byte 3 is overwritten. *)
Definition write_mp4 (r : regions) : bytes :=
  file_write_at (final_mp4 r) 3 [x00].

(** ** DocumentTailPatcher: lines 168-198

    The [try] block mutates [pdf_buffer] in place and the buffer is written
    whether or not the block raised, so the block is a computation in a
    state-and-exception monad over the buffer: the buffer reached when an
    exception is raised is kept. *)

Definition bufM (A : Type) : Type := bytes -> bytes * res A.

Definition retB {A} (a : A) : bufM A := fun b => (b, Ok a).

Definition bindB {A B} (m : bufM A) (k : A -> bufM B) : bufM B :=
  fun b =>
    match m b with
    | (b', Ok a) => k a b'
    | (b', Raise e) => (b', Raise e)
    end.

(** A computation that may raise but does not touch the buffer. *)
Definition liftB {A} (f : bytes -> res A) : bufM A := fun b => (b, f b).

(** An update of the buffer that cannot raise. *)
Definition updB (f : bytes -> bytes) : bufM unit := fun b => (f b, Ok tt).

(** [pdf_buffer[i] = v] *)
Definition set_itemB (i : Z) (v : byte) : bufM unit :=
  fun b =>
    match set_item b i v with
    | Ok b' => (b', Ok tt)
    | Raise e => (b, Raise e)
    end.

Notation "'doB' x <- m ; k" := (bindB m (fun x => k))
  (at level 10, x name, m at level 100, k at level 200).
Notation "m ;;B k" := (bindB m (fun _ => k))
  (at level 100, k at level 200, right associativity).

Definition object_terminator : bytes :=
  [x0a] ++ lit "endstream" ++ [x0a] ++ lit "endobj" ++ [x0a].

Definition eof_marker : bytes := [x0a] ++ lit "%%EOF" ++ [x0a].

(** [range(a, b)] *)
Definition py_range (a b : Z) : list Z :=
  map (fun k => a + Z.of_nat k) (seq 0 (Z.to_nat (b - a))).

(** [for i in idxs: body(i)] *)
Fixpoint for_each (idxs : list Z) (body : Z -> bufM unit) : bufM unit :=
  match idxs with
  | [] => retB tt
  | i :: idxs' => body i ;;B for_each idxs' body
  end.

(** Line 184: the offset stored in the ten characters at [curr]. *)
Definition read_field (curr : Z) (b : bytes) : res Z :=
  do field <- decode_utf8 (slice b curr (curr + 10));
  py_int (strip field).

(** Line 187: the start of the line after the one [curr] is on;
    [0] when there is no further newline. *)
Definition next_line (b : bytes) (curr : Z) : Z :=
  py_find b [x0a] (curr + 1) + 1.

(** Lines 184-187: one iteration of the loop over the offset entries;
    returns the next value of [curr]. *)
Definition patch_entry (out_size curr : Z) : bufM Z :=
  doB offset <- liftB (read_field curr);
  let new_offset := offset + out_size in
  doB enc <- liftB (fun _ =>
      encode_utf8 (slice_to (pad_left new_offset 10 (slit "0")) 10));
  updB (fun b => set_slice b curr (curr + 10) enc) ;;B
  liftB (fun b => Ok (next_line b curr)).

(** Lines 183-187: [for _ in range(count)]. *)
Fixpoint patch_entries (count : nat) (out_size curr : Z) : bufM Z :=
  match count with
  | O => retB curr
  | S count' =>
      doB curr' <- patch_entry out_size curr;
      patch_entries count' out_size curr'
  end.

(** Lines 180-181: the object count in the header of the table. *)
Definition read_count (xref_start offset_start : Z) (b : bytes) : res Z :=
  do xref_header <- decode_utf8 (slice b xref_start offset_start);
  py_int (split_last 32 (replace_char nl 32 (strip xref_header)) []).

(** Line 188: the trailer pointer. *)
Definition read_startxref (startxref_start startxref_end : Z) (b : bytes)
  : res Z :=
  do s <- decode_utf8 (slice b (startxref_start + 10) startxref_end);
  py_int (strip s).

(** Lines 189-193: the new trailer pointer, the end-of-file marker and the
    zeroing of what follows. *)
Definition write_trailer (startxref_start new_value : Z) : bufM unit :=
  let new_startxref := py_str new_value in
  doB enc <- liftB (fun _ => encode_utf8 new_startxref);
  updB (fun b => set_slice b (startxref_start + 10)
                   (startxref_start + 10 + len new_startxref) enc) ;;B
  updB (fun b => set_slice b (startxref_start + 10 + len new_startxref)
                   (startxref_start + 15 + len new_startxref) eof_marker) ;;B
  doB n <- liftB (fun b => Ok (len b));
  for_each (py_range (startxref_start + len new_startxref + 17) n)
    (fun i => set_itemB i x00).

(** Lines 177-193: the body of the [try] block.  [file_size] is
    [output.stat().st_size]. *)
Definition fix_pdf_offsets (file_size : Z)
    (xref_start offset_start startxref_start startxref_end : Z) : bufM unit :=
  liftB (fun _ =>
    if Z.min (Z.min xref_start offset_start)
             (Z.min startxref_start startxref_end) <=? 0
    then Raise XrefNotFound else Ok tt) ;;B
  let out_size := file_size + len object_terminator in
  doB count <- liftB (read_count xref_start offset_start);
  doB curr <- patch_entries (Z.to_nat count) out_size offset_start;
  doB startxref <- liftB (read_startxref startxref_start startxref_end);
  write_trailer startxref_start (startxref + out_size).

(** Lines 172-175: the four anchors of the cross-reference section. *)
Record anchors : Type := {
  xref_start : Z;
  offset_start : Z;
  startxref_start : Z;
  startxref_end : Z
}.

Definition find_anchors (pdf_buffer : bytes) : anchors :=
  let xref_start :=
    find_sub_array_index pdf_buffer ([x0a] ++ lit "xref") 0 + 1 in
  let offset_start :=
    find_sub_array_index pdf_buffer ([x0a] ++ lit "0000000000") xref_start + 1 in
  let startxref_start :=
    find_sub_array_index pdf_buffer ([x0a] ++ lit "startxref") xref_start + 1 in
  let startxref_end := py_find pdf_buffer [x0a] (startxref_start + 11) in
  {| xref_start := xref_start; offset_start := offset_start;
     startxref_start := startxref_start; startxref_end := startxref_end |}.

(** Lines 169-198: the bytes appended for the document, and the outcome
    of the [try] block ([Raise] is the degraded run with its warning). *)
Definition pdf_tail (file_size : Z) (pdf : bytes) : bytes * res unit :=
  let pdf_buffer := object_terminator ++ pdf in
  let a := find_anchors pdf_buffer in
  fix_pdf_offsets file_size (xref_start a) (offset_start a)
    (startxref_start a) (startxref_end a) pdf_buffer.

(** ** TailAppender and [main] *)

Definition appended (l : list (option bytes)) : bytes :=
  concat (map (fun o => match o with Some b => b | None => [] end) l).

Definition main (fuel : nat) (inp : inputs) : res bytes :=
  do r <- build_regions fuel inp;
  let out := write_mp4 r in
  let out :=
    match pdf_bytes inp with
    | Some pdf => out ++ fst (pdf_tail (len out) pdf)
    | None => out
    end in
  let out := out ++ appended (appendables inp) in
  Ok (out ++ match merged_zip inp with Some z => z | None => [] end).

(** ** Predicates and readers used in the statements *)

(** The value of a string of decimal digits read after the value [acc]
    (the accumulation of [parse_digits] on digits alone). *)
Definition dec_value (s : str) (acc : Z) : Z :=
  fold_left (fun a c => a * 10 + (Z.of_N c - 48)) s acc.

(** Code points that one UTF-8 byte encodes. *)
Definition ascii_str (s : str) : Prop := Forall (fun c => (c < 128)%N) s.

Definition digit_str (s : str) : Prop := Forall (fun c => is_digit c = true) s.

(** The UTF-8 bytes of the fixed markup around the hypertext. *)
Definition html_prefix_bytes : bytes :=
  lit "--><style>body{font-size:0}</style><div style=font-size:initial>".
Definition html_suffix_bytes : bytes := lit "</div><!--".

(** The budget of the header: the spliced content ends by byte 288.  With
    a document, the object header string is placed [len extra] bytes after
    the document prefix and is at most 29 characters plus the digits of the
    container size. *)
Definition header_fits (inp : inputs) (r : regions) : Prop :=
  match pdf_bytes inp with
  | None => 22 + len (extra_bytes inp) + 4 <= 288
  | Some pdf =>
      9 <= len pdf /\
      22 + len (extra_bytes inp) + 4 + 10 + len (extra_bytes inp)
        + 29 + len (py_str (288 + len (skip_atom r) + len (rest_bytes r))) <= 288
  end.



(** *** The cross-reference table as the document format has it

    Spec-side readers, used to state what the patch stores: an entry is a
    line that begins with a field of ten decimal digits, and the entries
    follow each other line by line. *)

(** The value of the ten-digit field at [p], if there is one. *)
Definition digit_field (b : bytes) (p : Z) : option Z :=
  let field := slice b p (p + 10) in
  if (length field =? 10)%nat && forallb (fun x => is_digit (Byte.to_N x)) field
  then Some (dec_value (map Byte.to_N field) 0)
  else None.

(** The positions and values of [count] entries, the first at [curr]. *)
Fixpoint xref_entries (b : bytes) (count : nat) (curr : Z)
  : option (list (Z * Z)) :=
  match count with
  | O => Some []
  | S count' =>
      match digit_field b curr with
      | None => None
      | Some v =>
          match xref_entries b count' (next_line b curr) with
          | None => None
          | Some l => Some ((curr, v) :: l)
          end
      end
  end.

(** ** Sample runs

    Concrete inputs on which the properties below are evaluated. *)

(** Lines of text joined by newlines, as bytes. *)
Fixpoint unlines (l : list string) : bytes :=
  match l with
  | [] => []
  | s :: l' => lit s ++ [x0a] ++ unlines l'
  end.

(** A stand-in for a small transcoded image and container. *)
Definition sample_png : bytes :=
  [x89] ++ lit "PNG" ++ [x0d; x0a; x1a; x0a] ++ lit "IHDR-IDAT-IEND".

Definition sample_mp4 : bytes :=
  [x00; x00; x00; x08] ++ lit "ftyp" ++ [x00; x00; x00; x08] ++ lit "moov".

(** A container of 8 bytes whose leading box declares 32 bytes. *)
Definition truncated_inputs : inputs :=
  {| png_bytes := lit "PNG";
     orig_bytes := [x00; x00; x00; x20] ++ lit "ftyp";
     html_text := None; extra_bytes := []; pdf_bytes := None;
     appendables := []; merged_zip := None |}.

(** Extra bytes that end beyond byte 288 of the header once the comment
    marker is added: 22 + 263 + 4 = 289. *)
Definition oversize_extra : bytes := replicate 263 x00.

Definition oversize_inputs (png orig : bytes) (html : option str) : inputs :=
  {| png_bytes := png; orig_bytes := orig; html_text := html;
     extra_bytes := oversize_extra; pdf_bytes := None;
     appendables := []; merged_zip := None |}.

(** A small document with a cross-reference table of two entries. *)
Definition sample_pdf : bytes :=
  unlines
    ["%PDF-1.4"; "1 0 obj"; "<<>>"; "endobj"; "xref"; "0 2";
     "0000000000 65535 f "; "0000000009 00000 n "; "trailer";
     "<</Size 2>>"; "startxref"; "30"; "%%EOF"]%string.

Definition document_inputs : inputs :=
  {| png_bytes := sample_png; orig_bytes := sample_mp4;
     html_text := Some (slit "<b>hi</b>"); extra_bytes := lit "XY";
     pdf_bytes := Some sample_pdf; appendables := [Some (lit "tail")];
     merged_zip := None |}.

(** The regions and the document tail of the run on [document_inputs]. *)
Definition regions_of (m : res regions) : regions :=
  match m with
  | Ok r => r
  | Raise _ => {| ftyp_buffer := []; skip_atom := []; rest_bytes := [] |}
  end.

Definition document_regions : regions :=
  regions_of (build_regions 40 document_inputs).

Definition document_tail : bytes :=
  fst (pdf_tail (len (write_mp4 document_regions)) sample_pdf).

(** A run with a document in which the header buffer, the skip atom (80
    bytes) and the media remainder (700 bytes) add up to 1068 bytes. *)
Definition hanging_inputs : inputs :=
  {| png_bytes := sample_png ++ replicate 50 x00;
     orig_bytes := [x00; x00; x00; x08] ++ lit "ftyp" ++ replicate 700 x00;
     html_text := None; extra_bytes := [];
     pdf_bytes := Some sample_pdf; appendables := []; merged_zip := None |}.

(** A document whose second entry is the largest ten-digit offset. *)
Definition overflow_pdf : bytes :=
  unlines
    ["%PDF-1.4"; "1 0 obj"; "<<>>"; "endobj"; "xref"; "0 2";
     "0000000000 65535 f "; "9999999999 00000 n "; "trailer";
     "<</Size 2>>"; "startxref"; "30"; "%%EOF"]%string.

Definition overflow_inputs : inputs :=
  {| png_bytes := sample_png; orig_bytes := sample_mp4;
     html_text := None; extra_bytes := [];
     pdf_bytes := Some overflow_pdf; appendables := []; merged_zip := None |}.

(** An entry whose offset cannot grow within ten digits. *)
Definition overflow_entry : bytes := lit "9999999999 00000 n " ++ [x0a].

(** ** The layout of the header, field by field

    What lines 85-96 and 132-135 leave in the 288 bytes before anything is
    spliced in: the leading bytes, the little-endian image size and image
    offset, zeros up to byte 240, the brands and the template box. *)
Definition header_lead : bytes :=
  [x00; x00; x01; x20; x01; x00; x00; x00; x00; x00; x00; x00; x20; x00].

Definition header_layout (size_le offset_le : bytes) : bytes :=
  header_lead ++ size_le ++ offset_le ++ replicate 218 x00
  ++ lit "isomiso2avc1mp41" ++ ftyp_template.

(** The spliced content of the header ends by byte [limit]
    ([header_fits] is the case of 288). *)
Definition content_ends_by (limit : Z) (inp : inputs) (r : regions) : Prop :=
  match pdf_bytes inp with
  | None => 22 + len (extra_bytes inp) + 4 <= limit
  | Some pdf =>
      9 <= len pdf /\
      22 + len (extra_bytes inp) + 4 + 10 + len (extra_bytes inp)
        + 29 + len (py_str (288 + len (skip_atom r) + len (rest_bytes r))) <= limit
  end.

(** The file a run leaves, for the statements about sample runs. *)
Definition output_of (m : res bytes) : bytes :=
  match m with
  | Ok out => out
  | Raise _ => []
  end.

(** The sixteen brand bytes of line 135 and the template box of lines
    89-94: bytes 240-287 of the header before anything is spliced in. *)
Definition header_trailer : bytes := lit "isomiso2avc1mp41" ++ ftyp_template.

(** The header with the extra bytes, the comment marker and the document
    part [doc] spliced in, when all of it ends by byte 240. *)
Definition header_with (size_le offset_le extra doc : bytes) : bytes :=
  header_lead ++ size_le ++ offset_le ++ extra ++ lit "<!--" ++ doc
  ++ replicate (214 - length extra - length doc) x00 ++ header_trailer.

(** * Properties *)

(** ** Lengths, slices and byte conversions *)

Lemma len_nonneg {A} (l : list A) : 0 <= len l.
Proof. unfold len. lia. Qed.

Lemma len_app {A} (a b : list A) : len (a ++ b) = len a + len b.
Proof. unfold len. rewrite length_app. lia. Qed.

Lemma len_nil {A} : len (@nil A) = 0.
Proof. reflexivity. Qed.

Lemma norm_index_nonneg {A} (l : list A) k :
  0 <= k -> norm_index l k = Nat.min (Z.to_nat k) (length l).
Proof.
  intros Hk. unfold norm_index, len.
  destruct (Z.ltb_spec k 0); lia.
Qed.

Lemma norm_index_le_length {A} (l : list A) k : (norm_index l k <= length l)%nat.
Proof.
  unfold norm_index, len. destruct (Z.ltb_spec k 0); lia.
Qed.

Lemma slice_nonneg {A} (l : list A) i j :
  0 <= i -> 0 <= j ->
  slice l i j = take (Z.to_nat j - Z.to_nat i) (drop (Z.to_nat i) l).
Proof.
  intros Hi Hj. unfold slice. rewrite !norm_index_nonneg by done.
  destruct (Nat.le_gt_cases (Z.to_nat i) (length l)) as [H|H].
  - rewrite (Nat.min_l _ _ H).
    destruct (Nat.le_gt_cases (Z.to_nat j) (length l)) as [H'|H'].
    + by rewrite (Nat.min_l _ _ H').
    + rewrite Nat.min_r by lia.
      rewrite !take_ge; [done | rewrite length_drop; lia | rewrite length_drop; lia].
  - rewrite (Nat.min_r (Z.to_nat i)) by lia.
    rewrite !drop_ge by lia. by rewrite !take_nil.
Qed.

Lemma slice_to_nonneg {A} (l : list A) j :
  0 <= j -> slice_to l j = take (Z.to_nat j) l.
Proof.
  intros Hj. unfold slice_to. rewrite norm_index_nonneg by done.
  destruct (Nat.le_gt_cases (Z.to_nat j) (length l)) as [H|H].
  - by rewrite Nat.min_l.
  - rewrite Nat.min_r by lia. rewrite !take_ge; [done | lia | lia].
Qed.

Lemma slice_from_nonneg {A} (l : list A) i :
  0 <= i -> slice_from l i = drop (Z.to_nat i) l.
Proof.
  intros Hi. unfold slice_from. rewrite norm_index_nonneg by done.
  destruct (Nat.le_gt_cases (Z.to_nat i) (length l)) as [H|H].
  - by rewrite Nat.min_l.
  - rewrite Nat.min_r by lia. rewrite !drop_ge; [done | lia | lia].
Qed.

(** A slice assignment that lies inside the buffer. *)
Lemma set_slice_inside {A} (l : list A) i j v :
  0 <= i <= j -> j <= len l ->
  set_slice l i j v = take (Z.to_nat i) l ++ v ++ drop (Z.to_nat j) l.
Proof.
  unfold len. intros Hij Hj. unfold set_slice.
  rewrite !norm_index_nonneg by lia.
  rewrite !Nat.min_l by lia. by rewrite Nat.max_r by lia.
Qed.

(** The general shape for non-negative bounds: both bounds are clamped to
    the length, and the upper one to the lower one. *)
Lemma set_slice_nonneg {A} (l : list A) i j v :
  0 <= i -> 0 <= j ->
  set_slice l i j v =
    take (Z.to_nat i) l ++ v ++ drop (Nat.max (Z.to_nat i) (Z.to_nat j)) l.
Proof.
  intros Hi Hj. unfold set_slice. rewrite !norm_index_nonneg by lia.
  destruct (Nat.le_gt_cases (Z.to_nat i) (length l)) as [H|H].
  - rewrite (Nat.min_l _ _ H). do 2 f_equal.
    destruct (Nat.le_gt_cases (Z.to_nat j) (length l)) as [H'|H'].
    + by rewrite (Nat.min_l _ _ H').
    + rewrite (Nat.min_r (Z.to_nat j)) by lia. rewrite !drop_ge; [done | lia | lia].
  - rewrite (Nat.min_r (Z.to_nat i)) by lia.
    rewrite (take_ge l (Z.to_nat i)) by lia. rewrite take_ge by lia.
    rewrite !drop_ge; [done | lia | lia].
Qed.

Lemma length_set_slice {A} (l : list A) i j v :
  0 <= i -> 0 <= j ->
  length (set_slice l i j v) =
    (Nat.min (Z.to_nat i) (length l) + length v
     + (length l - Nat.max (Z.to_nat i) (Z.to_nat j)))%nat.
Proof.
  intros Hi Hj. rewrite set_slice_nonneg by done.
  rewrite !length_app, length_take, length_drop. lia.
Qed.

(** A slice assignment of as many bytes as the (in-range) slice is wide
    keeps the length. *)
Lemma length_set_slice_same {A} (l : list A) i j v :
  0 <= i <= j -> j <= len l -> len v = j - i ->
  length (set_slice l i j v) = length l.
Proof.
  unfold len. intros Hij Hj Hv. rewrite length_set_slice by lia. lia.
Qed.

Lemma length_set_item l i v l' : set_item l i v = Ok l' -> length l' = length l.
Proof.
  unfold set_item. intros H.
  destruct (_ && _); [|destruct (_ && _)]; inversion H; subst;
    apply length_insert.
Qed.

Lemma set_item_ok l i v :
  0 <= i < len l -> set_item l i v = Ok (<[Z.to_nat i := v]> l).
Proof.
  intros [H1 H2]. unfold set_item.
  apply Z.leb_le in H1. apply Z.ltb_lt in H2. by rewrite H1, H2.
Qed.

Lemma byte_to_of_Z n : byte_to_Z (byte_of_Z n) = n mod 256.
Proof.
  unfold byte_to_Z, byte_of_Z.
  assert (Hr : 0 <= n mod 256 < 256) by (apply Z.mod_pos_bound; lia).
  destruct (Byte.of_N (Z.to_N (n mod 256))) as [b|] eqn:E.
  - apply Byte.to_of_N in E. rewrite E. lia.
  - apply Byte.of_N_None_iff in E. lia.
Qed.

Lemma length_le_bytes n v : length (le_bytes n v) = n.
Proof. revert v. induction n as [|n IH]; intros v; simpl; [done | by rewrite IH]. Qed.

Lemma int_from_bytes_be_snoc b x :
  int_from_bytes_be (b ++ [x]) = int_from_bytes_be b * 256 + byte_to_Z x.
Proof. unfold int_from_bytes_be. by rewrite fold_left_app. Qed.

(** Big-endian decoding inverts the encoding, up to the width. *)
Lemma int_from_bytes_be_le_bytes n v :
  0 <= v -> int_from_bytes_be (rev (le_bytes n v)) = v mod 256 ^ Z.of_nat n.
Proof.
  revert v. induction n as [|n IH]; intros v Hv.
  - simpl. by rewrite Z.mod_1_r.
  - cbn [le_bytes rev]. rewrite int_from_bytes_be_snoc, byte_to_of_Z.
    rewrite IH by (apply Z.div_pos; lia).
    rewrite Nat2Z.inj_succ, Z.pow_succ_r by lia.
    rewrite (Z.rem_mul_r v 256 (256 ^ Z.of_nat n)) by lia. lia.
Qed.

Lemma number_to_4b_be_ok num :
  0 <= num < 2 ^ 32 ->
  exists size, number_to_4b_be num = Ok size /\ length size = 4%nat
               /\ int_from_bytes_be size = num.
Proof.
  intros [H1 H2]. exists (rev (le_bytes 4 num)).
  unfold number_to_4b_be, to_bytes4_le.
  apply Z.leb_le in H1 as H1'. apply Z.ltb_lt in H2 as H2'. rewrite H1', H2'. cbn [bind andb].
  split; [done|]. split; [by rewrite length_rev, length_le_bytes|].
  rewrite int_from_bytes_be_le_bytes by done.
  apply Z.mod_small. change (Z.of_nat 4) with 4. change (256 ^ 4) with (2 ^ 32). lia.
Qed.

Lemma number_to_4b_le_ok num :
  0 <= num < 2 ^ 32 ->
  number_to_4b_le num = Ok (le_bytes 4 num) /\
  int_from_bytes_le (le_bytes 4 num) = num.
Proof.
  intros [H1 H2]. unfold number_to_4b_le, to_bytes4_le, int_from_bytes_le.
  apply Z.leb_le in H1 as H1'. apply Z.ltb_lt in H2 as H2'. rewrite H1', H2'.
  split; [done|].
  rewrite int_from_bytes_be_le_bytes by done.
  apply Z.mod_small. change (Z.of_nat 4) with 4. change (256 ^ 4) with (2 ^ 32). lia.
Qed.

Lemma number_to_4b_le_inv num b :
  number_to_4b_le num = Ok b ->
  0 <= num < 2 ^ 32 /\ b = le_bytes 4 num.
Proof.
  unfold number_to_4b_le, to_bytes4_le.
  destruct (Z.leb_spec 0 num), (Z.ltb_spec num (2 ^ 32)); cbn; intros E;
    inversion E; auto.
Qed.

Lemma number_to_4b_be_inv num b :
  number_to_4b_be num = Ok b ->
  0 <= num < 2 ^ 32 /\ b = rev (le_bytes 4 num).
Proof.
  unfold number_to_4b_be, to_bytes4_le.
  destruct (Z.leb_spec 0 num), (Z.ltb_spec num (2 ^ 32)); cbn; intros E;
    inversion E; auto.
Qed.

(** The string helpers on small inputs. *)
Example pad_left_42 : pad_left 42 10 (slit "0") = slit "0000000042".
Proof. reflexivity. Qed.
Example py_int_pad : py_int (slit " 0000000042 ") = Ok 42.
Proof. reflexivity. Qed.
Example py_int_underscore : py_int (slit "1_000") = Ok 1000.
Proof. reflexivity. Qed.
Example py_int_bad : py_int (slit "12 3") = Raise ValueError.
Proof. reflexivity. Qed.
Example py_int_separator :
  strip [28%N; 50%N] = [50%N] /\ py_int [28%N; 50%N] = Raise ValueError.
Proof. split; reflexivity. Qed.
Example py_str_neg : py_str (-1203) = slit "-1203".
Proof. reflexivity. Qed.

(** ** Inversion of the monadic definitions *)

Lemma bind_ok {A B} (m : res A) (k : A -> res B) b :
  bind m k = Ok b -> exists a, m = Ok a /\ k a = Ok b.
Proof. destruct m as [a|e]; cbn; [eauto | discriminate]. Qed.

Ltac inv_bind H :=
  let a := fresh "a" in
  let E := fresh "E" in
  apply bind_ok in H; destruct H as (a & E & H).

Lemma encode_utf8_app s t bs bt :
  encode_utf8 s = Ok bs -> encode_utf8 t = Ok bt ->
  encode_utf8 (s ++ t) = Ok (bs ++ bt).
Proof.
  revert bs. induction s as [|c s IH]; intros bs Hs Ht; cbn in *.
  - by inversion Hs.
  - inv_bind Hs. inv_bind Hs. inversion Hs; subst.
    rewrite E. cbn. rewrite (IH _ E0 Ht). cbn. by rewrite app_assoc.
Qed.

Lemma build_skip_atom_unfold png html :
  build_skip_atom png html =
    (do html_bytes <- encode_utf8 html;
     do size <- number_to_4b_be (len (html_bytes ++ png) + 8);
     Ok ((size ++ lit "skip") ++ html_bytes ++ png)).
Proof. unfold build_skip_atom. by destruct html. Qed.

Lemma build_skip_atom_inv png html box :
  build_skip_atom png html = Ok box ->
  exists hb,
    encode_utf8 html = Ok hb /\
    0 <= len (hb ++ png) + 8 < 2 ^ 32 /\
    box = rev (le_bytes 4 (len (hb ++ png) + 8)) ++ lit "skip" ++ hb ++ png.
Proof.
  rewrite build_skip_atom_unfold. intros H.
  inv_bind H. inv_bind H. inversion H; subst.
  apply number_to_4b_be_inv in E0 as [Hr ->].
  exists a. by rewrite <- app_assoc.
Qed.

(** What a successful [build_regions] went through. *)
Lemma build_regions_inv fuel inp r :
  build_regions fuel inp = Ok r ->
  exists f0 henc f1,
    ftyp_init (len (png_bytes inp)) = Ok f0 /\
    build_skip_atom (png_bytes inp) (make_html_string (html_text inp))
      = Ok (skip_atom r) /\
    encode_utf8 (make_html_string (html_text inp)) = Ok henc /\
    ftyp_offsets f0 (len f0 + len (slice_to (skip_atom r) 8) + len henc) = Ok f1 /\
    match pdf_bytes inp with
    | Some pdf =>
        ftyp_pdf fuel (fst (ftyp_extra f1 (extra_bytes inp)))
          (snd (ftyp_extra f1 (extra_bytes inp))) (extra_bytes inp) pdf
          (len (skip_atom r)) (len (rest_bytes r))
    | None => Ok (fst (ftyp_extra f1 (extra_bytes inp)))
    end = Ok (ftyp_buffer r) /\
    rest_bytes r = strip_leading_box (orig_bytes inp).
Proof.
  unfold build_regions. intros H.
  inv_bind H. inv_bind H. inv_bind H. inv_bind H.
  destruct (ftyp_extra a2 (extra_bytes inp)) as [b addr] eqn:Ex.
  inv_bind H. inversion H; subst r; clear H.
  cbn [ftyp_buffer skip_atom rest_bytes fst snd].
  exists a, a1, a2. rewrite Ex. cbn [fst snd]. by repeat split.
Qed.

(** ** The skip atom *)

Lemma length_lit_skip : length (lit "skip") = 4%nat.
Proof. reflexivity. Qed.

(** C2: the wrapper box is [size ++ "skip" ++ payload], where the payload
    is the UTF-8 bytes of the hypertext string (none for the empty string)
    followed by the image bytes, and the four big-endian bytes [size]
    decode to the payload length plus 8.  The box is a function of the two
    inputs alone. *)
Theorem skip_box_layout (png : bytes) (html : str) (hb : bytes) :
  encode_utf8 html = Ok hb ->
  len (hb ++ png) + 8 < 2 ^ 32 ->
  exists size,
    build_skip_atom png html = Ok (size ++ lit "skip" ++ (hb ++ png)) /\
    length size = 4%nat /\
    int_from_bytes_be size = len (hb ++ png) + 8 /\
    (html = [] -> hb = []).
Proof.
  intros Henc Hfit.
  destruct (number_to_4b_be_ok (len (hb ++ png) + 8)) as (size & Hs & Hl & Hv).
  { pose proof (len_nonneg (hb ++ png)). lia. }
  exists size. rewrite build_skip_atom_unfold, Henc. cbn [bind].
  rewrite Hs. cbn [bind]. rewrite <- app_assoc.
  repeat split; try done.
  intros ->. cbn in Henc. by inversion Henc.
Qed.

Lemma skip_box_layout_witness :
  exists size,
    build_skip_atom (lit "PNG") (slit "<p>") = Ok (size ++ lit "skip" ++ (lit "<p>" ++ lit "PNG")) /\
    length size = 4%nat /\
    int_from_bytes_be size = len (lit "<p>" ++ lit "PNG") + 8 /\
    (slit "<p>" = [] -> lit "<p>" = []).
Proof.
  apply (skip_box_layout (lit "PNG") (slit "<p>") (lit "<p>")).
  - reflexivity.
  - vm_compute. reflexivity.
Defined.

Lemma length_skip_atom png html box :
  build_skip_atom png html = Ok box -> (8 <= length box)%nat.
Proof.
  intros H. apply build_skip_atom_inv in H as (hb & _ & _ & ->).
  rewrite !length_app, length_rev, length_le_bytes, length_lit_skip. lia.
Qed.

(** The box header is eight bytes: [len(skip_atom[:8]) = 8]. *)
Lemma len_skip_head png html box :
  build_skip_atom png html = Ok box -> len (slice_to box 8) = 8.
Proof.
  intros H. apply length_skip_atom in H.
  rewrite slice_to_nonneg by lia. unfold len. rewrite length_take. lia.
Qed.

(** ** Re-assembly of the container *)


(** C3, as stated, fails: a container of 8 bytes that declares a leading
    box of 32 bytes is accepted, and the run produces its output. *)
Lemma truncated_container_accepted :
  len (orig_bytes truncated_inputs)
    < int_from_bytes_be (slice (orig_bytes truncated_inputs) 0 4) /\
  is_ok (main 0 truncated_inputs) = true /\
  (exists r, build_regions 0 truncated_inputs = Ok r /\ rest_bytes r = []).
Proof.
  split; [vm_compute; reflexivity|]. split; [vm_compute; reflexivity|].
  eexists. split; [vm_compute; reflexivity | reflexivity].
Qed.

(** C3, amended: the first four bytes of the container are read as a
    big-endian length, that many leading bytes are dropped and the result
    is header ++ wrapper box ++ remainder; a declared length beyond the end
    of the container is not an error: the remainder is then empty. *)
Theorem reassemble_clamps (fuel : nat) (inp : inputs) (r : regions) :
  build_regions fuel inp = Ok r ->
  let n := int_from_bytes_be (take 4 (orig_bytes inp)) in
  rest_bytes r = drop (Z.to_nat n) (orig_bytes inp) /\
  final_mp4 r = ftyp_buffer r ++ skip_atom r ++ rest_bytes r /\
  (len (orig_bytes inp) < n ->
     rest_bytes r = [] /\ final_mp4 r = ftyp_buffer r ++ skip_atom r).
Proof.
  intros H n. apply build_regions_inv in H as (f0 & henc & f1 & _ & _ & _ & _ & _ & Hrest).
  assert (Hn : 0 <= n).
  { unfold n, int_from_bytes_be.
    generalize (take 4 (orig_bytes inp)). intros l.
    assert (G : forall acc, 0 <= acc -> 0 <= fold_left (fun a x => a * 256 + byte_to_Z x) l acc).
    { induction l as [|x l IH]; intros acc Hacc; cbn; [done|].
      apply IH. unfold byte_to_Z. lia. }
    by apply G. }
  assert (Hr : rest_bytes r = drop (Z.to_nat n) (orig_bytes inp)).
  { rewrite Hrest. unfold strip_leading_box.
    rewrite (slice_nonneg _ 0 4) by lia. cbn [Z.to_nat Pos.to_nat Pos.iter_op Nat.add Nat.sub drop].
    change (4 - 0)%nat with 4%nat. fold n. by rewrite slice_from_nonneg. }
  split; [done|]. split; [done|].
  intros Hlt. assert (rest_bytes r = []) as Hnil.
  { rewrite Hr. apply drop_ge. unfold len in Hlt. lia. }
  split; [done|]. unfold final_mp4. by rewrite Hnil, app_nil_r.
Qed.

Lemma reassemble_clamps_witness :
  exists r,
    build_regions 0 truncated_inputs = Ok r /\
    rest_bytes r = [] /\ final_mp4 r = ftyp_buffer r ++ skip_atom r.
Proof.
  eexists. split; [vm_compute; reflexivity|].
  apply (reassemble_clamps 0 truncated_inputs); [vm_compute; reflexivity|].
  vm_compute. reflexivity.
Defined.

(** ** Decimal rendering and parsing *)

Lemma digits_fuel_acc fuel n acc :
  digits_fuel fuel n acc = digits_fuel fuel n [] ++ acc.
Proof.
  revert n acc. induction fuel as [|f IH]; intros n acc; cbn; [done|].
  destruct (n / 10 =? 0)%N; [done|].
  rewrite (IH _ (_ :: acc)), (IH _ [_]). by rewrite <- app_assoc.
Qed.

Lemma div10_lt_pow2 n k :
  (n < 2 ^ N.of_nat (S k))%N -> (n / 10 < 2 ^ N.of_nat k)%N.
Proof.
  intros Hk. rewrite Nat2N.inj_succ, N.pow_succ_r' in Hk.
  apply N.Div0.div_lt_upper_bound. lia.
Qed.

(** Any fuel that reaches the bit length gives the same digits. *)
Lemma digits_fuel_enough f1 f2 n acc :
  (n < 2 ^ N.of_nat (S f1))%N -> (n < 2 ^ N.of_nat (S f2))%N ->
  digits_fuel (S f1) n acc = digits_fuel (S f2) n acc.
Proof.
  revert f2 n acc. induction f1 as [|f1 IH]; intros f2 n acc H1 H2.
  - apply div10_lt_pow2 in H1. change (2 ^ N.of_nat 0)%N with 1%N in H1.
    cbn [digits_fuel]. apply N.lt_1_r in H1. by rewrite H1.
  - cbn [digits_fuel]. destruct (N.eqb_spec (n / 10) 0) as [E|E]; [done|].
    destruct f2 as [|f2].
    { apply div10_lt_pow2 in H2. change (2 ^ N.of_nat 0)%N with 1%N in H2.
      by apply N.lt_1_r in H2. }
    change (digits_fuel (S f1) (n / 10) ((48 + n mod 10)%N :: acc)
            = digits_fuel (S f2) (n / 10) ((48 + n mod 10)%N :: acc)).
    apply IH; by apply div10_lt_pow2.
Qed.

Lemma digits_fuel_S f n acc :
  digits_fuel (S f) n acc =
    if (n / 10 =? 0)%N then (48 + n mod 10)%N :: acc
    else digits_fuel f (n / 10) ((48 + n mod 10)%N :: acc).
Proof. reflexivity. Qed.

Lemma lt_pow2_log2 n : (n < 2 ^ N.of_nat (S (N.to_nat (N.log2 n))))%N.
Proof.
  destruct (N.eq_dec n 0%N) as [->|Hn]; [done|].
  rewrite Nat2N.inj_succ, N2Nat.id. apply N.log2_spec. lia.
Qed.

Lemma str_of_N_small n : (n < 10)%N -> str_of_N n = [(48 + n)%N].
Proof.
  intros H. unfold str_of_N. cbn [digits_fuel].
  rewrite N.div_small, N.mod_small by done. done.
Qed.

Lemma str_of_N_step n :
  (10 <= n)%N -> str_of_N n = str_of_N (n / 10) ++ [(48 + n mod 10)%N].
Proof.
  intros H. unfold str_of_N.
  pose proof (lt_pow2_log2 n) as Hn.
  assert (Hl : (1 <= N.log2 n)%N).
  { change 1%N with (N.log2 2). apply N.log2_le_mono. lia. }
  destruct (N.to_nat (N.log2 n)) as [|f] eqn:Ef; [lia|].
  rewrite (digits_fuel_S (S f) n).
  destruct (N.eqb_spec (n / 10) 0) as [E|E].
  { apply N.div_small_iff in E; lia. }
  rewrite digits_fuel_acc. f_equal.
  apply digits_fuel_enough; [|apply lt_pow2_log2].
  rewrite (Nat2N.inj_succ (S f)), N.pow_succ_r' in Hn.
  apply N.Div0.div_lt_upper_bound. lia.
Qed.

Lemma div10_lt_iff n x : (n / 10 < x)%N <-> (n < 10 * x)%N.
Proof.
  split; [|apply N.Div0.div_lt_upper_bound].
  pose proof (N.Div0.div_mod n 10) as E.
  assert (n mod 10 < 10)%N as Hm by (apply N.mod_lt; lia).
  revert E Hm. generalize (n mod 10)%N (n / 10)%N. intros m q E Hm Hq. lia.
Qed.

(** Induction along the decimal digits. *)
Lemma N_digits_ind (P : N -> Prop) :
  (forall n, (n < 10)%N -> P n) ->
  (forall n, (10 <= n)%N -> P (n / 10)%N -> P n) ->
  forall n, P n.
Proof.
  intros Hsmall Hstep n.
  induction n as [n IH] using (well_founded_induction N.lt_wf_0).
  destruct (N.lt_ge_cases n 10) as [H|H]; [by apply Hsmall|].
  apply Hstep; [done|]. apply IH. apply N.div_lt; lia.
Qed.

Lemma str_of_N_digits n : Forall (fun c => is_digit c = true) (str_of_N n).
Proof.
  induction n as [n H | n H IH] using N_digits_ind.
  - rewrite str_of_N_small by done. constructor; [|done].
    unfold is_digit. apply andb_true_iff. split; apply N.leb_le; lia.
  - rewrite str_of_N_step by done. apply Forall_app. split; [done|].
    constructor; [|done].
    assert (n mod 10 < 10)%N as Hm by (apply N.mod_lt; lia).
    revert Hm. generalize (n mod 10)%N. intros d Hd.
    unfold is_digit. apply andb_true_iff. split; apply N.leb_le; lia.
Qed.

Lemma str_of_N_nonempty n : (1 <= length (str_of_N n))%nat.
Proof.
  destruct (N.lt_ge_cases n 10) as [H|H].
  - by rewrite str_of_N_small.
  - rewrite str_of_N_step, length_app by done. cbn. lia.
Qed.

(** The number of digits against the magnitude. *)
Lemma length_str_of_N_le n k :
  (length (str_of_N n) <= S k)%nat <-> (n < 10 ^ N.of_nat (S k))%N.
Proof.
  revert n. induction k as [|k IH]; intros n.
  - change (10 ^ N.of_nat 1)%N with 10%N.
    destruct (N.lt_ge_cases n 10) as [H|H].
    + rewrite str_of_N_small by done. cbn. split; [done | lia].
    + rewrite str_of_N_step, length_app by done.
      pose proof (str_of_N_nonempty (n / 10)). cbn [length]. split; lia.
  - destruct (N.lt_ge_cases n 10) as [H|H].
    + rewrite str_of_N_small by done. cbn [length]. split; [|lia].
      intros _. eapply N.lt_le_trans; [exact H|].
      change 10%N with (10 ^ 1)%N at 1. apply N.pow_le_mono_r; lia.
    + rewrite str_of_N_step, length_app by done. cbn [length].
      specialize (IH (n / 10)%N).
      rewrite (Nat2N.inj_succ (S k)), N.pow_succ_r'.
      rewrite <- div10_lt_iff, <- IH. lia.
Qed.

Lemma dec_value_app s t acc :
  dec_value (s ++ t) acc = dec_value t (dec_value s acc).
Proof. unfold dec_value. apply fold_left_app. Qed.

Lemma parse_digits_digit_str s acc p :
  digit_str s -> (s <> [] \/ p = true) ->
  parse_digits s acc p = Ok (dec_value s acc).
Proof.
  intros Hs. revert acc p. induction Hs as [|c s Hc Hs IH]; intros acc p Hp.
  - destruct Hp as [Hp | ->]; done.
  - cbn [parse_digits]. rewrite Hc. apply IH. by right.
Qed.

Lemma dec_value_zeros k acc :
  acc = 0 -> dec_value (replicate k 48%N) acc = 0.
Proof.
  intros ->. induction k as [|k IH]; [done|]. exact IH.
Qed.

Lemma dec_value_str_of_N n : dec_value (str_of_N n) 0 = Z.of_N n.
Proof.
  induction n as [n H | n H IH] using N_digits_ind.
  - rewrite str_of_N_small by done. cbn. lia.
  - rewrite str_of_N_step, dec_value_app, IH by done. cbn.
    pose proof (N.Div0.div_mod n 10) as E.
    revert E. generalize (n mod 10)%N (n / 10)%N. intros m q E. lia.
Qed.

Lemma digit_str_zeros k : digit_str (replicate k 48%N).
Proof. apply Forall_replicate. reflexivity. Qed.

Lemma is_digit_not_space c : is_digit c = true -> is_space c = false.
Proof.
  unfold is_digit, is_space. intros H. apply andb_true_iff in H as [H1 H2].
  apply N.leb_le in H1, H2.
  apply orb_false_iff. split; apply andb_false_iff.
  - right. apply N.leb_gt. lia.
  - right. apply N.leb_gt. lia.
Qed.

Lemma is_digit_ascii c : is_digit c = true -> (c < 128)%N.
Proof.
  unfold is_digit. intros H. apply andb_true_iff in H as [H1 H2].
  apply N.leb_le in H2. lia.
Qed.

Lemma lstrip_no_space s :
  Forall (fun c => is_space c = false) s -> lstrip s = s.
Proof. intros [|c s' Hc _]; [done|]. cbn. by rewrite Hc. Qed.

(** A string without white space is its own [strip]. *)
Lemma strip_no_space s :
  Forall (fun c => is_space c = false) s -> strip s = s.
Proof.
  intros H. unfold strip. rewrite (lstrip_no_space s) by done.
  rewrite lstrip_no_space by (by apply Forall_rev).
  apply rev_involutive.
Qed.

(** What [int] skips, [str.strip] strips. *)
Lemma not_space_not_int_space c : is_space c = false -> is_int_space c = false.
Proof.
  unfold is_space, is_int_space. intros H.
  apply orb_false_iff in H as [H1 H2]. rewrite H1. cbn [orb].
  apply N.eqb_neq. intros ->. discriminate H2.
Qed.

Lemma int_lstrip_no_space s :
  Forall (fun c => is_space c = false) s -> int_lstrip s = s.
Proof.
  intros [|c s' Hc _]; [done|]. cbn. by rewrite (not_space_not_int_space c Hc).
Qed.

Lemma int_strip_no_space s :
  Forall (fun c => is_space c = false) s -> int_strip s = s.
Proof.
  intros H. unfold int_strip. rewrite (int_lstrip_no_space s) by done.
  rewrite int_lstrip_no_space by (by apply Forall_rev).
  apply rev_involutive.
Qed.

Lemma strip_digit_str s : digit_str s -> strip s = s.
Proof.
  intros H. apply strip_no_space. eapply Forall_impl; [exact H|].
  apply is_digit_not_space.
Qed.

(** [int] reads a non-empty digit string as its decimal value. *)
Lemma py_int_digit_str s :
  digit_str s -> s <> [] -> py_int s = Ok (dec_value s 0).
Proof.
  intros Hs Hne. unfold py_int.
  rewrite int_strip_no_space
    by (eapply Forall_impl; [exact Hs | apply is_digit_not_space]).
  destruct s as [|c d]; [done|].
  assert (Hc : is_digit c = true) by (by inversion Hs).
  unfold is_digit in Hc. apply andb_true_iff in Hc as [H1 H2].
  apply N.leb_le in H1, H2.
  destruct (N.eqb_spec c 45); [lia|]. destruct (N.eqb_spec c 43); [lia|].
  apply parse_digits_digit_str; [done | by left].
Qed.

Lemma concat_replicate_singleton {A} k (x : A) :
  concat (replicate k [x]) = replicate k x.
Proof. induction k as [|k IH]; cbn; [done | by rewrite IH]. Qed.

Lemma encode_utf8_ascii s :
  ascii_str s -> encode_utf8 s = Ok (map byte_of_N s).
Proof.
  induction 1 as [|c s Hc Hs IH]; [done|].
  cbn [encode_utf8 map]. rewrite IH. unfold utf8_encode_cp.
  destruct (N.ltb_spec c 128); [done | lia].
Qed.

Lemma digit_str_ascii s : digit_str s -> ascii_str s.
Proof. intros H. eapply Forall_impl; [exact H|]. apply is_digit_ascii. Qed.

(** A digit string survives encoding and decoding. *)
Lemma byte_to_N_of_N c : (c < 128)%N -> Byte.to_N (byte_of_N c) = c.
Proof.
  intros H. pose proof (byte_to_of_Z (Z.of_N c)) as E.
  unfold byte_to_Z in E. fold (byte_of_N c) in E.
  rewrite Z.mod_small in E by lia. lia.
Qed.

Lemma decode_encode_ascii s :
  ascii_str s -> decode_utf8 (map byte_of_N s) = Ok s.
Proof.
  intros H. unfold ascii_str in H. unfold decode_utf8.
  assert (forallb (fun x => byte_to_Z x <? 128) (map byte_of_N s) = true) as ->.
  { apply forallb_forall. intros x Hx. apply in_map_iff in Hx as (c & <- & Hc).
    rewrite Forall_forall in H. apply list_elem_of_In, H in Hc.
    unfold byte_to_Z. rewrite byte_to_N_of_N by done. apply Z.ltb_lt. lia. }
  f_equal. rewrite map_map. rewrite <- (map_id s) at 2.
  apply map_ext_in. intros c Hc. rewrite Forall_forall in H.
  apply byte_to_N_of_N, H. by apply list_elem_of_In.
Qed.

(** ** [pad_left] and the ten-character offset field *)

Lemma py_str_nonneg v : 0 <= v -> py_str v = str_of_N (Z.to_N v).
Proof. intros H. unfold py_str. destruct (Z.ltb_spec v 0); [lia | done]. Qed.

Lemma len_py_str_le v k :
  0 <= v -> (len (py_str v) <= Z.of_nat (S k) <-> v < 10 ^ Z.of_nat (S k)).
Proof.
  intros Hv. rewrite py_str_nonneg by done. unfold len.
  rewrite <- Nat2Z.inj_le, length_str_of_N_le.
  rewrite <- (Z2N.id v) at 2 by done.
  change 10 with (Z.of_N 10). rewrite <- nat_N_Z, <- N2Z.inj_pow. lia.
Qed.

(** Below ten digits [pad_left] gives exactly ten digits that read back as
    the number. *)
Lemma pad_left_10 v :
  0 <= v < 10 ^ 10 ->
  let field := pad_left v 10 (slit "0") in
  length field = 10%nat /\ digit_str field /\ dec_value field 0 = v /\
  slice_to field 10 = field.
Proof.
  intros [H0 H1]. cbn zeta. unfold pad_left.
  change (slit "0") with [48%N]. rewrite concat_replicate_singleton.
  assert (Hl : len (py_str v) <= 10) by (by apply (len_py_str_le v 9)).
  rewrite py_str_nonneg in * by done.
  pose proof (str_of_N_nonempty (Z.to_N v)) as Hne. unfold len in *.
  rewrite Z.max_r by lia.
  assert (Hlen : length (replicate (Z.to_nat (10 - Z.of_nat (length (str_of_N (Z.to_N v))))) 48%N
                         ++ str_of_N (Z.to_N v)) = 10%nat).
  { rewrite length_app, length_replicate. lia. }
  split; [done|]. split.
  { apply Forall_app. split; [apply digit_str_zeros | apply str_of_N_digits]. }
  split.
  { rewrite dec_value_app, dec_value_zeros by done. rewrite dec_value_str_of_N. lia. }
  rewrite slice_to_nonneg by lia. apply take_ge. lia.
Qed.

(** ** Slice assignment: what it keeps *)

Section set_slice_frame.
Context {A : Type}.
Implicit Types (l v : list A) (i j k : Z).

(** Bytes before the slice are kept, whatever the slice does. *)
Lemma take_set_slice l i j v (k : nat) :
  0 <= i -> 0 <= j -> (k <= Z.to_nat i)%nat -> (k <= length l)%nat ->
  take k (set_slice l i j v) = take k l.
Proof.
  intros Hi Hj Hk Hl. rewrite set_slice_nonneg by done.
  rewrite take_app_le by (rewrite length_take; lia).
  rewrite take_take. f_equal. lia.
Qed.

Lemma length_set_slice_ge l i j v (k : nat) :
  0 <= i -> 0 <= j -> (k <= Z.to_nat i)%nat -> (k <= length l)%nat ->
  (k <= length (set_slice l i j v))%nat.
Proof. intros. rewrite length_set_slice by done. lia. Qed.

(** Bytes after an in-range slice keep their place when the new content
    has the width of the slice. *)
Lemma drop_set_slice l i j v (k : nat) :
  0 <= i <= j -> j <= len l -> len v = j - i -> (Z.to_nat j <= k)%nat ->
  drop k (set_slice l i j v) = drop k l.
Proof.
  unfold len. intros Hij Hj Hv Hk. rewrite set_slice_inside by (unfold len; lia).
  rewrite drop_app_ge by (rewrite length_take; lia).
  rewrite length_take, Nat.min_l by lia.
  rewrite drop_app_ge by lia. rewrite drop_drop. f_equal. lia.
Qed.

(** Reading back the slice that was written. *)
Lemma slice_set_slice l i j v :
  0 <= i <= j -> j <= len l -> len v = j - i ->
  slice (set_slice l i j v) i j = v.
Proof.
  unfold len. intros Hij Hj Hv. rewrite slice_nonneg by lia.
  rewrite set_slice_inside by (unfold len; lia).
  rewrite drop_app_ge by (rewrite length_take; lia).
  rewrite length_take, Nat.min_l by lia.
  replace (Z.to_nat i - Z.to_nat i)%nat with 0%nat by lia. rewrite drop_0.
  rewrite take_app_le by lia. apply take_ge. lia.
Qed.

(** A slice is determined by the prefix that contains it... *)
Lemma slice_take l i j (k : nat) :
  0 <= i -> 0 <= j -> (Z.to_nat j <= k)%nat ->
  slice (take k l) i j = slice l i j.
Proof.
  intros Hi Hj Hk. rewrite !slice_nonneg by done.
  destruct (Z.le_gt_cases i j) as [Hij|Hij].
  - rewrite !take_drop_commute, take_take. do 2 f_equal. lia.
  - replace (Z.to_nat j - Z.to_nat i)%nat with 0%nat by lia. done.
Qed.

(** ... and by the suffix that contains it. *)
Lemma slice_drop l i j (k : nat) :
  0 <= i -> 0 <= j -> (k <= Z.to_nat i)%nat -> (k <= Z.to_nat j)%nat ->
  slice (drop k l) (i - Z.of_nat k) (j - Z.of_nat k) = slice l i j.
Proof.
  intros Hi Hj Hk Hk'. rewrite !slice_nonneg by lia. rewrite drop_drop.
  f_equal; [lia|]. f_equal. lia.
Qed.

Lemma slice_eq_take l l' i j (k : nat) :
  0 <= i -> 0 <= j -> (Z.to_nat j <= k)%nat ->
  take k l = take k l' -> slice l i j = slice l' i j.
Proof.
  intros Hi Hj Hk E. rewrite <- (slice_take l i j k), <- (slice_take l' i j k) by done.
  by rewrite E.
Qed.

Lemma slice_eq_drop l l' i j (k : nat) :
  0 <= i -> 0 <= j -> (k <= Z.to_nat i)%nat -> (k <= Z.to_nat j)%nat ->
  drop k l = drop k l' -> slice l i j = slice l' i j.
Proof.
  intros Hi Hj Hk Hk' E.
  rewrite <- (slice_drop l i j k), <- (slice_drop l' i j k) by done.
  by rewrite E.
Qed.
End set_slice_frame.

Lemma take_set_item l i v l' (k : nat) :
  set_item l i v = Ok l' -> 0 <= i -> (k <= Z.to_nat i)%nat ->
  take k l' = take k l.
Proof.
  intros H Hi Hk. unfold set_item in H.
  destruct (Z.leb_spec 0 i); [|lia]. destruct (Z.ltb_spec i (len l)); cbn in H.
  - inversion H; subst. by rewrite take_insert_ge.
  - destruct (Z.leb_spec (- len l) i); destruct (Z.ltb_spec i 0); cbn in H; try discriminate; lia.
Qed.

(** ** The header buffer *)

Lemma length_ftyp_init sz f0 : ftyp_init sz = Ok f0 -> length f0 = 288%nat.
Proof.
  unfold ftyp_init. intros H.
  inv_bind H. inv_bind H. inv_bind H. inv_bind H. inversion H; subst; clear H.
  apply length_set_item in E, E0, E1. apply number_to_4b_le_inv in E2 as [_ ->].
  assert (L0 : length a = 288%nat) by (rewrite E; reflexivity).
  assert (L1 : length a0 = 288%nat) by lia.
  assert (L2 : length (set_slice a0 4 8 (lit "ftyp")) = 288%nat).
  { rewrite length_set_slice_same; [done | lia | unfold len; lia | reflexivity]. }
  assert (L3 : length (set_slice (set_slice a0 4 8 (lit "ftyp")) 256 288 ftyp_template) = 288%nat).
  { rewrite length_set_slice_same; [done | lia | unfold len; lia | reflexivity]. }
  rewrite length_set_slice_same; [lia | lia | unfold len; lia | reflexivity].
Qed.

(** Lines 132-135 keep the buffer at 288 bytes and leave the little-endian
    image offset in bytes 18-21. *)
Lemma ftyp_offsets_spec f0 off f1 :
  length f0 = 288%nat -> ftyp_offsets f0 off = Ok f1 ->
  length f1 = 288%nat /\ slice f1 18 22 = le_bytes 4 off /\ 0 <= off < 2 ^ 32.
Proof.
  unfold ftyp_offsets. intros L H. inv_bind H. inversion H; subst; clear H.
  apply number_to_4b_le_inv in E as [Hr ->].
  set (b1 := set_slice f0 18 22 (le_bytes 4 off)).
  assert (L1 : length b1 = 288%nat).
  { unfold b1. rewrite length_set_slice_same; [done | lia | unfold len; lia | reflexivity]. }
  set (b2 := set_slice b1 4 8 [x01; x00; x00; x00]).
  assert (L2 : length b2 = 288%nat).
  { unfold b2. rewrite length_set_slice_same; [done | lia | unfold len; lia | reflexivity]. }
  split; [|split; [|done]].
  - rewrite length_set_slice_same; [done | lia | unfold len; lia | reflexivity].
  - rewrite (slice_eq_take _ b2 18 22 22); [| lia | lia | lia |].
    2:{ apply take_set_slice; lia. }
    rewrite (slice_eq_drop b2 b1 18 22 8); [| lia | lia | lia | lia |].
    2:{ unfold b2. apply drop_set_slice; [lia | unfold len; lia | reflexivity | lia]. }
    unfold b1. apply slice_set_slice; [lia | unfold len; lia | reflexivity].
Qed.

(** Lines 137-141: the extra bytes and the comment marker start at byte 22;
    the buffer keeps its 288 bytes as long as they end by byte 288 and
    grows to hold them otherwise. *)
Lemma ftyp_extra_spec f1 extra :
  length f1 = 288%nat ->
  snd (ftyp_extra f1 extra) = 26 + len extra /\
  length (fst (ftyp_extra f1 extra)) = Nat.max 288 (26 + length extra) /\
  take 22 (fst (ftyp_extra f1 extra)) = take 22 f1.
Proof.
  intros L. unfold ftyp_extra. cbn [fst snd]. unfold len.
  set (b1 := set_slice f1 22 (22 + Z.of_nat (length extra)) extra).
  assert (L1 : length b1 = Nat.max 288 (22 + length extra)).
  { unfold b1. rewrite length_set_slice by lia. lia. }
  assert (T1 : take 22 b1 = take 22 f1) by (apply take_set_slice; lia).
  split; [lia|]. split.
  - rewrite length_set_slice by lia. rewrite L1. change (length (lit "<!--")) with 4%nat. lia.
  - rewrite take_set_slice by lia. done.
Qed.

(** The document step only writes from [atom_free_addr] on. *)
Lemma ftyp_pdf_prefix fuel b addr extra pdf skip_len rest_len b' :
  ftyp_pdf fuel b addr extra pdf skip_len rest_len = Ok b' ->
  26 <= addr -> (22 <= length b)%nat ->
  take 22 b' = take 22 b /\ (22 <= length b')%nat.
Proof.
  unfold ftyp_pdf. intros H Ha L.
  inv_bind H. inv_bind H. inv_bind H. inversion H; subst; clear H.
  pose proof (len_nonneg extra). pose proof (len_nonneg a1).
  apply take_set_item with (k := 22%nat) in E as T0; [|lia|lia].
  apply length_set_item in E.
  set (b1 := set_slice a (addr + 1) (addr + 10) (slice_to pdf 9)).
  assert (T1 : take 22 b1 = take 22 a) by (apply take_set_slice; lia).
  assert (L1 : (22 <= length b1)%nat) by (apply length_set_slice_ge; lia).
  split.
  - rewrite take_set_slice by lia. congruence.
  - apply length_set_slice_ge; lia.
Qed.

(** The image offset that every successful run stores in bytes 18-21 of the
    header: 288, plus the 8 bytes of the box header, plus the length of the
    encoded hypertext string. *)
Lemma header_image_offset fuel inp r :
  build_regions fuel inp = Ok r ->
  exists henc,
    encode_utf8 (make_html_string (html_text inp)) = Ok henc /\
    skip_atom r = rev (le_bytes 4 (len (henc ++ png_bytes inp) + 8))
                    ++ lit "skip" ++ henc ++ png_bytes inp /\
    slice (ftyp_buffer r) 18 22 = le_bytes 4 (288 + 8 + len henc) /\
    int_from_bytes_le (slice (ftyp_buffer r) 18 22) = 288 + 8 + len henc /\
    (22 <= length (ftyp_buffer r))%nat.
Proof.
  intros H. apply build_regions_inv in H
    as (f0 & henc & f1 & Hinit & Hskip & Henc & Hoff & Hpdf & Hrest).
  exists henc. split; [done|].
  pose proof (len_skip_head _ _ _ Hskip) as H8.
  apply build_skip_atom_inv in Hskip as (hb & Henc' & _ & Hbox).
  assert (hb = henc) as -> by congruence.
  split; [done|].
  apply length_ftyp_init in Hinit as L0.
  rewrite H8 in Hoff. unfold len in Hoff at 1. rewrite L0 in Hoff.
  change (Z.of_nat 288) with 288 in Hoff.
  destruct (ftyp_offsets_spec _ _ _ L0 Hoff) as (L1 & Hf & Hr).
  destruct (ftyp_extra_spec f1 (extra_bytes inp) L1) as (Ha & Le & Te).
  assert (G : take 22 (ftyp_buffer r) = take 22 f1 /\ (22 <= length (ftyp_buffer r))%nat).
  { destruct (pdf_bytes inp) as [pdf|].
    - apply ftyp_pdf_prefix in Hpdf as [T L].
      + split; [congruence | done].
      + rewrite Ha. pose proof (len_nonneg (extra_bytes inp)). lia.
      + lia.
    - assert (E : fst (ftyp_extra f1 (extra_bytes inp)) = ftyp_buffer r)
        by congruence.
      rewrite <- E. split; [done | lia]. }
  destruct G as [T L].
  assert (S : slice (ftyp_buffer r) 18 22 = le_bytes 4 (288 + 8 + len henc)).
  { rewrite (slice_eq_take _ f1 18 22 22); [done | lia | lia | lia | done]. }
  split; [done|]. split; [|done].
  rewrite S. by apply number_to_4b_le_ok.
Qed.

(** ** The written file *)

(** C9: once [final_mp4] is written, the fix of lines 164-166 leaves a file
    of the same length in which byte 3 is zero and every other byte is the
    byte of [final_mp4]. *)
Theorem post_write_fix (fuel : nat) (inp : inputs) (r : regions) :
  build_regions fuel inp = Ok r ->
  length (write_mp4 r) = length (final_mp4 r) /\
  write_mp4 r !! 3%nat = Some x00 /\
  (forall i : nat, i <> 3%nat -> write_mp4 r !! i = final_mp4 r !! i).
Proof.
  intros H. apply build_regions_inv in H
    as (f0 & henc & f1 & Hinit & Hskip & _ & Hoff & Hpdf & _).
  apply length_skip_atom in Hskip.
  assert (L : (4 <= length (final_mp4 r))%nat).
  { unfold final_mp4. rewrite !length_app. lia. }
  unfold write_mp4, file_write_at. generalize dependent (final_mp4 r). clear.
  intros f L. change (Z.to_nat 3) with 3%nat.
  destruct f as [|a [|b [|c [|d f]]]]; cbn in L; try lia.
  cbn. split; [done|]. split; [done|].
  intros [|[|[|[|i]]]] Hi; done.
Qed.

Lemma post_write_fix_witness :
  exists r, build_regions 0 truncated_inputs = Ok r /\
    length (write_mp4 r) = length (final_mp4 r) /\
    write_mp4 r !! 3%nat = Some x00 /\
    (forall i : nat, i <> 3%nat -> write_mp4 r !! i = final_mp4 r !! i).
Proof.
  eexists. split; [vm_compute; reflexivity|].
  apply (post_write_fix 0 truncated_inputs). vm_compute. reflexivity.
Defined.

(** The file that [main] leaves is the written container followed by the
    tails. *)
Lemma main_inv fuel inp out :
  main fuel inp = Ok out ->
  exists r tail, build_regions fuel inp = Ok r /\ out = write_mp4 r ++ tail.
Proof.
  unfold main. intros H. inv_bind H. inversion H; subst; clear H.
  exists a. destruct (pdf_bytes inp); eexists; (split; [done|]);
    rewrite <- !app_assoc; reflexivity.
Qed.

(** The layout of [final_mp4]: the image bytes come after the header
    buffer, the eight bytes of the box header and the encoded hypertext. *)
Lemma final_mp4_layout fuel inp r :
  build_regions fuel inp = Ok r ->
  exists henc,
    encode_utf8 (make_html_string (html_text inp)) = Ok henc /\
    length (take 8 (skip_atom r)) = 8%nat /\
    final_mp4 r = (ftyp_buffer r ++ take 8 (skip_atom r) ++ henc)
                    ++ png_bytes inp ++ rest_bytes r /\
    int_from_bytes_le (slice (final_mp4 r) 18 22) = 288 + 8 + len henc.
Proof.
  intros H. destruct (header_image_offset _ _ _ H) as (henc & Henc & Hbox & Hs & Hv & L).
  exists henc. split; [done|].
  set (head := rev (le_bytes 4 (len (henc ++ png_bytes inp) + 8)) ++ lit "skip") in *.
  assert (Lh : length head = 8%nat).
  { unfold head. rewrite length_app, length_rev, length_le_bytes. reflexivity. }
  assert (Et : take 8 (skip_atom r) = head).
  { rewrite Hbox, app_assoc. fold head. by apply take_app_length'. }
  rewrite Et. split; [done|]. split.
  { unfold final_mp4. rewrite Hbox, (app_assoc _ (lit "skip")). fold head.
    by rewrite <- !app_assoc. }
  rewrite <- Hv. f_equal. unfold final_mp4.
  apply (slice_eq_take _ _ 18 22 22); [lia | lia | lia |].
  rewrite take_app_le by lia. done.
Qed.

(** ** The image offset against the position of the image *)


(** When the header buffer is 288 bytes long, the stored image offset is
    the position of the first image byte in the assembled file. *)
Lemma image_offset_exact fuel inp r :
  build_regions fuel inp = Ok r ->
  length (ftyp_buffer r) = 288%nat ->
  exists pre,
    final_mp4 r = pre ++ png_bytes inp ++ rest_bytes r /\
    int_from_bytes_le (slice (final_mp4 r) 18 22) = len pre.
Proof.
  intros H L. destruct (final_mp4_layout _ _ _ H) as (henc & _ & Lh & E & V).
  exists (ftyp_buffer r ++ take 8 (skip_atom r) ++ henc). split; [done|].
  rewrite V. unfold len. rewrite !length_app, L, Lh. lia.
Qed.

(** With the 263 extra bytes and no document the header buffer has 289
    bytes. *)
Lemma oversize_header_length png orig html fuel r :
  build_regions fuel (oversize_inputs png orig html) = Ok r ->
  length (ftyp_buffer r) = 289%nat.
Proof.
  intros H.
  apply build_regions_inv in H as (f0 & ? & f1 & Hinit & _ & _ & Hoff & Hpdf & _).
  cbn [pdf_bytes oversize_inputs extra_bytes] in Hpdf.
  apply length_ftyp_init in Hinit.
  apply ftyp_offsets_spec in Hoff as (L1 & _ & _); [|done].
  destruct (ftyp_extra_spec f1 oversize_extra L1) as (_ & Le & _).
  assert (Ef : fst (ftyp_extra f1 oversize_extra) = ftyp_buffer r) by congruence.
  rewrite <- Ef, Le. reflexivity.
Qed.

(** C1 at the failing input: with 263 extra bytes the header buffer grows
    to 289 bytes after the offset was computed, so bytes 18-21 hold 296
    while the image starts at byte 297 of the assembled file. *)
Theorem image_offset_stale (png orig : bytes) (fuel : nat) (r : regions) :
  build_regions fuel (oversize_inputs png orig None) = Ok r ->
  exists pre,
    final_mp4 r = pre ++ png ++ rest_bytes r /\
    pre = ftyp_buffer r ++ take 8 (skip_atom r) /\
    len pre = 297 /\
    int_from_bytes_le (slice (final_mp4 r) 18 22) = 296.
Proof.
  intros H. pose proof (oversize_header_length _ _ _ _ _ H) as L.
  destruct (final_mp4_layout _ _ _ H) as (henc & Henc & Lh & E & V).
  cbn in Henc. injection Henc as <-. rewrite app_nil_r in E.
  exists (ftyp_buffer r ++ take 8 (skip_atom r)).
  split; [done|]. split; [done|]. split.
  - unfold len. rewrite length_app, L, Lh. lia.
  - rewrite V. reflexivity.
Qed.

Lemma image_offset_stale_witness :
  exists r pre,
    build_regions 0 (oversize_inputs sample_png sample_mp4 None) = Ok r /\
    final_mp4 r = pre ++ sample_png ++ rest_bytes r /\
    pre = ftyp_buffer r ++ take 8 (skip_atom r) /\
    len pre = 297 /\
    int_from_bytes_le (slice (final_mp4 r) 18 22) = 296.
Proof.
  eexists.
  destruct (image_offset_stale sample_png sample_mp4 0 _ ltac:(vm_compute; reflexivity))
    as (pre & H).
  exists pre. split; [vm_compute; reflexivity | exact H].
Defined.

Lemma encode_utf8_app_inv s t b :
  encode_utf8 (s ++ t) = Ok b ->
  exists bs bt, encode_utf8 s = Ok bs /\ encode_utf8 t = Ok bt /\ b = bs ++ bt.
Proof.
  revert b. induction s as [|c s IH]; intros b H; cbn in *.
  - exists [], b. done.
  - inv_bind H. inv_bind H. inversion H; subst; clear H.
    destruct (IH _ E0) as (bs & bt & Hs & Ht & ->).
    exists (a ++ bs), bt. rewrite E, Hs. cbn. by rewrite app_assoc.
Qed.


(** The hypertext string of a run with the [-h] option encodes to the
    fixed prefix, the encoded text and the fixed suffix. *)
Lemma encode_html_string text henc :
  encode_utf8 (make_html_string (Some text)) = Ok henc ->
  exists tb, encode_utf8 text = Ok tb /\
             henc = html_prefix_bytes ++ tb ++ html_suffix_bytes.
Proof.
  cbn [make_html_string]. intros H.
  apply encode_utf8_app_inv in H as (bp & b' & Hp & H & ->).
  apply encode_utf8_app_inv in H as (tb & bs & Ht & Hs & ->).
  exists tb. split; [done|].
  assert (encode_utf8 html_prefix = Ok html_prefix_bytes) as Ep by (vm_compute; reflexivity).
  assert (encode_utf8 html_suffix = Ok html_suffix_bytes) as Es by (vm_compute; reflexivity).
  congruence.
Qed.

(** The payload of the wrapper box of such a run: the wrapped hypertext,
    then the image; the stored offset counts the wrapped length. *)
Lemma wrapped_payload fuel inp r text :
  html_text inp = Some text ->
  build_regions fuel inp = Ok r ->
  exists tb,
    encode_utf8 text = Ok tb /\
    drop 8 (skip_atom r)
      = (html_prefix_bytes ++ tb ++ html_suffix_bytes) ++ png_bytes inp /\
    int_from_bytes_le (slice (final_mp4 r) 18 22)
      = 288 + 8 + len (html_prefix_bytes ++ tb ++ html_suffix_bytes).
Proof.
  intros Hh H. destruct (final_mp4_layout _ _ _ H) as (henc & Henc & Lh & E & V).
  rewrite Hh in Henc. apply encode_html_string in Henc as (tb & Ht & ->).
  exists tb. split; [done|]. split; [|done].
  unfold final_mp4 in E. rewrite <- !app_assoc in E.
  apply app_inv_head in E.
  rewrite <- (take_drop 8 (skip_atom r)) in E at 1.
  rewrite <- !app_assoc in E. apply app_inv_head in E.
  rewrite !app_assoc in E. apply app_inv_tail in E. by rewrite <- !app_assoc in *.
Qed.

(** C10 at the failing input: the payload is the wrapped hypertext followed
    by the image and the stored offset counts the wrapped length, but with
    263 extra bytes the header buffer has 289 bytes, so the image starts
    one byte after the stored offset. *)
Theorem wrapped_offset_stale (png orig : bytes) (text : str) (fuel : nat)
    (r : regions) :
  build_regions fuel (oversize_inputs png orig (Some text)) = Ok r ->
  exists tb pre,
    encode_utf8 text = Ok tb /\
    drop 8 (skip_atom r) = (html_prefix_bytes ++ tb ++ html_suffix_bytes) ++ png /\
    final_mp4 r = pre ++ png ++ rest_bytes r /\
    pre = ftyp_buffer r ++ take 8 (skip_atom r)
            ++ html_prefix_bytes ++ tb ++ html_suffix_bytes /\
    int_from_bytes_le (slice (final_mp4 r) 18 22)
      = 296 + len (html_prefix_bytes ++ tb ++ html_suffix_bytes) /\
    len pre = 297 + len (html_prefix_bytes ++ tb ++ html_suffix_bytes).
Proof.
  intros H. pose proof (oversize_header_length _ _ _ _ _ H) as L.
  destruct (wrapped_payload fuel (oversize_inputs png orig (Some text)) r text
              eq_refl H) as (tb & Ht & Hd & V).
  destruct (final_mp4_layout _ _ _ H) as (henc & Henc & Lh & E & _).
  apply encode_html_string in Henc as (tb' & Ht' & ->).
  assert (tb' = tb) as -> by congruence.
  exists tb. eexists. split; [done|]. split; [done|]. split; [exact E|].
  split; [done|]. split; [rewrite V; lia|].
  unfold len. rewrite (length_app (ftyp_buffer r)), (length_app (take 8 _)), L, Lh. lia.
Qed.

Lemma wrapped_offset_stale_witness :
  exists r tb pre,
    build_regions 0 (oversize_inputs sample_png sample_mp4 (Some (slit "<b>hi</b>"))) = Ok r /\
    encode_utf8 (slit "<b>hi</b>") = Ok tb /\
    drop 8 (skip_atom r) = (html_prefix_bytes ++ tb ++ html_suffix_bytes) ++ sample_png /\
    final_mp4 r = pre ++ sample_png ++ rest_bytes r /\
    pre = ftyp_buffer r ++ take 8 (skip_atom r)
            ++ html_prefix_bytes ++ tb ++ html_suffix_bytes /\
    int_from_bytes_le (slice (final_mp4 r) 18 22)
      = 296 + len (html_prefix_bytes ++ tb ++ html_suffix_bytes) /\
    len pre = 297 + len (html_prefix_bytes ++ tb ++ html_suffix_bytes).
Proof.
  eexists.
  destruct (wrapped_offset_stale sample_png sample_mp4 (slit "<b>hi</b>") 0 _
              ltac:(vm_compute; reflexivity)) as (tb & pre & H).
  exists tb, pre. split; [vm_compute; reflexivity | exact H].
Defined.

(** ** The object header string and the budget of the header *)

Lemma ascii_py_str v : ascii_str (py_str v).
Proof.
  unfold py_str. destruct (v <? 0).
  - constructor; [done|]. apply digit_str_ascii, str_of_N_digits.
  - apply digit_str_ascii, str_of_N_digits.
Qed.

Lemma ascii_str_forallb s :
  forallb (fun c => (c <? 128)%N) s = true -> ascii_str s.
Proof.
  intros H. apply Forall_forall. intros c Hc.
  rewrite forallb_forall in H. apply N.ltb_lt, H. by apply list_elem_of_In.
Qed.

Lemma ascii_obj_string v : ascii_str (obj_string_of v).
Proof.
  unfold obj_string_of, ascii_str. rewrite !Forall_app.
  repeat split; try apply ascii_py_str; by apply ascii_str_forallb.
Qed.

Lemma len_obj_string v : len (obj_string_of v) = 29 + len (py_str v).
Proof.
  unfold obj_string_of. rewrite !len_app. change (len [nl]) with 1.
  change (len (slit "1 0 obj")) with 7. change (len (slit "<</Length ")) with 10.
  change (len (slit ">>")) with 2. change (len (slit "stream")) with 6. lia.
Qed.

Lemma obj_search_S fuel m a n off :
  obj_search (S fuel) m a n off =
    if off - 1 =? len (obj_string_of (m - a - n - (off - 1)))
    then Ok (obj_string_of (m - a - n - (off - 1)))
    else obj_search fuel m a n (off - 1).
Proof. reflexivity. Qed.

(** The search returns a string of the form of line 153 whose length is the
    candidate it stopped at, below the starting candidate. *)
Lemma obj_search_inv fuel m a n off s :
  obj_search fuel m a n off = Ok s ->
  exists o, o < off /\ s = obj_string_of (m - a - n - o) /\ len s = o.
Proof.
  revert off. induction fuel as [|fuel IH]; intros off H; [discriminate|].
  rewrite obj_search_S in H.
  destruct (Z.eqb_spec (off - 1) (len (obj_string_of (m - a - n - (off - 1))))) as [E|E].
  - inversion H; subst. exists (off - 1). split; [lia|]. split; [done | lia].
  - apply IH in H as (o & Ho & Hs & Hl). exists o. split; [lia | done].
Qed.

Lemma length_encode_ascii s b :
  ascii_str s -> encode_utf8 s = Ok b -> length b = length s.
Proof.
  intros Ha H. rewrite encode_utf8_ascii in H by done.
  inversion H. by rewrite length_map.
Qed.



(** *** The header buffer is returned

    What the steps of the header need in order to return: numbers that
    fit four bytes, room for the newline of line 146, and a candidate at
    which the loop of lines 150-156 stops. *)




(** The search runs out of fuel exactly when no candidate within reach
    fits. *)
Lemma obj_search_out_of_fuel fuel m a n off :
  obj_search fuel m a n off = Raise OutOfFuel <->
  forall o, off - Z.of_nat fuel <= o < off ->
    o <> len (obj_string_of (m - a - n - o)).
Proof.
  revert off. induction fuel as [|fuel IH]; intros off.
  - split; [intros _ o Ho; lia | done].
  - rewrite obj_search_S.
    destruct (Z.eqb_spec (off - 1) (len (obj_string_of (m - a - n - (off - 1)))))
      as [E|E].
    + split; [discriminate|]. intros H. exfalso. apply (H (off - 1)); [lia | done].
    + rewrite IH. split.
      * intros H o Ho. destruct (Z.eq_dec o (off - 1)) as [->|Hne]; [done|].
        apply H. lia.
      * intros H o Ho. apply H. lia.
Qed.




(** ** The search for the object header string *)

Lemma len_py_str_ge4 v : 1000 <= v -> 4 <= len (py_str v).
Proof.
  intros H. destruct (Z.le_gt_cases (len (py_str v)) 3) as [G|G]; [|lia].
  apply (len_py_str_le v 2) in G; [|lia].
  assert (10 ^ Z.of_nat 3 = 1000) as E by reflexivity. rewrite E in G. lia.
Qed.

(** With a container size of 1068 and the object header at byte 36 no
    candidate is a fixed point: 33 renders 32 characters, and every
    candidate below renders at least 33. *)
Lemma obj_search_1068 fuel off :
  off <= 34 -> obj_search fuel 1068 36 0 off = Raise OutOfFuel.
Proof.
  revert off. induction fuel as [|fuel IH]; intros off H; [done|].
  rewrite obj_search_S, IH by lia.
  destruct (Z.eqb_spec (off - 1) (len (obj_string_of (1068 - 36 - 0 - (off - 1)))))
    as [E|E]; [|done].
  exfalso. rewrite len_obj_string in E.
  destruct (Z.eq_dec off 34) as [->|Hne].
  - vm_compute in E. discriminate.
  - pose proof (len_py_str_ge4 (1068 - 36 - 0 - (off - 1))). lia.
Qed.

(** C5 at the failing input: whatever the number of iterations allowed, the
    loop of lines 150-156 has not found its fixed point, and no error is
    raised by the source: the run does not return. *)
Theorem obj_search_never_returns (fuel : nat) :
  main fuel hanging_inputs = Raise OutOfFuel.
Proof.
  unfold main, build_regions.
  remember (ftyp_init (len (png_bytes hanging_inputs))) as t eqn:Et.
  vm_compute in Et. subst t. cbn [bind].
  remember (build_skip_atom _ _) as t eqn:Et.
  vm_compute in Et. subst t. cbn [bind].
  remember (encode_utf8 _) as t eqn:Et.
  vm_compute in Et. subst t. cbn [bind].
  remember (ftyp_offsets _ _) as t eqn:Et.
  vm_compute in Et. subst t. cbn [bind].
  remember (ftyp_extra _ _) as t eqn:Et.
  vm_compute in Et. subst t. cbn [pdf_bytes hanging_inputs].
  unfold ftyp_pdf.
  remember (set_item _ _ _) as t eqn:Et.
  vm_compute in Et. subst t. cbn [bind].
  match goal with
  | |- context [obj_search fuel ?m ?a ?n ?o] =>
      change (obj_search fuel m a n o) with (obj_search fuel 1068 36 0 34)
  end.
  rewrite obj_search_1068 by lia. reflexivity.
Qed.

(** ** The document tail *)

(** C8 at the failing input: on a document whose table is found and
    patched, the tail that is appended is two bytes longer than the
    terminator and the document: the 7-byte end-of-file marker is assigned
    to a slice of 5 bytes (line 191). *)
Theorem patched_tail_grows :
  exists r out tail,
    build_regions 40 document_inputs = Ok r /\
    main 40 document_inputs = Ok out /\
    pdf_tail (len (write_mp4 r)) sample_pdf = (tail, Ok tt) /\
    len tail = len object_terminator + len sample_pdf + 2 /\
    len out = len (write_mp4 r) + len object_terminator + len sample_pdf + 2
              + len (lit "tail").
Proof.
  do 3 eexists. split; [vm_compute; reflexivity|].
  split; [vm_compute; reflexivity|].
  split; [vm_compute; reflexivity|].
  split; vm_compute; reflexivity.
Qed.


(** ** Searching for a newline *)

Lemma find_aux_byte_cons c x l i :
  find_aux [c] (x :: l) i = if Byte.eqb c x then i else find_aux [c] l (i + 1).
Proof. cbn. by rewrite andb_true_r. Qed.

Lemma find_aux_byte_nil c i : find_aux [c] [] i = -1.
Proof. reflexivity. Qed.

(** The search skips a prefix that does not contain the byte. *)
Lemma find_aux_skip c l1 l2 i :
  Forall (fun x => Byte.eqb c x = false) l1 ->
  find_aux [c] (l1 ++ l2) i = find_aux [c] l2 (i + len l1).
Proof.
  intros H. revert i. induction H as [|x l1 Hx H IH]; intros i.
  - cbn [app]. f_equal. unfold len. cbn. lia.
  - cbn [app]. rewrite find_aux_byte_cons, Hx, IH. f_equal. unfold len. cbn [length]. lia.
Qed.

Lemma find_aux_range c l i :
  find_aux [c] l i = -1 \/ i <= find_aux [c] l i < i + len l.
Proof.
  revert i. induction l as [|x l IH]; intros i; [by left|].
  rewrite find_aux_byte_cons. unfold len. cbn [length].
  destruct (Byte.eqb c x); [right; lia|].
  destruct (IH (i + 1)) as [E|E]; [by left | right; unfold len in E; lia].
Qed.

(** A hit inside a prefix does not depend on what follows the prefix. *)
Lemma find_aux_prefix c l1 l2 l2' i r :
  0 <= i ->
  find_aux [c] (l1 ++ l2) i = r -> i <= r < i + len l1 ->
  find_aux [c] (l1 ++ l2') i = r.
Proof.
  revert i. induction l1 as [|x l1 IH]; intros i H0 H Hr.
  - unfold len in Hr. cbn in Hr. lia.
  - cbn [app] in *. rewrite find_aux_byte_cons in *.
    destruct (Byte.eqb c x); [done|].
    apply IH; [lia | done |].
    destruct (find_aux_range c (l1 ++ l2) (i + 1)) as [E|E]; [lia|].
    unfold len in *. cbn [length] in Hr. lia.
Qed.

Lemma py_find_nonneg b sub start :
  0 <= start <= len b ->
  py_find b sub start = find_aux sub (drop (Z.to_nat start) b) start.
Proof.
  intros H. unfold py_find. destruct (Z.ltb_spec (len b) start); [lia|].
  by rewrite Z.max_l by lia.
Qed.

Lemma py_find_past_end b sub start : len b < start -> py_find b sub start = -1.
Proof. intros H. unfold py_find. destruct (Z.ltb_spec (len b) start); [done | lia]. Qed.

Lemma py_find_byte_range b c start :
  0 <= start ->
  py_find b [c] start = -1 \/ start <= py_find b [c] start < len b.
Proof.
  intros H0. destruct (Z.le_gt_cases start (len b)) as [H|H].
  - rewrite py_find_nonneg by lia.
    destruct (find_aux_range c (drop (Z.to_nat start) b) start) as [E|E]; [by left|].
    right. unfold len in *. rewrite length_drop in E. lia.
  - left. by apply py_find_past_end.
Qed.

(** The search from [start] only looks at the bytes from [start] on. *)
Lemma py_find_eq_drop b b' sub start (k : nat) :
  0 <= start -> (k <= Z.to_nat start)%nat -> length b = length b' ->
  drop k b = drop k b' ->
  py_find b sub start = py_find b' sub start.
Proof.
  intros H0 Hk Hl E. unfold py_find, len. rewrite Hl.
  destruct (_ <? _); [done|]. f_equal.
  replace (Z.to_nat start) with (k + (Z.to_nat start - k))%nat by lia.
  by rewrite <- !drop_drop, E.
Qed.

(** ** One offset entry *)

Lemma ascii_pad_left v n : ascii_str (pad_left v n (slit "0")).
Proof.
  unfold pad_left. change (slit "0") with [48%N].
  rewrite concat_replicate_singleton. apply Forall_app. split.
  - apply Forall_replicate. done.
  - apply ascii_py_str.
Qed.

Lemma length_pad_left_ge v : (10 <= length (pad_left v 10 (slit "0")))%nat.
Proof.
  unfold pad_left. change (slit "0") with [48%N].
  rewrite concat_replicate_singleton, length_app, length_replicate.
  unfold len. lia.
Qed.

(** Beyond ten digits [pad_left] adds nothing. *)
Lemma pad_left_long v :
  10 ^ 10 <= v -> pad_left v 10 (slit "0") = py_str v.
Proof.
  intros H. unfold pad_left.
  assert (10 < len (py_str v)).
  { destruct (Z.le_gt_cases (len (py_str v)) 10) as [G|G]; [|done].
    apply (len_py_str_le v 9) in G; [|lia].
    assert (10 ^ Z.of_nat 10 = 10 ^ 10) as E by reflexivity. rewrite E in G. lia. }
  rewrite Z.max_l by lia. reflexivity.
Qed.

Lemma digit_bytes_of_str s :
  digit_str s ->
  Forall (fun x => is_digit (Byte.to_N x) = true) (map byte_of_N s) /\
  map Byte.to_N (map byte_of_N s) = s.
Proof.
  intros H. split.
  - apply Forall_map. eapply Forall_impl; [exact H|]. cbn. intros c Hc.
    rewrite byte_to_N_of_N; [done|]. by apply is_digit_ascii.
  - rewrite map_map. rewrite <- (map_id s) at 2. apply map_ext_in.
    intros c Hc. apply byte_to_N_of_N, is_digit_ascii.
    unfold digit_str in H. rewrite Forall_forall in H. apply H. by apply list_elem_of_In.
Qed.

Lemma forallb_Forall_digit (f : bytes) :
  forallb (fun x => is_digit (Byte.to_N x)) f = true <->
  Forall (fun x => is_digit (Byte.to_N x) = true) f.
Proof.
  rewrite forallb_forall, Forall_forall. split; intros H x Hx; apply H;
    by apply list_elem_of_In.
Qed.

(** A field of ten digit bytes, at index 0 of itself. *)
Lemma digit_field_self (f : bytes) :
  length f = 10%nat -> Forall (fun x => is_digit (Byte.to_N x) = true) f ->
  digit_field f 0 = Some (dec_value (map Byte.to_N f) 0).
Proof.
  intros L H. unfold digit_field.
  assert (slice f 0 (0 + 10) = f) as ->.
  { rewrite slice_nonneg by lia. cbn [Z.to_nat]. rewrite drop_0. apply take_ge. lia. }
  rewrite L. cbn [Nat.eqb andb].
  by apply forallb_Forall_digit in H as ->.
Qed.

(** What a ten-digit field at a non-negative index means for the buffer. *)
Lemma digit_field_inv b p v :
  0 <= p -> digit_field b p = Some v ->
  let f := slice b p (p + 10) in
  length f = 10%nat /\
  Forall (fun x => is_digit (Byte.to_N x) = true) f /\
  v = dec_value (map Byte.to_N f) 0 /\
  p + 10 <= len b /\
  b = take (Z.to_nat p) b ++ f ++ drop (Z.to_nat (p + 10)) b.
Proof.
  intros Hp H. cbn zeta. unfold digit_field in H.
  destruct (Nat.eqb_spec (length (slice b p (p + 10))) 10) as [L|L]; [|done].
  destruct (forallb _ _) eqn:F; [|done]. cbn in H. injection H as <-.
  apply forallb_Forall_digit in F.
  assert (Hlen : p + 10 <= len b).
  { rewrite slice_nonneg in L by lia. rewrite length_take, length_drop in L.
    unfold len. lia. }
  repeat split; try done.
  rewrite slice_nonneg by lia.
  replace (Z.to_nat (p + 10) - Z.to_nat p)%nat with 10%nat by lia.
  replace (Z.to_nat (p + 10)) with (Z.to_nat p + 10)%nat by lia.
  rewrite <- drop_drop, take_drop. by rewrite take_drop.
Qed.

Lemma decode_digit_bytes (f : bytes) :
  Forall (fun x => is_digit (Byte.to_N x) = true) f ->
  decode_utf8 f = Ok (map Byte.to_N f) /\ digit_str (map Byte.to_N f).
Proof.
  intros H. split.
  - unfold decode_utf8.
    assert (forallb (fun x => byte_to_Z x <? 128) f = true) as ->; [|done].
    apply forallb_forall. intros x Hx. rewrite Forall_forall in H.
    apply list_elem_of_In, H, is_digit_ascii in Hx. unfold byte_to_Z. apply Z.ltb_lt. lia.
  - by apply Forall_map.
Qed.

(** The source reads a ten-digit field as its decimal value. *)
Lemma read_field_digit_field b p v :
  0 <= p -> digit_field b p = Some v -> read_field p b = Ok v.
Proof.
  intros Hp H. apply digit_field_inv in H as (L & F & -> & _); [|done].
  unfold read_field. destruct (decode_digit_bytes _ F) as [-> D]. cbn [bind].
  rewrite strip_digit_str by done. apply py_int_digit_str; [done|].
  intros E. apply (f_equal (@length N)) in E. rewrite length_map, L in E. done.
Qed.


(** C6, as stated, fails: an incremented offset of eleven digits raises
    nothing; the entry is rewritten with the first ten of them. *)
Lemma offset_overflow_not_raised :
  read_field 0 overflow_entry = Ok 9999999999 /\
  10 ^ 10 <= 9999999999 + 418 /\
  patch_entry 418 0 overflow_entry
    = (lit "1000000041 00000 n " ++ [x0a], Ok 20) /\
  exists r tail,
    build_regions 40 overflow_inputs = Ok r /\
    pdf_tail (len (write_mp4 r)) overflow_pdf = (tail, Ok tt).
Proof.
  split; [vm_compute; reflexivity|]. split; [vm_compute; discriminate|].
  split; [vm_compute; reflexivity|].
  do 2 eexists. split; [vm_compute; reflexivity | vm_compute; reflexivity].
Qed.

(** C6, amended: an entry that reads as [offset] is rewritten in place with
    ten characters and the step raises nothing: the zero-padded decimal of
    [offset + out_size] when that has at most ten digits, and its first ten
    digits otherwise. *)
Theorem patch_entry_truncates (b : bytes) (curr out_size offset : Z) :
  read_field curr b = Ok offset ->
  exists field,
    patch_entry out_size curr b
      = (set_slice b curr (curr + 10) field,
         Ok (next_line (set_slice b curr (curr + 10) field) curr)) /\
    length field = 10%nat /\
    (0 <= offset + out_size < 10 ^ 10 ->
       digit_field field 0 = Some (offset + out_size)) /\
    (10 ^ 10 <= offset + out_size ->
       field = map byte_of_N (take 10 (py_str (offset + out_size)))).
Proof.
  intros H. set (v := offset + out_size).
  set (s := slice_to (pad_left v 10 (slit "0")) 10).
  assert (Es : s = take 10 (pad_left v 10 (slit "0"))) by (apply slice_to_nonneg; lia).
  assert (As : ascii_str s).
  { rewrite Es. apply Forall_take, ascii_pad_left. }
  exists (map byte_of_N s). split; [|split; [|split]].
  - unfold patch_entry, bindB, liftB, updB. rewrite H. fold v. fold s.
    by rewrite encode_utf8_ascii.
  - rewrite length_map, Es, length_take. pose proof (length_pad_left_ge v). lia.
  - intros Hv. destruct (pad_left_10 v Hv) as (L & D & V & T).
    assert (s = pad_left v 10 (slit "0")) as -> by (unfold s; exact T).
    destruct (digit_bytes_of_str _ D) as [F M].
    rewrite digit_field_self, M, V; [done | by rewrite length_map | done].
  - intros Hv. by rewrite Es, pad_left_long.
Qed.

Lemma patch_entry_truncates_witness :
  exists field,
    patch_entry 418 0 (lit "0000000009 00000 n " ++ [x0a])
      = (set_slice (lit "0000000009 00000 n " ++ [x0a]) 0 (0 + 10) field,
         Ok (next_line (set_slice (lit "0000000009 00000 n " ++ [x0a]) 0 (0 + 10) field) 0)) /\
    length field = 10%nat /\
    (0 <= 9 + 418 < 10 ^ 10 -> digit_field field 0 = Some (9 + 418)) /\
    (10 ^ 10 <= 9 + 418 ->
       field = map byte_of_N (take 10 (py_str (9 + 418)))).
Proof.
  apply (patch_entry_truncates (lit "0000000009 00000 n " ++ [x0a]) 0 418 9).
  vm_compute. reflexivity.
Defined.

(** ** Walking the table *)

Lemma digit_not_newline x :
  is_digit (Byte.to_N x) = true -> Byte.eqb x0a x = false.
Proof.
  intros H. destruct (Byte.eqb x0a x) eqn:E; [|done].
  apply Byte.byte_dec_bl in E. subst x. discriminate H.
Qed.

Lemma dec_value_nonneg s acc : digit_str s -> 0 <= acc -> 0 <= dec_value s acc.
Proof.
  intros H. revert acc. induction H as [|c s Hc H IH]; intros acc Ha; [done|].
  cbn. apply IH. unfold is_digit in Hc. apply andb_true_iff in Hc as [H1 _].
  apply N.leb_le in H1. lia.
Qed.

Lemma digit_field_nonneg b p v : 0 <= p -> digit_field b p = Some v -> 0 <= v.
Proof.
  intros Hp H. apply digit_field_inv in H as (_ & F & -> & _); [|done].
  apply dec_value_nonneg; [|done]. by apply decode_digit_bytes.
Qed.

(** After a ten-digit field the next line is found from the end of the
    field. *)
Lemma next_line_digit_field b p v :
  0 <= p -> digit_field b p = Some v ->
  next_line b p
    = find_aux [x0a] (drop (Z.to_nat (p + 10)) b) (p + 10) + 1.
Proof.
  intros Hp H. apply digit_field_inv in H as (L & F & _ & Hl & E); [|done].
  unfold next_line. rewrite py_find_nonneg by lia. f_equal.
  set (f := slice b p (p + 10)) in *.
  assert (Ed : drop (Z.to_nat (p + 1)) b = drop 1 f ++ drop (Z.to_nat (p + 10)) b).
  { rewrite E at 1. rewrite drop_app_ge by (rewrite length_take; unfold len in Hl; lia).
    rewrite length_take, Nat.min_l by (unfold len in Hl; lia).
    replace (Z.to_nat (p + 1) - Z.to_nat p)%nat with 1%nat by lia.
    by rewrite drop_app_le by lia. }
  rewrite Ed, find_aux_skip.
  - f_equal. unfold len. rewrite length_drop, L. lia.
  - apply Forall_drop. eapply Forall_impl; [exact F|]. apply digit_not_newline.
Qed.

Lemma next_line_nonneg b p : 0 <= p -> 0 <= next_line b p.
Proof.
  intros Hp. unfold next_line.
  destruct (py_find_byte_range b x0a (p + 1)) as [E|E]; lia.
Qed.

(** The next entry, when there is one, starts after the field. *)
Lemma next_line_after_field b p v :
  0 <= p -> digit_field b p = Some v ->
  next_line b p = 0 \/ p + 11 <= next_line b p <= len b.
Proof.
  intros Hp H. rewrite (next_line_digit_field b p v) by done.
  destruct (find_aux_range x0a (drop (Z.to_nat (p + 10)) b) (p + 10)) as [E|E].
  - left. lia.
  - right. unfold len in *. rewrite length_drop in E.
    apply digit_field_inv in H as (_ & _ & _ & Hl & _); [|done]. unfold len in Hl. lia.
Qed.

Lemma digit_field_newline_start b :
  take 1 b = [x0a] -> digit_field b 0 = None.
Proof.
  intros H. destruct (digit_field b 0) as [v|] eqn:E; [|done].
  apply digit_field_inv in E as (L & F & _ & _ & _); [|done].
  rewrite slice_nonneg in F by lia. cbn [Z.to_nat] in F. rewrite drop_0 in F.
  destruct b as [|x b]; [done|]. cbn in H. injection H as ->.
  cbn in F. by inversion F.
Qed.

Lemma xref_entries_head b count q e l :
  xref_entries b count q = Some (e :: l) -> fst e = q.
Proof.
  destruct count as [|c]; cbn; [done|].
  destruct (digit_field b q); [|done].
  destruct (xref_entries b c _); [|done]. by intros [= <- _].
Qed.

Lemma xref_entries_length b count q es :
  xref_entries b count q = Some es -> length es = count.
Proof.
  revert q es. induction count as [|c IH]; intros q es H; cbn in H.
  - by injection H as <-.
  - destruct (digit_field b q); [|done].
    destruct (xref_entries b c _) as [l|] eqn:El; [|done].
    injection H as <-. cbn. f_equal. by eapply IH.
Qed.

(** In a buffer that starts with a newline the entries of a table are
    met at increasing positions. *)
Lemma xref_entries_positions b count q es :
  take 1 b = [x0a] -> 0 <= q ->
  xref_entries b count q = Some es ->
  Forall (fun e => q <= fst e /\ 0 < fst e /\ 0 <= snd e) es.
Proof.
  intros Hb. revert q es. induction count as [|c IH]; intros q es Hq H; cbn in H.
  - injection H as <-. constructor.
  - destruct (digit_field b q) as [v|] eqn:Ef; [|done].
    destruct (xref_entries b c (next_line b q)) as [l|] eqn:El; [|done].
    injection H as <-.
    assert (0 < q).
    { destruct (Z.eq_dec q 0) as [->|]; [|lia].
      by rewrite digit_field_newline_start in Ef. }
    constructor; [cbn; split; [lia|split; [lia|]]; by eapply digit_field_nonneg|].
    apply IH in El as Hl; [|by apply next_line_nonneg].
    destruct l as [|e l]; [done|].
    apply xref_entries_head in El.
    assert (q + 11 <= next_line b q).
    { apply Forall_cons in Hl as [(_ & H2 & _) _].
      destruct (next_line_after_field b q v Hq Ef) as [E|E]; lia. }
    eapply Forall_impl; [exact Hl|]. cbn. intros [p w]. cbn. lia.
Qed.

Lemma digit_field_eq_take b b' p (k : nat) :
  0 <= p -> (Z.to_nat (p + 10) <= k)%nat -> take k b = take k b' ->
  digit_field b p = digit_field b' p.
Proof.
  intros Hp Hk E. unfold digit_field.
  by rewrite (slice_eq_take b b' p (p + 10) k) by (done || lia).
Qed.

Lemma digit_field_eq_drop b b' p (k : nat) :
  0 <= p -> (k <= Z.to_nat p)%nat -> drop k b = drop k b' ->
  digit_field b p = digit_field b' p.
Proof.
  intros Hp Hk E. unfold digit_field.
  by rewrite (slice_eq_drop b b' p (p + 10) k) by (done || lia).
Qed.

(** The entries from [q] on only depend on the bytes from [k <= q] on. *)
Lemma xref_entries_eq_drop b b' count q es (k : nat) :
  take 1 b = [x0a] -> length b = length b' -> drop k b = drop k b' ->
  0 <= q -> (k <= Z.to_nat q)%nat ->
  xref_entries b count q = Some es ->
  xref_entries b' count q = Some es.
Proof.
  intros Hb Hl E. revert q es. induction count as [|c IH]; intros q es Hq Hk H; [done|].
  cbn in H |- *.
  destruct (digit_field b q) as [v|] eqn:Ef; [|done].
  rewrite <- (digit_field_eq_drop b b' q k), Ef by done.
  assert (En : next_line b' q = next_line b q).
  { unfold next_line. f_equal. symmetry. apply (py_find_eq_drop b b' _ _ k); try done; lia. }
  rewrite En.
  destruct (xref_entries b c (next_line b q)) as [l|] eqn:El; [|done].
  destruct c as [|c]; [cbn in El |- *; by injection El as <-|].
  erewrite IH; [done | by apply next_line_nonneg | | done].
  apply xref_entries_positions in El as Hpos; [|done|by apply next_line_nonneg].
  destruct l as [|e l]; [by apply xref_entries_length in El|].
  apply xref_entries_head in El.
  apply Forall_cons in Hpos as [(_ & H2 & _) _].
  destruct (next_line_after_field b q v Hq Ef) as [E0|E0]; lia.
Qed.

(** The entries that end by byte [k] only depend on the first [k] bytes. *)
Lemma xref_entries_eq_take b b' count q es (k : nat) :
  take 1 b = [x0a] -> take k b = take k b' -> 0 <= q ->
  xref_entries b count q = Some es ->
  Forall (fun e => (Z.to_nat (fst e + 10) <= k)%nat) es ->
  xref_entries b' count q = Some es.
Proof.
  intros Hb E. revert q es. induction count as [|c IH]; intros q es Hq H Hk; [done|].
  cbn in H |- *.
  destruct (digit_field b q) as [v|] eqn:Ef; [|done].
  destruct (xref_entries b c (next_line b q)) as [l|] eqn:El; [|done].
  injection H as <-. apply Forall_cons in Hk as [Hk Hkl]. cbn in Hk.
  assert (Ef' : digit_field b' q = Some v).
  { by rewrite <- (digit_field_eq_take b b' q k). }
  rewrite Ef'.
  destruct c as [|c]; [cbn in El |- *; by injection El as <-|].
  destruct l as [|e l]; [by apply xref_entries_length in El|].
  apply xref_entries_positions in El as Hpos; [|done|by apply next_line_nonneg].
  apply xref_entries_head in El as Eh.
  apply Forall_cons in Hpos as [(_ & Hpos & _) _].
  apply Forall_cons in Hkl as Hke. destruct Hke as [Hke _].
  assert (En : next_line b' q = next_line b q).
  { rewrite (next_line_digit_field b' q v), (next_line_digit_field b q v) by done.
    f_equal.
    rewrite (next_line_digit_field b q v) in Eh by done.
    apply digit_field_inv in Ef as (_ & _ & _ & Lb & _); [|done].
    apply digit_field_inv in Ef' as (_ & _ & _ & Lb' & _); [|done].
    unfold len in Lb, Lb'.
    set (R := find_aux [x0a] (drop (Z.to_nat (q + 10)) b) (q + 10)) in *.
    assert (HR : q + 10 <= R < Z.of_nat (length b)).
    { destruct (find_aux_range x0a (drop (Z.to_nat (q + 10)) b) (q + 10)) as [E0|E0];
        fold R in E0; [lia|]. unfold len in E0. rewrite length_drop in E0. lia. }
    assert (Eb : drop (Z.to_nat (q + 10)) b
                 = drop (Z.to_nat (q + 10)) (take k b) ++ drop k b).
    { rewrite <- (take_drop k b) at 1.
      by rewrite drop_app_le by (rewrite length_take; lia). }
    assert (Eb' : drop (Z.to_nat (q + 10)) b'
                 = drop (Z.to_nat (q + 10)) (take k b) ++ drop k b').
    { rewrite <- (take_drop k b') at 1.
      rewrite drop_app_le by (rewrite length_take; lia). by rewrite E. }
    rewrite Eb'. apply (find_aux_prefix _ _ (drop k b)); [lia | by rewrite <- Eb |].
    unfold len. rewrite length_drop, length_take. lia. }
  rewrite En. erewrite IH; [done | by apply next_line_nonneg | done | done].
Qed.

(** ** The loop over the entries *)

Lemma xref_entries_head_field b count q e l :
  xref_entries b count q = Some (e :: l) -> digit_field b q = Some (snd e).
Proof.
  destruct count as [|c]; cbn; [done|].
  destruct (digit_field b q); [|done].
  destruct (xref_entries b c _); [|done]. by intros [= <- _].
Qed.

(** One iteration on an entry whose incremented offset has at most ten
    digits: the field is replaced by the ten digits of the new offset. *)
Lemma patch_entry_in_range b q out v :
  read_field q b = Ok v -> 0 <= v + out < 10 ^ 10 ->
  exists f,
    patch_entry out q b
      = (set_slice b q (q + 10) f, Ok (next_line (set_slice b q (q + 10) f) q)) /\
    length f = 10%nat /\
    Forall (fun x => is_digit (Byte.to_N x) = true) f /\
    dec_value (map Byte.to_N f) 0 = v + out.
Proof.
  intros H Hv. destruct (pad_left_10 (v + out) Hv) as (L & D & V & T).
  destruct (digit_bytes_of_str _ D) as [F M].
  exists (map byte_of_N (pad_left (v + out) 10 (slit "0"))).
  split; [|split; [by rewrite length_map | split; [done | by rewrite M]]].
  unfold patch_entry, bindB, liftB, updB. rewrite H, T.
  by rewrite encode_utf8_ascii by (by apply digit_str_ascii).
Qed.

Lemma digit_field_set_slice b q f :
  0 <= q -> q + 10 <= len b -> length f = 10%nat ->
  Forall (fun x => is_digit (Byte.to_N x) = true) f ->
  digit_field (set_slice b q (q + 10) f) q = Some (dec_value (map Byte.to_N f) 0).
Proof.
  intros Hq Hl L F. unfold digit_field.
  rewrite slice_set_slice by (unfold len in *; lia). rewrite L. cbn [Nat.eqb andb].
  by apply forallb_Forall_digit in F as ->.
Qed.

(** The loop rewrites a well-formed table in place: every entry holds its
    offset plus [out], nothing before the first entry and nothing from
    [limit] on is touched. *)
Lemma patch_entries_shift out (limit : nat) count :
  forall b q es,
    take 1 b = [x0a] -> 0 <= q -> 0 <= out ->
    xref_entries b count q = Some es ->
    Forall (fun e => (Z.to_nat (fst e + 10) <= limit)%nat
                     /\ snd e + out < 10 ^ 10) es ->
    exists b' q',
      patch_entries count out q b = (b', Ok q') /\
      length b' = length b /\
      (forall k : nat, (count <> 0%nat -> (k <= Z.to_nat q)%nat) ->
         take k b' = take k b) /\
      drop limit b' = drop limit b /\
      xref_entries b' count q = Some (map (fun e => (fst e, snd e + out)) es).
Proof.
  induction count as [|c IH]; intros b q es Hb Hq Hout H Hes.
  { cbn in H. injection H as <-. exists b, q. by repeat split. }
  cbn in H.
  destruct (digit_field b q) as [v|] eqn:Ef; [|done].
  destruct (xref_entries b c (next_line b q)) as [l|] eqn:El; [|done].
  injection H as <-. apply Forall_cons in Hes as [[Hlim Hv] Hl]. cbn in Hlim, Hv.
  assert (Hq0 : 0 < q).
  { destruct (Z.eq_dec q 0) as [->|]; [|lia]. by rewrite digit_field_newline_start in Ef. }
  pose proof (digit_field_nonneg _ _ _ Hq Ef) as Hv0.
  destruct (patch_entry_in_range b q out v) as (f & Hp & Lf & Ff & Vf);
    [by apply read_field_digit_field | lia|].
  apply digit_field_inv in Ef as Hinv; [|done].
  destruct Hinv as (_ & Fb & _ & Lb & _).
  set (b1 := set_slice b q (q + 10) f) in *.
  assert (L1 : length b1 = length b).
  { unfold b1. apply length_set_slice_same; unfold len in *; lia. }
  assert (D1 : forall k : nat, (Z.to_nat (q + 10) <= k)%nat -> drop k b1 = drop k b).
  { intros k Hk. unfold b1. apply drop_set_slice; unfold len in *; lia. }
  assert (T1 : forall k : nat, (k <= Z.to_nat q)%nat -> take k b1 = take k b).
  { intros k Hk. unfold b1. apply take_set_slice; unfold len in *; lia. }
  assert (Ef1 : digit_field b1 q = Some (v + out)).
  { unfold b1. rewrite digit_field_set_slice by done. by rewrite Vf. }
  assert (En : next_line b1 q = next_line b q).
  { rewrite (next_line_digit_field b1 q (v + out)), (next_line_digit_field b q v) by done.
    by rewrite D1. }
  assert (Hb1 : take 1 b1 = [x0a]) by (rewrite T1; [done | lia]).
  assert (Hgap : c <> 0%nat -> q + 11 <= next_line b q).
  { intros Hc. destruct l as [|e l]; [apply xref_entries_length in El; cbn in El; lia|].
    apply xref_entries_positions in El as Hpos; [|done|by apply next_line_nonneg].
    apply xref_entries_head in El as Eh.
    apply Forall_cons in Hpos as [(_ & Hpos & _) _].
    destruct (next_line_after_field b q v Hq Ef) as [E0|E0]; lia. }
  assert (El1 : xref_entries b1 c (next_line b q) = Some l).
  { destruct c as [|c]; [cbn in El |- *; done|].
    apply (xref_entries_eq_drop b b1 _ _ _ (Z.to_nat (q + 10))); try done.
    - by rewrite D1.
    - by apply next_line_nonneg.
    - specialize (Hgap ltac:(done)). lia. }
  destruct (IH b1 (next_line b q) l Hb1 (next_line_nonneg _ _ Hq) Hout El1 Hl)
    as (b' & q' & Hrun & L' & T' & D' & E').
  exists b', q'. split; [|split; [|split; [|split]]].
  - cbn [patch_entries]. unfold bindB at 1. rewrite Hp, En. exact Hrun.
  - lia.
  - intros k Hk. specialize (Hk ltac:(done)).
    rewrite T' by (intros Hc; specialize (Hgap Hc); lia). by apply T1.
  - rewrite D'. apply D1. lia.
  - assert (Tf : take (Z.to_nat (q + 10)) b' = take (Z.to_nat (q + 10)) b1).
    { apply T'. intros Hc. specialize (Hgap Hc). lia. }
    cbn [xref_entries map fst snd].
    rewrite (digit_field_eq_take b' b1 q (Z.to_nat (q + 10))), Ef1 by (done || lia).
    destruct c as [|c].
    { cbn in E' |- *. cbn in El. injection El as <-. done. }
    assert (En' : next_line b' q = next_line b q).
    { rewrite <- En. symmetry.
      pose proof (Hgap ltac:(done)) as Hg.
      apply xref_entries_length in El as Hlen.
      destruct l as [|e l]; [done|].
      apply xref_entries_head in El as Eh.
      apply Forall_cons in Hl as [[Hel _] _].
      rewrite (next_line_digit_field b1 q (v + out)) by done.
      rewrite (next_line_digit_field b' q (v + out))
        by (done || by rewrite (digit_field_eq_take b' b1 q (Z.to_nat (q + 10))) by (done || lia)).
      f_equal.
      set (k := Z.to_nat (next_line b q)).
      assert (Tk : take k b' = take k b1) by (apply T'; intros _; lia).
      pose proof (next_line_digit_field b1 q (v + out) Hq Ef1) as Enb.
      rewrite En in Enb.
      set (R := find_aux [x0a] (drop (Z.to_nat (q + 10)) b1) (q + 10)) in *.
      assert (Hk1 : (k + 10 <= length b1)%nat).
      { apply xref_entries_head_field in El as Hd.
        apply digit_field_inv in Hd as (_ & _ & _ & Hd & _); [|lia].
        unfold len in Hd. lia. }
      assert (Eb1 : drop (Z.to_nat (q + 10)) b1
                   = drop (Z.to_nat (q + 10)) (take k b1) ++ drop k b1).
      { rewrite <- (take_drop k b1) at 1.
        by rewrite drop_app_le by (rewrite length_take; lia). }
      assert (Eb' : drop (Z.to_nat (q + 10)) b'
                   = drop (Z.to_nat (q + 10)) (take k b1) ++ drop k b').
      { rewrite <- (take_drop k b') at 1.
        rewrite drop_app_le by (rewrite length_take; lia). by rewrite Tk. }
      rewrite Eb'. symmetry.
      apply (find_aux_prefix _ _ (drop k b1)); [lia | by rewrite <- Eb1 |].
      unfold len. rewrite length_drop, length_take. lia. }
    rewrite En', E'. done.
Qed.

(** ** The trailer pointer *)

Lemma is_space_digit_or_minus c :
  is_digit c = true \/ c = 45%N -> is_space c = false.
Proof. intros [H| ->]; [by apply is_digit_not_space | reflexivity]. Qed.

Lemma py_str_chars v :
  Forall (fun c => is_digit c = true \/ c = 45%N) (py_str v).
Proof.
  unfold py_str. destruct (v <? 0).
  - constructor; [by right|]. eapply Forall_impl; [apply str_of_N_digits|]. by left.
  - eapply Forall_impl; [apply str_of_N_digits|]. by left.
Qed.

Lemma strip_py_str v : strip (py_str v) = py_str v.
Proof.
  apply strip_no_space. eapply Forall_impl; [apply py_str_chars|].
  apply is_space_digit_or_minus.
Qed.

(** [int(str(v)) = v] *)
Lemma py_int_py_str v : py_int (py_str v) = Ok v.
Proof.
  destruct (Z.ltb_spec v 0) as [H|H].
  - unfold py_int.
    rewrite int_strip_no_space
      by (eapply Forall_impl; [apply py_str_chars | apply is_space_digit_or_minus]).
    unfold py_str.
    destruct (Z.ltb_spec v 0); [|lia]. cbn [N.eqb Pos.eqb].
    rewrite parse_digits_digit_str.
    + cbn [bind]. rewrite dec_value_str_of_N. f_equal. lia.
    + apply str_of_N_digits.
    + left. intros E. pose proof (str_of_N_nonempty (Z.to_N (- v))) as Hn.
      rewrite E in Hn. cbn in Hn. lia.
  - rewrite py_str_nonneg by done. rewrite py_int_digit_str.
    + rewrite dec_value_str_of_N. f_equal. lia.
    + apply str_of_N_digits.
    + intros E. pose proof (str_of_N_nonempty (Z.to_N v)) as Hn.
      rewrite E in Hn. cbn in Hn. lia.
Qed.

Lemma py_str_nonempty v : (1 <= length (py_str v))%nat.
Proof.
  unfold py_str. destruct (v <? 0); [cbn; lia | apply str_of_N_nonempty].
Qed.

Lemma py_str_bytes_no_newline v :
  Forall (fun x => Byte.eqb x0a x = false) (map byte_of_N (py_str v)).
Proof.
  apply Forall_map. eapply Forall_impl; [apply py_str_chars|]. cbn.
  intros c [Hc| ->]; [|reflexivity].
  apply digit_not_newline. rewrite byte_to_N_of_N; [done|]. by apply is_digit_ascii.
Qed.

(** The zeroing loop of lines 192-193 cannot raise and keeps everything
    before its first index. *)
Lemma for_each_zero idxs :
  forall b,
    Forall (fun i => 0 <= i < len b) idxs ->
    exists b',
      for_each idxs (fun i => set_itemB i x00) b = (b', Ok tt) /\
      length b' = length b /\
      (forall k : nat, Forall (fun i => Z.of_nat k <= i) idxs -> take k b' = take k b).
Proof.
  induction idxs as [|i idxs IH]; intros b H.
  - exists b. by repeat split.
  - apply Forall_cons in H as [Hi H].
    cbn [for_each]. unfold bindB at 1, set_itemB at 1.
    rewrite set_item_ok by done.
    destruct (IH (<[Z.to_nat i := x00]> b)) as (b' & Hrun & L & T).
    { eapply Forall_impl; [exact H|]. cbn. intros j. unfold len.
      by rewrite length_insert. }
    exists b'. rewrite Hrun. split; [done|]. split.
    + by rewrite L, length_insert.
    + intros k Hk. apply Forall_cons in Hk as [Hki Hk].
      rewrite T by done. apply take_insert_ge. lia.
Qed.

Lemma py_range_bounds a n :
  Forall (fun i => a <= i < n) (py_range a n).
Proof.
  unfold py_range. apply List.Forall_forall. intros i Hi.
  apply in_map_iff in Hi as (k & <- & Hk). apply in_seq in Hk. lia.
Qed.

(** Lines 189-193 leave the new pointer and the end-of-file marker right
    after the keyword. *)
Lemma write_trailer_spec s v b :
  0 <= s -> s + 10 <= len b ->
  exists b' rest,
    write_trailer s v b = (b', Ok tt) /\
    b' = take (Z.to_nat (s + 10)) b ++ map byte_of_N (py_str v) ++ eof_marker ++ rest /\
    (length b + 2 <= length b')%nat.
Proof.
  intros Hs Hl. unfold len in Hl.
  set (enc := map byte_of_N (py_str v)).
  assert (Le : len (py_str v) = Z.of_nat (length enc)).
  { unfold enc, len. by rewrite length_map. }
  set (P := take (Z.to_nat (s + 10)) b ++ enc).
  assert (LP : length P = (Z.to_nat (s + 10) + length enc)%nat).
  { unfold P. rewrite length_app, length_take. lia. }
  set (b2 := set_slice b (s + 10) (s + 10 + len (py_str v)) enc).
  assert (E2 : exists R2, b2 = P ++ R2).
  { eexists. unfold b2. rewrite set_slice_nonneg by (rewrite ?Le; lia).
    unfold P. by rewrite <- app_assoc. }
  destruct E2 as [R2 E2].
  set (b3 := set_slice b2 (s + 10 + len (py_str v)) (s + 15 + len (py_str v)) eof_marker).
  assert (E3 : exists R3, b3 = (P ++ eof_marker) ++ R3).
  { eexists. unfold b3. rewrite set_slice_nonneg by (rewrite ?Le; lia).
    rewrite E2 at 1. rewrite take_app_length' by (rewrite LP, Le; lia).
    by rewrite <- app_assoc. }
  destruct E3 as [R3 E3].
  assert (La : length (P ++ eof_marker) = Z.to_nat (s + len (py_str v) + 17)).
  { rewrite length_app, LP, Le. change (length eof_marker) with 7%nat. lia. }
  destruct (for_each_zero (py_range (s + len (py_str v) + 17) (len b3)) b3)
    as (b4 & Hrun & L4 & T4).
  { eapply Forall_impl; [apply py_range_bounds|]. cbn. intros i. rewrite Le. lia. }
  exists b4, (drop (length (P ++ eof_marker)) b4). split; [|split].
  - unfold write_trailer, bindB, liftB, updB.
    rewrite encode_utf8_ascii by apply ascii_py_str. fold enc. fold b2. fold b3.
    by rewrite Hrun.
  - rewrite <- (take_drop (length (P ++ eof_marker)) b4) at 1.
    rewrite T4.
    + rewrite E3 at 1. rewrite take_app_length. unfold P. by rewrite <- !app_assoc.
    + eapply Forall_impl; [apply py_range_bounds|]. intros i Hi. cbv beta in *.
      rewrite La. lia.
  - rewrite L4. unfold b3. rewrite length_set_slice by (rewrite ?Le; lia).
    unfold b2. rewrite length_set_slice by (rewrite ?Le; lia).
    change (length eof_marker) with 7%nat. rewrite Le. lia.
Qed.

(** After the rewrite the pointer reads back as the new value. *)
Lemma read_back_trailer s v pre rest :
  0 <= s -> length pre = Z.to_nat (s + 10) ->
  let b := pre ++ map byte_of_N (py_str v) ++ eof_marker ++ rest in
  read_startxref s (py_find b [x0a] (s + 11)) b = Ok v.
Proof.
  intros Hs Lp b.
  set (enc := map byte_of_N (py_str v)) in *.
  assert (Le : (1 <= length enc)%nat).
  { unfold enc. rewrite length_map. apply py_str_nonempty. }
  assert (Lb : len b = s + 10 + Z.of_nat (length enc) + 7 + Z.of_nat (length rest)).
  { unfold b, len. rewrite !length_app, Lp. change (length eof_marker) with 7%nat. lia. }
  assert (Ef : py_find b [x0a] (s + 11) = s + 10 + Z.of_nat (length enc)).
  { rewrite py_find_nonneg by lia.
    assert (Ed : drop (Z.to_nat (s + 11)) b = drop 1 enc ++ eof_marker ++ rest).
    { unfold b. rewrite drop_app_ge by lia.
      replace (Z.to_nat (s + 11) - length pre)%nat with 1%nat by lia.
      by rewrite drop_app_le by lia. }
    rewrite Ed, find_aux_skip by (apply Forall_drop, py_str_bytes_no_newline).
    unfold eof_marker. cbn [app]. rewrite find_aux_byte_cons.
    rewrite (Byte.byte_dec_lb (x:=x0a) (y:=x0a) eq_refl).
    unfold len. rewrite length_drop. lia. }
  rewrite Ef. unfold read_startxref.
  assert (Es : slice b (s + 10) (s + 10 + Z.of_nat (length enc)) = enc).
  { rewrite slice_nonneg by lia. unfold b.
    rewrite drop_app_ge by lia.
    replace (Z.to_nat (s + 10) - length pre)%nat with 0%nat by lia. rewrite drop_0.
    rewrite take_app_length'; [done | lia]. }
  rewrite Es. unfold enc. rewrite decode_encode_ascii by apply ascii_py_str.
  cbn [bind]. rewrite strip_py_str. apply py_int_py_str.
Qed.

(** ** The patched tail *)

(** A [try] block that completes on a well-formed table leaves every offset
    and the trailer pointer incremented by [out_size]. *)
Lemma fix_pdf_offsets_shift file_size xs os s e buf count es sx :
  let out := file_size + len object_terminator in
  take 1 buf = [x0a] -> 0 <= file_size ->
  0 < Z.min (Z.min xs os) (Z.min s e) ->
  e = py_find buf [x0a] (s + 11) ->
  read_count xs os buf = Ok count ->
  xref_entries buf (Z.to_nat count) os = Some es ->
  Forall (fun en => fst en + 10 <= s /\ snd en + out < 10 ^ 10) es ->
  read_startxref s e buf = Ok sx ->
  exists tail,
    fix_pdf_offsets file_size xs os s e buf = (tail, Ok tt) /\
    xref_entries tail (Z.to_nat count) os
      = Some (map (fun en => (fst en, snd en + out)) es) /\
    read_startxref s (py_find tail [x0a] (s + 11)) tail = Ok (sx + out).
Proof.
  intros out Hb Hfs Hmin He Hc Hes Hbound Hsx.
  assert (Hout : 0 <= out) by (unfold out; pose proof (len_nonneg object_terminator); lia).
  assert (Hrange : s + 11 <= e < len buf).
  { destruct (py_find_byte_range buf x0a (s + 11)) as [E|E]; [lia| |]; rewrite <- He in E; lia. }
  destruct (patch_entries_shift out (Z.to_nat s) (Z.to_nat count) buf os es)
    as (b' & q' & Hrun & L' & T' & D' & E'); try done; [lia| |].
  { eapply Forall_impl; [exact Hbound|]. cbn. intros en [H1 H2]. split; [|done].
    apply xref_entries_positions in Hes; [|done|lia].
    lia. }
  assert (Hsx' : read_startxref s e b' = Ok sx).
  { rewrite <- Hsx. unfold read_startxref.
    by rewrite (slice_eq_drop b' buf (s + 10) e (Z.to_nat s)) by (done || lia). }
  destruct (write_trailer_spec s (sx + out) b') as (tail & rest & Hw & Et & _).
  { lia. } { unfold len in *. lia. }
  exists tail. split; [|split].
  - unfold fix_pdf_offsets. unfold bindB at 1, liftB at 1.
    destruct (Z.leb_spec (Z.min (Z.min xs os) (Z.min s e)) 0) as [H|_]; [lia|].
    unfold bindB at 1, liftB at 1. rewrite Hc.
    unfold bindB at 1. fold out. rewrite Hrun.
    unfold bindB at 1, liftB at 1. rewrite Hsx'. exact Hw.
  - apply (xref_entries_eq_take b' tail _ _ _ (Z.to_nat (s + 10))); try done.
    + rewrite T'; [done | lia].
    + rewrite Et. rewrite take_app_length'; [done|].
      rewrite length_take. unfold len in *. lia.
    + lia.
    + apply Forall_map. eapply Forall_impl; [exact Hbound|]. cbn. lia.
  - rewrite Et. apply read_back_trailer; [lia|].
    rewrite length_take. unfold len in *. lia.
Qed.

Lemma len_write_mp4 fuel inp r :
  build_regions fuel inp = Ok r ->
  len (write_mp4 r)
    = len (ftyp_buffer r) + len (skip_atom r) + len (rest_bytes r).
Proof.
  intros H. apply build_regions_inv in H
    as (f0 & henc & f1 & _ & Hskip & _ & _ & _ & _).
  apply length_skip_atom in Hskip.
  rewrite <- !len_app, <- app_assoc. fold (final_mp4 r).
  assert (L : (4 <= length (final_mp4 r))%nat).
  { unfold final_mp4. rewrite !length_app. lia. }
  unfold write_mp4, file_write_at, len. generalize dependent (final_mp4 r).
  intros f L. change (Z.to_nat 3) with 3%nat.
  destruct f as [|a [|b [|c [|d f]]]]; cbn in L; try lia. reflexivity.
Qed.

(** C4, as stated, fails: the patch of this document completes, yet its
    second entry, 9999999999, is stored as 1000000034 and not as
    9999999999 + 344. *)
Lemma overflow_offset_not_shifted :
  exists r tail,
    build_regions 40 overflow_inputs = Ok r /\
    len (write_mp4 r) + len object_terminator = 344 /\
    pdf_tail (len (write_mp4 r)) overflow_pdf = (tail, Ok tt) /\
    xref_entries (object_terminator ++ overflow_pdf) 2 56
      = Some [(56, 0); (76, 9999999999)] /\
    xref_entries tail 2 56 = Some [(56, 344); (76, 1000000034)] /\
    1000000034 <> 9999999999 + 344.
Proof.
  do 2 eexists. split; [vm_compute; reflexivity|].
  split; [vm_compute; reflexivity|]. split; [vm_compute; reflexivity|].
  split; [vm_compute; reflexivity|]. split; [vm_compute; reflexivity|]. lia.
Qed.

(** C4, amended: in a run with a document whose patch completes, whose
    table holds [count] entries that each begin with ten decimal digits and
    end before the [startxref] keyword, and whose incremented offsets stay
    below 10^10, every stored offset and the trailer pointer are the
    original value plus [out_size], the size of the header buffer, the skip
    atom, the media remainder and the object terminator. *)
Theorem patched_offsets_shifted (fuel : nat) (inp : inputs) (r : regions)
    (pdf tail : bytes) (count sx : Z) (es : list (Z * Z)) :
  let buf := object_terminator ++ pdf in
  let a := find_anchors buf in
  let out_size :=
    len (ftyp_buffer r) + len (skip_atom r) + len (rest_bytes r)
    + len object_terminator in
  build_regions fuel inp = Ok r ->
  pdf_bytes inp = Some pdf ->
  pdf_tail (len (write_mp4 r)) pdf = (tail, Ok tt) ->
  read_count (xref_start a) (offset_start a) buf = Ok count ->
  xref_entries buf (Z.to_nat count) (offset_start a) = Some es ->
  read_startxref (startxref_start a) (startxref_end a) buf = Ok sx ->
  Forall (fun en => fst en + 10 <= startxref_start a
                    /\ snd en + out_size < 10 ^ 10) es ->
  xref_entries tail (Z.to_nat count) (offset_start a)
    = Some (map (fun en => (fst en, snd en + out_size)) es) /\
  read_startxref (startxref_start a)
    (py_find tail [x0a] (startxref_start a + 11)) tail = Ok (sx + out_size).
Proof.
  intros buf a out_size Hr _ Htail Hc Hes Hsx Hbound.
  pose proof (len_write_mp4 _ _ _ Hr) as Hlen.
  unfold pdf_tail in Htail. fold buf a in Htail.
  assert (Hmin : 0 < Z.min (Z.min (xref_start a) (offset_start a))
                       (Z.min (startxref_start a) (startxref_end a))).
  { destruct (Z.leb_spec (Z.min (Z.min (xref_start a) (offset_start a))
                 (Z.min (startxref_start a) (startxref_end a))) 0) as [H|H]; [|done].
    unfold fix_pdf_offsets, bindB, liftB in Htail.
    apply Z.leb_le in H. rewrite H in Htail. discriminate. }
  destruct (fix_pdf_offsets_shift (len (write_mp4 r)) (xref_start a) (offset_start a)
              (startxref_start a) (startxref_end a) buf count es sx)
    as (tail' & Hrun & He & Ht); try done.
  - apply len_nonneg.
  - rewrite Hlen. exact Hbound.
  - rewrite Hrun in Htail. injection Htail as ->.
    rewrite Hlen in He, Ht. by split.
Qed.


Lemma patched_offsets_shifted_witness :
  xref_entries (object_terminator ++ sample_pdf) 2 56 = Some [(56, 0); (76, 9)] /\
  xref_entries document_tail 2 56 = Some [(56, 427); (76, 436)] /\
  read_startxref 116 (py_find document_tail [x0a] (116 + 11)) document_tail
    = Ok (30 + 427).
Proof.
  split; [vm_compute; reflexivity|].
  pose proof (patched_offsets_shifted 40 document_inputs document_regions
                sample_pdf document_tail 2 30 [(56, 0); (76, 9)]) as H.
  cbv zeta in H.
  specialize (H ltac:(vm_compute; reflexivity) ltac:(reflexivity)
                ltac:(vm_compute; reflexivity) ltac:(vm_compute; reflexivity)
                ltac:(vm_compute; reflexivity) ltac:(vm_compute; reflexivity)
                ltac:(repeat constructor; vm_compute; congruence)).
  vm_compute in H. vm_compute. exact H.
Defined.

(** ** The length of the tail *)

Lemma length_pad_field v field :
  encode_utf8 (slice_to (pad_left v 10 (slit "0")) 10) = Ok field ->
  length field = 10%nat.
Proof.
  intros H. rewrite slice_to_nonneg in H by lia.
  apply length_encode_ascii in H; [|apply Forall_take, ascii_pad_left].
  rewrite H, length_take. pose proof (length_pad_left_ge v). lia.
Qed.

(** The loop over the entries never shortens the buffer, whether it
    completes or raises. *)
Lemma patch_entries_length_ge out count :
  forall q b b' r,
    0 <= q -> patch_entries count out q b = (b', r) ->
    (length b <= length b')%nat.
Proof.
  induction count as [|c IH]; intros q b b' r Hq H.
  { cbn in H. by injection H as <- _. }
  cbn [patch_entries] in H. unfold bindB at 1 in H.
  unfold patch_entry, bindB, liftB, updB in H.
  destruct (read_field q b) as [v|e]; [|by injection H as <- _].
  destruct (encode_utf8 _) as [field|e] eqn:Ee; [|by injection H as <- _].
  apply length_pad_field in Ee.
  apply IH in H; [|by apply next_line_nonneg].
  rewrite length_set_slice in H by lia. lia.
Qed.

(** When an anchor is missing the tail is the terminator followed by the
    untouched document. *)
Lemma pdf_tail_no_anchor file_size pdf :
  let a := find_anchors (object_terminator ++ pdf) in
  Z.min (Z.min (xref_start a) (offset_start a))
        (Z.min (startxref_start a) (startxref_end a)) <= 0 ->
  pdf_tail file_size pdf = (object_terminator ++ pdf, Raise XrefNotFound).
Proof.
  intros a H. unfold pdf_tail, fix_pdf_offsets, bindB, liftB. fold a.
  apply Z.leb_le in H. by rewrite H.
Qed.

(** Whenever the [try] block completes, the tail is at least two bytes
    longer than the terminator and the document. *)
Lemma pdf_tail_patched_length file_size pdf tail :
  pdf_tail file_size pdf = (tail, Ok tt) ->
  len object_terminator + len pdf + 2 <= len tail.
Proof.
  unfold pdf_tail. set (buf := object_terminator ++ pdf).
  set (a := find_anchors buf). intros H.
  unfold fix_pdf_offsets in H. unfold bindB at 1, liftB at 1 in H.
  destruct (Z.leb_spec (Z.min (Z.min (xref_start a) (offset_start a))
              (Z.min (startxref_start a) (startxref_end a))) 0) as [Hm|Hm];
    [discriminate|].
  unfold bindB at 1, liftB at 1 in H.
  destruct (read_count _ _ buf) as [count|e]; [|discriminate].
  unfold bindB at 1 in H.
  destruct (patch_entries _ _ _ buf) as [b' [q'|e]] eqn:Hrun; [|discriminate].
  apply patch_entries_length_ge in Hrun; [|lia].
  unfold bindB at 1, liftB at 1 in H.
  destruct (read_startxref _ _ b') as [sx|e]; [|discriminate].
  assert (Hrange : startxref_start a + 11 <= startxref_end a < len buf).
  { destruct (py_find_byte_range buf x0a (startxref_start a + 11)) as [E|E];
      [lia| |]; change (py_find buf [x0a] (startxref_start a + 11))
                  with (startxref_end a) in E; lia. }
  destruct (write_trailer_spec (startxref_start a)
              (sx + (file_size + len object_terminator)) b')
    as (t & rest & Hw & _ & Hl); [lia | unfold len in *; lia |].
  rewrite Hw in H. injection H as <-.
  rewrite <- len_app. fold buf. unfold len in *. lia.
Qed.

(** * Further properties of the source *)

(** ** The four-byte encodings (lines 18-23) *)

(** X1: for a number that fits four bytes, the little-endian and the
    big-endian encodings are four bytes, mirror images of each other, and
    decode back to the number. *)
Theorem four_byte_roundtrip (num : Z) :
  0 <= num < 2 ^ 32 ->
  exists le,
    number_to_4b_le num = Ok le /\
    number_to_4b_be num = Ok (rev le) /\
    length le = 4%nat /\
    int_from_bytes_le le = num /\
    int_from_bytes_be (rev le) = num.
Proof.
  intros H. exists (le_bytes 4 num).
  destruct (number_to_4b_le_ok num H) as [Hle Hv].
  split; [done|]. split.
  - unfold number_to_4b_be. unfold number_to_4b_le in Hle. by rewrite Hle.
  - split; [apply length_le_bytes|]. split; [done|]. exact Hv.
Qed.

Lemma four_byte_roundtrip_witness :
  exists le,
    number_to_4b_le 296 = Ok le /\
    number_to_4b_be 296 = Ok (rev le) /\
    length le = 4%nat /\
    int_from_bytes_le le = 296 /\
    int_from_bytes_be (rev le) = 296.
Proof. apply (four_byte_roundtrip 296). lia. Defined.

(** Both encoders raise [OverflowError] exactly on a negative number and
    on one of 2^32 or more; they raise nothing else. *)
Lemma four_byte_overflow (num : Z) :
  (number_to_4b_le num = Raise OverflowError <-> num < 0 \/ 2 ^ 32 <= num) /\
  (number_to_4b_be num = Raise OverflowError <-> num < 0 \/ 2 ^ 32 <= num) /\
  (is_ok (number_to_4b_le num) = is_ok (number_to_4b_be num)).
Proof.
  unfold number_to_4b_be, number_to_4b_le, to_bytes4_le.
  destruct (Z.leb_spec 0 num), (Z.ltb_spec num (2 ^ 32)); cbn;
    repeat split; intros; try done; try lia.
Qed.

(** ** [find_sub_array_index] (lines 26-28) *)

Lemma is_prefix_take sub l :
  is_prefix sub l = true <-> take (length sub) l = sub.
Proof.
  revert l. induction sub as [|x sub IH]; intros l; [done|].
  destruct l as [|y l]; cbn; [done|].
  rewrite andb_true_iff, IH. split.
  - intros [E ->]. by apply Byte.byte_dec_bl in E as ->.
  - intros [= -> E]. split; [by apply Byte.byte_dec_lb | by rewrite E].
Qed.

Lemma find_aux_unfold sub l i :
  find_aux sub l i =
    if is_prefix sub l then i
    else match l with [] => -1 | _ :: l' => find_aux sub l' (i + 1) end.
Proof. by destruct l. Qed.

(** The scan returns the first index at which the pattern matches. *)
Lemma find_aux_first sub l i :
  0 <= i ->
  let r := find_aux sub l i in
  (r = -1 /\ forall j : nat, (j <= length l)%nat -> take (length sub) (drop j l) <> sub)
  \/ (i <= r <= i + len l /\
      take (length sub) (drop (Z.to_nat (r - i)) l) = sub /\
      forall j : nat, (j < Z.to_nat (r - i))%nat -> take (length sub) (drop j l) <> sub).
Proof.
  revert i. induction l as [|x l IH]; intros i Hi; cbn zeta.
  - rewrite find_aux_unfold. destruct (is_prefix sub []) eqn:E.
    + right. apply is_prefix_take in E. replace (i - i) with 0 by lia.
      unfold len. cbn. split; [lia|]. split; [done|]. intros j Hj. lia.
    + left. split; [done|]. intros j Hj. rewrite drop_nil. intros T.
      apply is_prefix_take in T. congruence.
  - rewrite find_aux_unfold. destruct (is_prefix sub (x :: l)) eqn:E.
    + right. apply is_prefix_take in E. replace (i - i) with 0 by lia.
      unfold len. cbn [length Z.to_nat drop]. split; [lia|]. split; [done|]. intros j Hj. lia.
    + assert (N0 : take (length sub) (x :: l) <> sub).
      { intros T. apply is_prefix_take in T. congruence. }
      destruct (IH (i + 1) ltac:(lia)) as [[Hr Hn]|(Hr & Hm & Hn)].
      * left. split; [done|]. intros [|j] Hj; [done|]. cbn [drop]. apply Hn.
        cbn in Hj. lia.
      * right. unfold len in *. cbn [length].
        set (r := find_aux sub l (i + 1)) in *.
        replace (Z.to_nat (r - i)) with (S (Z.to_nat (r - (i + 1)))) by lia.
        split; [lia|]. split; [done|].
        intros [|j] Hj; [done|]. cbn [drop]. apply Hn. lia.
Qed.

(** X2: [find_sub_array_index] returns -1 exactly when the pattern occurs
    at no index from [start] on, and otherwise the least index [r >= start]
    with [data[r : r + len(sub)] = sub]. *)
Theorem find_first_occurrence (data sub : bytes) (start : Z) :
  0 <= start ->
  let r := find_sub_array_index data sub start in
  (r = -1 /\
   forall k, start <= k <= len data -> slice data k (k + len sub) <> sub)
  \/ (start <= r /\ r + len sub <= len data /\
      slice data r (r + len sub) = sub /\
      forall k, start <= k < r -> slice data k (k + len sub) <> sub).
Proof.
  intros Hs. cbn zeta. unfold find_sub_array_index.
  assert (Hsl : forall k, 0 <= k ->
            slice data k (k + len sub) = take (length sub) (drop (Z.to_nat k) data)).
  { intros k Hk. rewrite slice_nonneg by (pose proof (len_nonneg sub); lia).
    f_equal. unfold len. lia. }
  destruct (Z.le_gt_cases start (len data)) as [Hle|Hgt].
  - rewrite py_find_nonneg by lia.
    destruct (find_aux_first sub (drop (Z.to_nat start) data) start Hs)
      as [[Hr Hn]|(Hr & Hm & Hn)].
    + left. split; [done|]. intros k Hk. rewrite Hsl by lia.
      replace (Z.to_nat k) with (Z.to_nat start + (Z.to_nat k - Z.to_nat start))%nat by lia.
      rewrite <- drop_drop. apply Hn. rewrite length_drop. unfold len in *. lia.
    + right. set (r := find_aux sub (drop (Z.to_nat start) data) start) in *.
      rewrite drop_drop in Hm. unfold len in Hr. rewrite length_drop in Hr.
      replace (Z.to_nat start + Z.to_nat (r - start))%nat with (Z.to_nat r) in Hm by lia.
      split; [lia|]. split; [|split].
      * apply (f_equal (@length byte)) in Hm. rewrite length_take, length_drop in Hm.
        unfold len in *. lia.
      * by rewrite Hsl by lia.
      * intros k Hk. rewrite Hsl by lia.
        replace (Z.to_nat k) with (Z.to_nat start + (Z.to_nat k - Z.to_nat start))%nat by lia.
        rewrite <- drop_drop. apply Hn. lia.
  - left. rewrite py_find_past_end by lia. split; [done|]. intros k Hk. lia.
Qed.

Lemma find_first_occurrence_witness :
  let r := find_sub_array_index (lit "abcabc") (lit "bc") 2 in
  (r = -1 /\
   forall k, 2 <= k <= len (lit "abcabc") ->
     slice (lit "abcabc") k (k + len (lit "bc")) <> lit "bc")
  \/ (2 <= r /\ r + len (lit "bc") <= len (lit "abcabc") /\
      slice (lit "abcabc") r (r + len (lit "bc")) = lit "bc" /\
      forall k, 2 <= k < r ->
        slice (lit "abcabc") k (k + len (lit "bc")) <> lit "bc").
Proof. apply (find_first_occurrence (lit "abcabc") (lit "bc") 2). lia. Defined.

(** ** [pad_left] (lines 31-33) *)

Lemma parse_zeros_minus j ds acc :
  parse_digits (replicate j 48%N ++ 45%N :: ds) acc true = Raise ValueError.
Proof.
  revert acc. induction j as [|j IH]; intros acc; [done|].
  cbn [replicate app parse_digits]. change (is_digit 48) with true. cbn iota.
  apply IH.
Qed.

(** X3: [pad_left] puts zeros in front of the decimal text until the width
    is reached and never shortens it; a non-negative number reads back from
    its padded text, and a padded negative number is not an integer
    literal. *)
Theorem pad_left_zero_fill (s n : Z) :
  exists k : nat,
    pad_left s n (slit "0") = replicate k 48%N ++ py_str s /\
    Z.of_nat k = Z.max 0 (n - len (py_str s)) /\
    len (pad_left s n (slit "0")) = Z.max n (len (py_str s)) /\
    (0 <= s -> py_int (pad_left s n (slit "0")) = Ok s) /\
    (s < 0 -> (0 < k)%nat ->
       py_int (pad_left s n (slit "0")) = Raise ValueError).
Proof.
  exists (Z.to_nat (Z.max 0 (n - len (py_str s)))).
  assert (E : pad_left s n (slit "0")
              = replicate (Z.to_nat (Z.max 0 (n - len (py_str s)))) 48%N ++ py_str s).
  { unfold pad_left. change (slit "0") with [48%N].
    by rewrite concat_replicate_singleton. }
  rewrite E. split; [done|]. split; [lia|]. split; [|split].
  - rewrite len_app. unfold len at 1. rewrite length_replicate.
    pose proof (py_str_nonempty s). unfold len. lia.
  - intros Hs. rewrite py_str_nonneg by done.
    rewrite py_int_digit_str.
    + rewrite dec_value_app, dec_value_zeros by done.
      rewrite dec_value_str_of_N. f_equal. lia.
    + apply Forall_app. split; [apply digit_str_zeros | apply str_of_N_digits].
    + intros H. apply (f_equal (@length N)) in H. rewrite length_app in H.
      pose proof (str_of_N_nonempty (Z.to_N s)). cbn [length] in H. lia.
  - intros Hs Hk. unfold py_int.
    rewrite int_strip_no_space.
    2:{ apply Forall_app. split.
        - apply Forall_replicate. reflexivity.
        - eapply Forall_impl; [apply py_str_chars|]. apply is_space_digit_or_minus. }
    destruct (Z.to_nat (Z.max 0 (n - len (py_str s)))) as [|j]; [lia|].
    cbn [replicate app]. change (48 =? 45)%N with false. change (48 =? 43)%N with false.
    cbn iota. cbn [parse_digits]. change (is_digit 48) with true. cbn iota.
    unfold py_str. destruct (Z.ltb_spec s 0); [|lia]. apply parse_zeros_minus.
Qed.

(** ** The skip atom in a stream of boxes (lines 45-50 and 129-130) *)

(** X4: the declared size of the skip atom is its total length, so a
    reader that skips a leading box by its declared size, as lines 129-130
    do, finds exactly what follows the atom. *)
Theorem skip_atom_self_delimiting (png : bytes) (html : str) (box rest : bytes) :
  build_skip_atom png html = Ok box ->
  int_from_bytes_be (slice box 0 4) = len box /\
  slice box 4 8 = lit "skip" /\
  strip_leading_box (box ++ rest) = rest.
Proof.
  intros H. apply build_skip_atom_inv in H as (hb & _ & Hr & ->).
  set (size := rev (le_bytes 4 (len (hb ++ png) + 8))).
  assert (Ls : length size = 4%nat) by (unfold size; by rewrite length_rev, length_le_bytes).
  assert (Vs : int_from_bytes_be size = len (hb ++ png) + 8).
  { unfold size. rewrite int_from_bytes_be_le_bytes by lia.
    apply Z.mod_small. change (256 ^ Z.of_nat 4) with (2 ^ 32). lia. }
  assert (Lb : len (size ++ lit "skip" ++ hb ++ png) = len (hb ++ png) + 8).
  { rewrite !len_app. unfold len at 1 2. rewrite Ls. change (length (lit "skip")) with 4%nat. lia. }
  assert (T : forall tl, slice (size ++ tl) 0 4 = size).
  { intros tl. rewrite slice_nonneg by lia. cbn [Z.to_nat]. rewrite drop_0.
    change (Pos.to_nat 4 - 0)%nat with 4%nat. by apply take_app_length'. }
  split; [by rewrite T, Vs, Lb|]. split.
  - rewrite slice_nonneg by lia.
    change (Z.to_nat 8 - Z.to_nat 4)%nat with 4%nat. change (Z.to_nat 4) with 4%nat.
    rewrite drop_app_length' by done. by rewrite take_app_length' by done.
  - unfold strip_leading_box. rewrite <- !app_assoc, T, Vs.
    rewrite slice_from_nonneg by (pose proof (len_nonneg (hb ++ png)); lia).
    rewrite !app_assoc. apply drop_app_length'.
    rewrite <- !app_assoc. unfold len in *. lia.
Qed.

Lemma skip_atom_self_delimiting_witness :
  exists box,
    build_skip_atom sample_png (slit "<p>") = Ok box /\
    int_from_bytes_be (slice box 0 4) = len box /\
    slice box 4 8 = lit "skip" /\
    strip_leading_box (box ++ lit "moov") = lit "moov".
Proof.
  eexists. split; [vm_compute; reflexivity|].
  apply (skip_atom_self_delimiting sample_png (slit "<p>")).
  vm_compute. reflexivity.
Defined.

(** ** The fixed fields of the header (lines 85-96 and 132-135) *)


(** Before the splices the header is the layout of its two fields. *)
Lemma ftyp_fields_layout sz off f0 f1 :
  ftyp_init sz = Ok f0 -> ftyp_offsets f0 off = Ok f1 ->
  f1 = header_layout (le_bytes 4 sz) (le_bytes 4 off) /\
  0 <= sz < 2 ^ 32 /\ 0 <= off < 2 ^ 32.
Proof.
  unfold ftyp_init, ftyp_offsets. intros H0 H1.
  inv_bind H0. vm_compute in E. injection E as <-.
  inv_bind H0. vm_compute in E. injection E as <-.
  inv_bind H0. vm_compute in E. injection E as <-.
  inv_bind H0. apply number_to_4b_le_inv in E as [Hsz ->]. injection H0 as <-.
  inv_bind H1. apply number_to_4b_le_inv in E as [Hoff ->]. injection H1 as <-.
  split; [|done].
  unfold header_layout. cbn [le_bytes].
  repeat match goal with
         | |- context [byte_of_Z ?x] => generalize (byte_of_Z x); intro
         end.
  vm_compute. reflexivity.
Qed.

Lemma take_22_header_layout s o :
  length s = 4%nat -> length o = 4%nat ->
  take 22 (header_layout s o) = header_lead ++ s ++ o.
Proof.
  intros Ls Lo. unfold header_layout.
  rewrite (app_assoc s o), (app_assoc header_lead).
  rewrite take_app_length'; [done|].
  rewrite !length_app, Ls, Lo. reflexivity.
Qed.

(** The first 22 bytes of the header of every successful run. *)
Lemma header_prefix fuel inp r :
  build_regions fuel inp = Ok r ->
  exists henc,
    encode_utf8 (make_html_string (html_text inp)) = Ok henc /\
    take 22 (ftyp_buffer r)
      = header_lead ++ le_bytes 4 (len (png_bytes inp))
        ++ le_bytes 4 (288 + 8 + len henc) /\
    0 <= len (png_bytes inp) < 2 ^ 32 /\
    (22 <= length (ftyp_buffer r))%nat.
Proof.
  intros H. apply build_regions_inv in H
    as (f0 & henc & f1 & Hinit & Hskip & Henc & Hoff & Hpdf & Hrest).
  exists henc. split; [done|].
  pose proof (len_skip_head _ _ _ Hskip) as H8.
  apply length_ftyp_init in Hinit as L0.
  rewrite H8 in Hoff. unfold len in Hoff at 1. rewrite L0 in Hoff.
  change (Z.of_nat 288) with 288 in Hoff.
  destruct (ftyp_fields_layout _ _ _ _ Hinit Hoff) as (Ef & Hsz & _).
  destruct (ftyp_offsets_spec _ _ _ L0 Hoff) as (L1 & _ & _).
  destruct (ftyp_extra_spec f1 (extra_bytes inp) L1) as (Ha & Le & Te).
  assert (G : take 22 (ftyp_buffer r) = take 22 f1 /\ (22 <= length (ftyp_buffer r))%nat).
  { destruct (pdf_bytes inp) as [pdf|].
    - apply ftyp_pdf_prefix in Hpdf as [T L].
      + split; [congruence | done].
      + rewrite Ha. pose proof (len_nonneg (extra_bytes inp)). lia.
      + lia.
    - assert (E : fst (ftyp_extra f1 (extra_bytes inp)) = ftyp_buffer r)
        by congruence.
      rewrite <- E. split; [done | lia]. }
  destruct G as [T L]. split; [|done].
  rewrite T, Ef. apply take_22_header_layout; apply length_le_bytes.
Qed.


(** ** From the header buffer to the written file *)

(** Lines 163-166 on a file of at least four bytes. *)
Lemma file_write_at_3 f :
  (4 <= length f)%nat ->
  file_write_at f 3 [x00] = take 3 f ++ [x00] ++ drop 4 f.
Proof.
  intros L. unfold file_write_at. change (Z.to_nat 3) with 3%nat.
  replace (3 - length f)%nat with 0%nat by lia. reflexivity.
Qed.

(** From byte 4 on, the file that [main] leaves reads as [final_mp4]. *)
Lemma out_final_slice fuel inp r out i j :
  build_regions fuel inp = Ok r -> main fuel inp = Ok out ->
  4 <= i <= j -> j <= len (final_mp4 r) ->
  slice out i j = slice (final_mp4 r) i j.
Proof.
  intros Hr Hm Hij Hj.
  destruct (header_prefix _ _ _ Hr) as (_ & _ & _ & _ & L).
  apply main_inv in Hm as (r' & tail & Hr' & ->).
  assert (r' = r) as -> by congruence.
  assert (Lf : (4 <= length (final_mp4 r))%nat).
  { unfold final_mp4. rewrite length_app. lia. }
  unfold write_mp4. rewrite file_write_at_3 by done.
  set (w := take 3 (final_mp4 r) ++ [x00] ++ drop 4 (final_mp4 r)).
  assert (Lw : length w = length (final_mp4 r)).
  { unfold w. rewrite !length_app, length_take, length_drop. cbn [length]. lia. }
  unfold len in Hj.
  rewrite (slice_eq_take (w ++ tail) w i j (length w)); [| lia | lia | lia |].
  - apply (slice_eq_drop _ _ i j 4); [lia | lia | lia | lia |].
    unfold w. rewrite drop_app_ge by (rewrite length_take; lia).
    rewrite length_take, Nat.min_l by lia. reflexivity.
  - rewrite take_app_length, take_ge; [done | lia].
Qed.

(** ... and, inside the header, as the header buffer. *)
Lemma out_header_slice fuel inp r out i j :
  build_regions fuel inp = Ok r -> main fuel inp = Ok out ->
  4 <= i <= j -> j <= len (ftyp_buffer r) ->
  slice out i j = slice (ftyp_buffer r) i j.
Proof.
  intros Hr Hm Hij Hj. unfold len in Hj.
  rewrite (out_final_slice _ _ _ _ _ _ Hr Hm Hij)
    by (unfold final_mp4, len; rewrite length_app; lia).
  unfold final_mp4.
  apply (slice_eq_take _ _ i j (length (ftyp_buffer r))); [lia | lia | lia |].
  rewrite take_app_length, take_ge; [done | lia].
Qed.

(** X5: the directory entry of the image can be followed.  In the file of
    a run whose header buffer stayed at 288 bytes, the little-endian
    number in bytes 14-17 is the size of the image, and reading that many
    bytes from the position stored in bytes 18-21 gives the image file
    back. *)
Theorem embedded_image_readable (fuel : nat) (inp : inputs) (r : regions)
    (out : bytes) :
  build_regions fuel inp = Ok r ->
  main fuel inp = Ok out ->
  length (ftyp_buffer r) = 288%nat ->
  let size := int_from_bytes_le (slice out 14 18) in
  let offset := int_from_bytes_le (slice out 18 22) in
  size = len (png_bytes inp) /\
  slice out offset (offset + size) = png_bytes inp.
Proof.
  intros Hr Hm L.
  destruct (header_prefix _ _ _ Hr) as (henc & Henc & T & Hsz & _).
  destruct (image_offset_exact _ _ _ Hr L) as (pre & Ef & Hoff).
  assert (S1 : slice out 14 18 = le_bytes 4 (len (png_bytes inp))).
  { rewrite (out_header_slice _ _ _ _ _ _ Hr Hm) by (unfold len; lia).
    rewrite <- (slice_take _ 14 18 22) by lia. rewrite T.
    rewrite slice_nonneg by lia.
    change (drop (Z.to_nat 14) (header_lead ++ ?x)) with x.
    apply take_app_length'. by rewrite length_le_bytes. }
  assert (S2 : slice out 18 22 = slice (final_mp4 r) 18 22).
  { apply (out_final_slice _ _ _ _ _ _ Hr Hm); [lia|].
    unfold final_mp4, len. rewrite length_app. lia. }
  cbv zeta. rewrite S1, S2, Hoff.
  destruct (number_to_4b_le_ok _ Hsz) as [_ ->]. split; [done|].
  assert (Lp : (288 <= length pre)%nat).
  { destruct (final_mp4_layout _ _ _ Hr) as (h' & _ & _ & E' & V).
    rewrite V in Hoff. unfold len in Hoff.
    pose proof (len_nonneg h') as Hh. unfold len in Hh. lia. }
  rewrite (out_final_slice _ _ _ _ _ _ Hr Hm).
  - rewrite Ef. unfold len. rewrite slice_nonneg by lia.
    rewrite Nat2Z.id, drop_app_length.
    apply take_app_length'. lia.
  - pose proof (len_nonneg (png_bytes inp)). unfold len in *. lia.
  - rewrite Ef. unfold len. rewrite !length_app. lia.
Qed.

Lemma embedded_image_readable_witness :
  let out := output_of (main 40 document_inputs) in
  let size := int_from_bytes_le (slice out 14 18) in
  let offset := int_from_bytes_le (slice out 18 22) in
  size = len (png_bytes document_inputs) /\
  slice out offset (offset + size) = png_bytes document_inputs.
Proof.
  apply (embedded_image_readable 40 document_inputs document_regions
           (output_of (main 40 document_inputs)));
    vm_compute; reflexivity.
Defined.

(** X6: every file the program leaves begins with the same fourteen bytes:
    a reserved word of zero, the type 1, the count 1, and an entry of
    width, height, palette and planes zero with a depth of 32.  Byte 3,
    which the header buffer holds as 0x20, is zero in the file. *)
Theorem output_leading_bytes (fuel : nat) (inp : inputs) (out : bytes) :
  main fuel inp = Ok out ->
  take 14 out
    = [x00; x00; x01; x00; x01; x00; x00; x00; x00; x00; x00; x00; x20; x00].
Proof.
  intros Hm. apply main_inv in Hm as (r & tail & Hr & ->).
  destruct (header_prefix _ _ _ Hr) as (henc & _ & T & _ & L).
  assert (Lf : (4 <= length (final_mp4 r))%nat).
  { unfold final_mp4. rewrite length_app. lia. }
  unfold write_mp4. rewrite file_write_at_3 by done.
  assert (E : final_mp4 r
              = header_lead ++ le_bytes 4 (len (png_bytes inp))
                ++ le_bytes 4 (288 + 8 + len henc)
                ++ drop 22 (ftyp_buffer r) ++ skip_atom r ++ rest_bytes r).
  { unfold final_mp4. rewrite <- (take_drop 22 (ftyp_buffer r)) at 1.
    rewrite T. by rewrite <- !app_assoc. }
  rewrite E. reflexivity.
Qed.

Lemma output_leading_bytes_witness :
  exists out,
    main 40 document_inputs = Ok out /\
    take 14 out
      = [x00; x00; x01; x00; x01; x00; x00; x00; x00; x00; x00; x00; x20; x00].
Proof.
  eexists. split; [vm_compute; reflexivity|].
  apply (output_leading_bytes 40 document_inputs). vm_compute. reflexivity.
Defined.

(** ** The content spliced into the header (lines 137-160) *)


(** The two slice assignments of lines 137-141. *)
Lemma ftyp_extra_shape f1 extra :
  length f1 = 288%nat ->
  fst (ftyp_extra f1 extra)
    = take 22 f1 ++ extra ++ lit "<!--" ++ drop (26 + length extra) f1.
Proof.
  intros L. unfold ftyp_extra. cbn [fst]. unfold len.
  set (n := length extra).
  rewrite (set_slice_nonneg f1 22 (22 + Z.of_nat n)) by lia.
  change (Z.to_nat 22) with 22%nat.
  replace (Nat.max 22 (Z.to_nat (22 + Z.of_nat n))) with (22 + n)%nat by lia.
  assert (LP : length (take 22 f1 ++ extra) = (22 + n)%nat).
  { rewrite length_app, length_take. unfold n. lia. }
  rewrite set_slice_nonneg by lia.
  replace (Z.to_nat (22 + Z.of_nat n)) with (22 + n)%nat by lia.
  replace (Nat.max (22 + n) (Z.to_nat (22 + Z.of_nat n + 4))) with (26 + n)%nat by lia.
  rewrite (app_assoc (take 22 f1) extra).
  rewrite take_app_length' by done.
  rewrite drop_app_ge by lia. rewrite LP, drop_drop.
  rewrite <- !app_assoc. do 4 f_equal. lia.
Qed.

Lemma set_item_inv l i v l' :
  set_item l i v = Ok l' -> 0 <= i ->
  i < len l /\ l' = take (Z.to_nat i) l ++ v :: drop (S (Z.to_nat i)) l.
Proof.
  unfold set_item. intros H Hi.
  destruct (Z.leb_spec 0 i); [|lia]. destruct (Z.ltb_spec i (len l)); cbn in H.
  - inversion H; subst. split; [done|].
    apply insert_take_drop. unfold len in *. lia.
  - destruct (Z.leb_spec (- len l) i); destruct (Z.ltb_spec i 0); cbn in H;
      try discriminate; lia.
Qed.

(** The document step keeps every byte before [atom_free_addr]. *)
Lemma ftyp_pdf_keeps fuel b addr extra pdf skip_len rest_len b' (k : nat) :
  ftyp_pdf fuel b addr extra pdf skip_len rest_len = Ok b' ->
  0 <= addr -> (k <= Z.to_nat addr)%nat -> (k <= length b)%nat ->
  take k b' = take k b /\ (k <= length b')%nat.
Proof.
  unfold ftyp_pdf. intros H Ha Hk L.
  inv_bind H. inv_bind H. inv_bind H. inversion H; subst; clear H.
  pose proof (len_nonneg extra). pose proof (len_nonneg a1).
  apply take_set_item with (k := k) in E as T0; [|lia|lia].
  apply length_set_item in E.
  set (b1 := set_slice a (addr + 1) (addr + 10) (slice_to pdf 9)).
  assert (T1 : take k b1 = take k a) by (apply take_set_slice; lia).
  assert (L1 : (k <= length b1)%nat) by (apply length_set_slice_ge; lia).
  split.
  - rewrite take_set_slice by lia. congruence.
  - apply length_set_slice_ge; lia.
Qed.

(** The first [26 + len(extra_bytes)] bytes of the header of every
    successful run. *)
Lemma header_extra_prefix fuel inp r :
  build_regions fuel inp = Ok r ->
  exists henc,
    encode_utf8 (make_html_string (html_text inp)) = Ok henc /\
    take (26 + length (extra_bytes inp)) (ftyp_buffer r)
      = (header_lead ++ le_bytes 4 (len (png_bytes inp))
         ++ le_bytes 4 (288 + 8 + len henc))
        ++ extra_bytes inp ++ lit "<!--" /\
    (26 + length (extra_bytes inp) <= length (ftyp_buffer r))%nat.
Proof.
  intros H. apply build_regions_inv in H
    as (f0 & henc & f1 & Hinit & Hskip & Henc & Hoff & Hpdf & Hrest).
  exists henc. split; [done|].
  pose proof (len_skip_head _ _ _ Hskip) as H8.
  apply length_ftyp_init in Hinit as L0.
  rewrite H8 in Hoff. unfold len in Hoff at 1. rewrite L0 in Hoff.
  change (Z.of_nat 288) with 288 in Hoff.
  destruct (ftyp_fields_layout _ _ _ _ Hinit Hoff) as (Ef & Hsz & _).
  destruct (ftyp_offsets_spec _ _ _ L0 Hoff) as (L1 & _ & _).
  destruct (ftyp_extra_spec f1 (extra_bytes inp) L1) as (Ha & Le & _).
  pose proof (ftyp_extra_shape f1 (extra_bytes inp) L1) as Sh.
  assert (T22 : take 22 f1 = header_lead ++ le_bytes 4 (len (png_bytes inp))
                               ++ le_bytes 4 (288 + 8 + len henc)).
  { rewrite Ef. apply take_22_header_layout; apply length_le_bytes. }
  rewrite T22 in Sh. clear T22 Ef.
  set (n := length (extra_bytes inp)) in *.
  set (P := header_lead ++ _ ++ _) in *.
  assert (LP : length P = 22%nat).
  { unfold P. rewrite !length_app, !length_le_bytes. reflexivity. }
  assert (Tb : take (26 + n) (fst (ftyp_extra f1 (extra_bytes inp)))
               = P ++ extra_bytes inp ++ lit "<!--").
  { rewrite Sh. rewrite !app_assoc. apply take_app_length'.
    rewrite !length_app, LP. fold n.
    change (length (lit "<!--")) with 4%nat. lia. }
  destruct (pdf_bytes inp) as [pdf|].
  - apply ftyp_pdf_keeps with (k := (26 + n)%nat) in Hpdf as [T L].
    + split; [congruence | done].
    + rewrite Ha. unfold len. lia.
    + rewrite Ha. unfold len. fold n. lia.
    + rewrite Le. fold n. lia.
  - assert (E : fst (ftyp_extra f1 (extra_bytes inp)) = ftyp_buffer r)
      by congruence.
    rewrite <- E. split; [done|]. rewrite Le. fold n. lia.
Qed.

(** X7: the extra bytes are found verbatim from byte 22 of every file the
    program leaves, whatever their number, and the four bytes after them
    open a comment. *)
Theorem extra_bytes_in_place (fuel : nat) (inp : inputs) (out : bytes) :
  main fuel inp = Ok out ->
  let n := len (extra_bytes inp) in
  slice out 22 (22 + n) = extra_bytes inp /\
  slice out (22 + n) (26 + n) = lit "<!--".
Proof.
  intros Hm. destruct (main_inv _ _ _ Hm) as (r & tail & Hr & _).
  destruct (header_extra_prefix _ _ _ Hr) as (henc & _ & T & L).
  cbv zeta. unfold len.
  set (n := length (extra_bytes inp)) in *.
  set (P := header_lead ++ _ ++ _) in *.
  assert (LP : length P = 22%nat).
  { unfold P. rewrite !length_app, !length_le_bytes. reflexivity. }
  split.
  - rewrite (out_header_slice _ _ _ _ _ _ Hr Hm) by (unfold len; lia).
    rewrite <- (slice_take _ _ _ (26 + n)) by lia. rewrite T.
    rewrite slice_nonneg by lia. change (Z.to_nat 22) with 22%nat.
    rewrite drop_app_length' by done.
    apply take_app_length'. unfold n. lia.
  - rewrite (out_header_slice _ _ _ _ _ _ Hr Hm) by (unfold len; lia).
    rewrite <- (slice_take _ _ _ (26 + n)) by lia. rewrite T.
    rewrite slice_nonneg by lia. rewrite app_assoc.
    rewrite drop_app_length' by (rewrite length_app, LP; unfold n; lia).
    replace (Z.to_nat (26 + Z.of_nat n) - Z.to_nat (22 + Z.of_nat n))%nat
      with 4%nat by lia.
    reflexivity.
Qed.

Lemma extra_bytes_in_place_witness :
  let out := output_of (main 40 document_inputs) in
  let n := len (extra_bytes document_inputs) in
  slice out 22 (22 + n) = extra_bytes document_inputs /\
  slice out (22 + n) (26 + n) = lit "<!--".
Proof.
  apply (extra_bytes_in_place 40 document_inputs). vm_compute. reflexivity.
Defined.

(** The bytes of the header from byte [k] on, before the splices. *)
Lemma drop_header_layout s o (k : nat) :
  length s = 4%nat -> length o = 4%nat -> (22 <= k <= 240)%nat ->
  drop k (header_layout s o) = replicate (240 - k) x00 ++ header_trailer.
Proof.
  intros Ls Lo Hk. unfold header_layout.
  rewrite (app_assoc s o), (app_assoc header_lead).
  assert (LP : length (header_lead ++ s ++ o) = 22%nat).
  { rewrite !length_app, Ls, Lo. reflexivity. }
  rewrite drop_app_ge by lia. rewrite LP.
  rewrite drop_app_le by (rewrite length_replicate; lia).
  rewrite drop_replicate. fold header_trailer. do 2 f_equal. lia.
Qed.

(** The three writes of lines 144-160 when they stay inside the buffer:
    a newline, nine bytes of the document, [len(extra_bytes)] bytes that
    are left as they were, and the object header, whose [/Length] and
    position add up to [mp4_size]. *)
Lemma ftyp_pdf_shape fuel b addr extra pdf skip_len rest_len b' :
  ftyp_pdf fuel b addr extra pdf skip_len rest_len = Ok b' ->
  0 <= addr -> 9 <= len pdf ->
  addr + 10 + len extra + 29 + len (py_str (len b + skip_len + rest_len))
    <= len b ->
  exists v ob,
    encode_utf8 (obj_string_of v) = Ok ob /\
    addr + 10 + len extra + len ob + v = len b + skip_len + rest_len /\
    29 <= len ob <= 29 + len (py_str (len b + skip_len + rest_len)) /\
    b' = take (Z.to_nat addr) b ++ [x0a] ++ take 9 pdf
         ++ take (length extra) (drop (Z.to_nat addr + 10) b) ++ ob
         ++ drop (Z.to_nat addr + 10 + length extra + length ob) b.
Proof.
  unfold ftyp_pdf. intros H Ha H9 Hfit.
  inv_bind H. inv_bind H. inv_bind H. inversion H; subst; clear H.
  rename a0 into s, a1 into ob.
  apply obj_search_inv in E0 as (o & Ho & -> & Hl).
  set (v := len b + skip_len + rest_len - (addr + 10) - len extra - o) in *.
  pose proof (len_obj_string v) as Lo.
  pose proof (len_nonneg (py_str v)) as Hv.
  apply length_encode_ascii in E1 as Lob; [|apply ascii_obj_string].
  exists v, ob. split; [done|].
  assert (Eo : len ob = o) by (unfold len in *; lia).
  split; [unfold v; lia|]. split; [lia|].
  apply set_item_inv in E as [Hlt ->]; [|done].
  revert Hfit Ho.
  generalize (len (py_str (len b + skip_len + rest_len))). intros d Hfit Ho.
  pose proof (len_nonneg extra) as Hn.
  unfold len in Hlt, Hfit, Hn, H9, Eo.
  set (a := Z.to_nat addr). set (n := length extra) in *.
  assert (Ea : addr = Z.of_nat a) by (unfold a; lia).
  rewrite slice_to_nonneg by lia. change (Z.to_nat 9) with 9%nat.
  set (p9 := take 9 pdf).
  assert (L9 : length p9 = 9%nat) by (unfold p9; rewrite length_take; lia).
  set (b1 := take a b ++ x0a :: drop (S a) b).
  assert (Lt : length (take a b) = a) by (rewrite length_take; lia).
  assert (L1 : length b1 = length b).
  { unfold b1. rewrite length_app, Lt. cbn [length]. rewrite length_drop. lia. }
  assert (E2 : set_slice b1 (addr + 1) (addr + 10) p9
               = (take a b ++ [x0a] ++ p9) ++ drop (a + 10) b).
  { rewrite set_slice_inside by (unfold len; lia).
    replace (Z.to_nat (addr + 1)) with (S a) by lia.
    replace (Z.to_nat (addr + 10)) with (a + 10)%nat by lia.
    unfold b1.
    change (take a b ++ x0a :: drop (S a) b)
      with (take a b ++ [x0a] ++ drop (S a) b).
    rewrite (app_assoc (take a b) [x0a]).
    assert (Lh : length (take a b ++ [x0a]) = S a).
    { rewrite length_app, Lt. cbn [length]. lia. }
    rewrite take_app_length' by done.
    rewrite drop_app_ge by lia. rewrite Lh, drop_drop.
    rewrite <- !app_assoc. do 4 f_equal. lia. }
  rewrite E2. clear E2.
  set (Q := take a b ++ [x0a] ++ p9).
  assert (LQ : length Q = (a + 10)%nat).
  { unfold Q. rewrite !length_app, Lt, L9. cbn [length]. lia. }
  rewrite set_slice_inside.
  - replace (Z.to_nat (addr + 10 + len extra)) with (a + 10 + n)%nat
      by (unfold len; lia).
    replace (Z.to_nat (addr + 10 + len extra + len ob))
      with (a + 10 + n + length ob)%nat by (unfold len; lia).
    rewrite take_app_ge by lia. rewrite LQ.
    rewrite drop_app_ge by lia. rewrite LQ, drop_drop.
    unfold Q. rewrite <- !app_assoc.
    do 3 f_equal. f_equal; [f_equal; lia|].
    do 2 f_equal. lia.
  - pose proof (len_nonneg ob). unfold len in *. lia.
  - unfold len. rewrite length_app, LQ, length_drop. lia.
Qed.

(** X8: the layout of the header when the spliced content ends by byte
    240.  The header buffer has 288 bytes: the leading bytes, the image
    size and offset, the extra bytes, the comment marker, the document
    part, zeros up to byte 240, the brands and the template box.  Without
    a document the document part is empty; with one it is a newline, the
    first nine bytes of the document, as many zero bytes as there are
    extra bytes, and the object header. *)
Theorem header_layout_exact (fuel : nat) (inp : inputs) (r : regions) :
  build_regions fuel inp = Ok r ->
  content_ends_by 240 inp r ->
  exists henc doc,
    encode_utf8 (make_html_string (html_text inp)) = Ok henc /\
    ftyp_buffer r
      = header_with (le_bytes 4 (len (png_bytes inp)))
          (le_bytes 4 (288 + 8 + len henc)) (extra_bytes inp) doc /\
    length (ftyp_buffer r) = 288%nat /\
    match pdf_bytes inp with
    | None => doc = []
    | Some pdf =>
        exists v ob,
          encode_utf8 (obj_string_of v) = Ok ob /\
          doc = [x0a] ++ take 9 pdf
                ++ replicate (length (extra_bytes inp)) x00 ++ ob
    end.
Proof.
  intros H Hfit. apply build_regions_inv in H
    as (f0 & henc & f1 & Hinit & Hskip & Henc & Hoff & Hpdf & Hrest).
  exists henc.
  pose proof (len_skip_head _ _ _ Hskip) as H8.
  apply length_ftyp_init in Hinit as L0.
  rewrite H8 in Hoff. unfold len in Hoff at 1. rewrite L0 in Hoff.
  change (Z.of_nat 288) with 288 in Hoff.
  destruct (ftyp_fields_layout _ _ _ _ Hinit Hoff) as (Ef & Hsz & _).
  destruct (ftyp_offsets_spec _ _ _ L0 Hoff) as (L1 & _ & _).
  destruct (ftyp_extra_spec f1 (extra_bytes inp) L1) as (Ha & Le & _).
  pose proof (ftyp_extra_shape f1 (extra_bytes inp) L1) as Sh.
  set (sz := le_bytes 4 (len (png_bytes inp))) in *.
  set (off := le_bytes 4 (288 + 8 + len henc)) in *.
  assert (Lsz : length sz = 4%nat) by apply length_le_bytes.
  assert (Lof : length off = 4%nat) by apply length_le_bytes.
  assert (T22 : take 22 f1 = header_lead ++ sz ++ off).
  { rewrite Ef. by apply take_22_header_layout. }
  assert (D : forall k : nat, (22 <= k <= 240)%nat ->
                drop k f1 = replicate (240 - k) x00 ++ header_trailer).
  { intros k Hk. rewrite Ef. by apply drop_header_layout. }
  rewrite T22 in Sh. clear T22 Ef.
  set (P := header_lead ++ sz ++ off) in *.
  assert (LP : length P = 22%nat).
  { unfold P. rewrite !length_app, Lsz, Lof. reflexivity. }
  pose proof (len_nonneg (extra_bytes inp)) as Hn.
  unfold content_ends_by in Hfit. unfold len in Hn.
  set (n := length (extra_bytes inp)) in *.
  assert (LPe : length (P ++ extra_bytes inp ++ lit "<!--") = (26 + n)%nat).
  { rewrite !length_app, LP. change (length (lit "<!--")) with 4%nat.
    fold n. lia. }
  destruct (pdf_bytes inp) as [pdf|].
  - destruct Hfit as [H9 Hfit].
    revert Hpdf Ha Le Sh. generalize (ftyp_extra f1 (extra_bytes inp)).
    intros [b addr]. cbn [fst snd]. intros Hpdf -> Le Sh.
    pose proof (len_nonneg (py_str (288 + len (skip_atom r) + len (rest_bytes r)))) as Hd.
    assert (Lb : length b = 288%nat) by (unfold len in *; lia).
    apply ftyp_pdf_shape in Hpdf as (v & ob & Hob & _ & Hlo & ->);
      [| unfold len; lia | done
       | unfold len in *; rewrite Lb; change (Z.of_nat 288) with 288; lia].
    unfold len in Hlo, Hfit, Hd. rewrite Lb in Hlo.
    change (Z.of_nat 288) with 288 in Hlo.
    revert Hlo Hfit Hd.
    generalize (Z.of_nat (length (py_str (288 + Z.of_nat (length (skip_atom r))
                  + Z.of_nat (length (rest_bytes r)))))).
    intros d Hlo Hfit Hd. fold n in Hfit.
    exists ([x0a] ++ take 9 pdf ++ replicate n x00 ++ ob).
    split; [done|].
    replace (Z.to_nat (26 + len (extra_bytes inp))) with (26 + n)%nat
      by (unfold len, n; lia).
    assert (Tk : take (26 + n) b = P ++ extra_bytes inp ++ lit "<!--").
    { rewrite Sh, (app_assoc (extra_bytes inp)), (app_assoc P).
      apply take_app_length'. by rewrite LPe. }
    assert (Dk : forall k : nat, (26 + n <= k <= 240)%nat ->
                   drop k b = replicate (240 - k) x00 ++ header_trailer).
    { intros k Hk. rewrite Sh, (app_assoc (extra_bytes inp)), (app_assoc P).
      rewrite drop_app_ge by lia. rewrite LPe, drop_drop.
      rewrite D by lia. do 2 f_equal. lia. }
    assert (L9 : length (take 9 pdf) = 9%nat)
      by (rewrite length_take; unfold len in H9; lia).
    assert (G : take (26 + n) b ++ [x0a] ++ take 9 pdf
                ++ take n (drop (26 + n + 10) b) ++ ob
                ++ drop (26 + n + 10 + n + length ob) b
                = header_with sz off (extra_bytes inp)
                    ([x0a] ++ take 9 pdf ++ replicate n x00 ++ ob)).
    { rewrite Tk, !Dk by lia.
      rewrite take_app_le by (rewrite length_replicate; lia).
      rewrite take_replicate, Nat.min_l by lia.
      unfold header_with, P. fold n.
      replace (214 - n - length ([x0a] ++ take 9 pdf ++ replicate n x00 ++ ob))%nat
        with (240 - (26 + n + 10 + n + length ob))%nat
        by (rewrite !length_app, L9, length_replicate; cbn [length]; lia).
      rewrite <- !app_assoc. reflexivity. }
    split; [exact G|]. split; [|by exists v, ob].
    transitivity (length (header_with sz off (extra_bytes inp)
                    ([x0a] ++ take 9 pdf ++ replicate n x00 ++ ob)));
      [exact (f_equal length G)|].
    unfold header_with, header_trailer.
    rewrite !length_app, Lsz, Lof, L9, !length_replicate. cbn [length].
    fold n. change (length header_lead) with 14%nat.
    change (length (lit "<!--")) with 4%nat.
    change (length (lit "isomiso2avc1mp41")) with 16%nat.
    change (length ftyp_template) with 32%nat. lia.
  - assert (E : fst (ftyp_extra f1 (extra_bytes inp)) = ftyp_buffer r)
      by congruence.
    exists []. split; [done|]. rewrite <- E.
    assert (G : fst (ftyp_extra f1 (extra_bytes inp))
                = header_with sz off (extra_bytes inp) []).
    { rewrite Sh. unfold header_with, P. fold n.
      rewrite D by (unfold len in Hfit; lia).
      cbn [length app]. rewrite <- !app_assoc.
      replace (214 - n - 0)%nat with (240 - (26 + n))%nat by lia.
      reflexivity. }
    split; [exact G|]. split; [|done].
    rewrite Le. fold n. unfold len in Hfit. lia.
Qed.

Lemma header_layout_exact_witness :
  exists henc doc,
    encode_utf8 (make_html_string (html_text document_inputs)) = Ok henc /\
    ftyp_buffer document_regions
      = header_with (le_bytes 4 (len (png_bytes document_inputs)))
          (le_bytes 4 (288 + 8 + len henc)) (extra_bytes document_inputs) doc /\
    length (ftyp_buffer document_regions) = 288%nat /\
    match pdf_bytes document_inputs with
    | None => doc = []
    | Some pdf =>
        exists v ob,
          encode_utf8 (obj_string_of v) = Ok ob /\
          doc = [x0a] ++ take 9 pdf
                ++ replicate (length (extra_bytes document_inputs)) x00 ++ ob
    end.
Proof.
  apply (header_layout_exact 40 document_inputs document_regions).
  - vm_compute. reflexivity.
  - unfold content_ends_by. cbn [pdf_bytes document_inputs].
    split; vm_compute; discriminate.
Defined.

(** ** The object header of the document (lines 143-160) *)

(** X9: the stream that wraps the container has the right length.  In a
    run with a document whose spliced content ends by byte 288, the object
    header is found at byte [36 + 2 * len(extra_bytes)] of the file, and
    the number it declares as [/Length] is the number of bytes between
    the end of the object header and the end of the written container. *)
Theorem stream_length_declared (fuel : nat) (inp : inputs) (r : regions)
    (out pdf : bytes) :
  build_regions fuel inp = Ok r ->
  main fuel inp = Ok out ->
  pdf_bytes inp = Some pdf ->
  header_fits inp r ->
  exists v ob,
    encode_utf8 (obj_string_of v) = Ok ob /\
    let p := 36 + 2 * len (extra_bytes inp) in
    slice out p (p + len ob) = ob /\
    p + len ob + v = len (write_mp4 r).
Proof.
  intros Hr Hm Hp Hfit.
  rewrite (len_write_mp4 _ _ _ Hr).
  pose proof Hr as H. apply build_regions_inv in H
    as (f0 & henc & f1 & Hinit & Hskip & Henc & Hoff & Hpdf & Hrest).
  apply length_ftyp_init in Hinit as L0.
  apply ftyp_offsets_spec in Hoff as (L1 & _ & _); [|done].
  destruct (ftyp_extra_spec f1 (extra_bytes inp) L1) as (Ha & Le & _).
  unfold header_fits in Hfit. rewrite Hp in Hfit, Hpdf.
  destruct Hfit as [H9 Hfit].
  pose proof (len_nonneg (extra_bytes inp)) as Hn.
  revert Hpdf Ha Le. generalize (ftyp_extra f1 (extra_bytes inp)).
  intros [b addr]. cbn [fst snd]. intros Hpdf -> Le.
  pose proof (len_nonneg (py_str (288 + len (skip_atom r) + len (rest_bytes r)))) as Hd.
  assert (Lb : length b = 288%nat) by (unfold len in *; lia).
  apply ftyp_pdf_shape in Hpdf as (v & ob & Hob & Hv & Hlo & Eb);
    [| unfold len; lia | done
     | unfold len in *; rewrite Lb; change (Z.of_nat 288) with 288; lia].
  exists v, ob. split; [done|]. cbv zeta.
  unfold len in Hlo, Hfit, Hd, Hv, Hn, H9. rewrite Lb in Hlo, Hv.
  change (Z.of_nat 288) with 288 in Hlo, Hv.
  revert Hlo Hfit Hd.
  generalize (Z.of_nat (length (py_str (288 + Z.of_nat (length (skip_atom r))
                + Z.of_nat (length (rest_bytes r)))))).
  intros d Hlo Hfit Hd.
  set (n := length (extra_bytes inp)) in *.
  replace (Z.to_nat (26 + len (extra_bytes inp))) with (26 + n)%nat in Eb
    by (unfold len, n; lia).
  set (X := take (26 + n) b ++ [x0a] ++ take 9 pdf
            ++ take n (drop (26 + n + 10) b)).
  assert (LX : length X = (36 + 2 * n)%nat).
  { unfold X. rewrite !length_app, !length_take, length_drop. cbn [length]. lia. }
  assert (Eb' : ftyp_buffer r
                = X ++ ob ++ drop (26 + n + 10 + n + length ob) b).
  { rewrite Eb. unfold X. by rewrite <- !app_assoc. }
  assert (Lr : length (ftyp_buffer r) = 288%nat).
  { rewrite Eb', !length_app, LX, length_drop. lia. }
  split.
  - rewrite (out_header_slice _ _ _ _ _ _ Hr Hm) by (unfold len; fold n; lia).
    rewrite Eb'. unfold len. fold n. rewrite slice_nonneg by lia.
    replace (Z.to_nat (36 + 2 * Z.of_nat n)) with (36 + 2 * n)%nat by lia.
    rewrite drop_app_length' by done.
    apply take_app_length'. lia.
  - unfold len. rewrite Lr. fold n. lia.
Qed.

Lemma stream_length_declared_witness :
  exists v ob,
    encode_utf8 (obj_string_of v) = Ok ob /\
    let out := output_of (main 40 document_inputs) in
    let p := 36 + 2 * len (extra_bytes document_inputs) in
    slice out p (p + len ob) = ob /\
    p + len ob + v = len (write_mp4 document_regions).
Proof.
  apply (stream_length_declared 40 document_inputs document_regions
           (output_of (main 40 document_inputs)) sample_pdf).
  - vm_compute. reflexivity.
  - vm_compute. reflexivity.
  - reflexivity.
  - unfold header_fits. cbn [pdf_bytes document_inputs].
    split; vm_compute; discriminate.
Defined.

(** X10: what the search of lines 150-156 returns.  It returns a string
    after at most [fuel] candidates exactly when some candidate below the
    starting offset, at most [fuel] steps down, equals the length of the
    string that declares the matching [/Length]; the string returned is
    the one of the largest such candidate. *)
Theorem obj_search_returns_largest (fuel : nat) (m a n off : Z) (s : str) :
  obj_search fuel m a n off = Ok s <->
  exists o,
    off - Z.of_nat fuel <= o < off /\
    s = obj_string_of (m - a - n - o) /\
    len s = o /\
    forall o', o < o' < off -> o' <> len (obj_string_of (m - a - n - o')).
Proof.
  revert off. induction fuel as [|fuel IH]; intros off.
  - split; [discriminate|]. intros (o & Ho & _). lia.
  - rewrite obj_search_S.
    destruct (Z.eqb_spec (off - 1) (len (obj_string_of (m - a - n - (off - 1)))))
      as [E|E].
    + split.
      * intros H. inversion H; subst. exists (off - 1).
        split; [lia|]. split; [done|]. split; [lia|]. intros o' Ho'. lia.
      * intros (o & Ho & -> & Hl & Hmax).
        destruct (Z.eq_dec o (off - 1)) as [->|Hne]; [done|].
        exfalso. apply (Hmax (off - 1)); [lia | done].
    + rewrite IH. split.
      * intros (o & Ho & Hs & Hl & Hmax). exists o.
        split; [lia|]. split; [done|]. split; [done|].
        intros o' Ho'. destruct (Z.eq_dec o' (off - 1)) as [->|Hne]; [done|].
        apply Hmax. lia.
      * intros (o & Ho & Hs & Hl & Hmax). exists o.
        assert (o <> off - 1) by (intros ->; subst s; lia).
        split; [lia|]. split; [done|]. split; [done|].
        intros o' Ho'. apply Hmax. lia.
Qed.

(** X11: when the loop of lines 150-156 never ends.  The search runs out
    of every amount of fuel exactly when no candidate from 30 up to the
    starting offset equals the length of its string: below 30 no
    candidate can, since the string has at least 30 characters. *)
Theorem obj_search_diverges_iff (m a n off : Z) :
  (forall fuel, obj_search fuel m a n off = Raise OutOfFuel) <->
  (forall o, 30 <= o < off ->
     o <> len (obj_string_of (m - a - n - o))).
Proof.
  split.
  - intros H o Ho.
    specialize (H (Z.to_nat (off - o))).
    rewrite obj_search_out_of_fuel in H. apply H. lia.
  - intros H fuel. apply obj_search_out_of_fuel. intros o Ho.
    destruct (Z.le_gt_cases 30 o) as [G|G]; [apply H; lia|].
    rewrite len_obj_string.
    assert (0 < len (py_str (m - a - n - o))); [|lia].
    pose proof (py_str_nonempty (m - a - n - o)) as Hne.
    unfold len. lia.
Qed.

(** ** A document and many extra bytes *)

Lemma set_item_index_error l i v :
  len l <= i -> set_item l i v = Raise IndexError.
Proof.
  intros H. unfold set_item. pose proof (len_nonneg l).
  destruct (Z.leb_spec 0 i); [|lia]. destruct (Z.ltb_spec i (len l)); [lia|].
  destruct (Z.ltb_spec i 0); [lia|]. cbn. by rewrite andb_false_r.
Qed.

(** X12: a document cannot be combined with 262 or more extra bytes.
    Line 146 stores a newline at index [26 + len(extra_bytes)] of the
    header buffer, which by then ends at that very index: whenever the run
    without the document succeeds, the run with it raises [IndexError],
    whatever the document is. *)
Theorem document_needs_header_room (fuel : nat) (png orig : bytes)
    (html : option str) (extra pdf : bytes) (apps : list (option bytes))
    (zip : option bytes) :
  let inp d :=
    {| png_bytes := png; orig_bytes := orig; html_text := html;
       extra_bytes := extra; pdf_bytes := d; appendables := apps;
       merged_zip := zip |} in
  262 <= len extra ->
  is_ok (main fuel (inp None)) = true ->
  main fuel (inp (Some pdf)) = Raise IndexError.
Proof.
  intros inp Hn Hok.
  destruct (main fuel (inp None)) as [out|e] eqn:Hm; [clear Hok | discriminate].
  apply main_inv in Hm as (r & tail & Hr & _).
  apply build_regions_inv in Hr
    as (f0 & henc & f1 & Hinit & Hskip & Henc & Hoff & _ & _).
  cbn [png_bytes html_text extra_bytes inp] in *.
  apply length_ftyp_init in Hinit as L0.
  apply ftyp_offsets_spec in Hoff as H1; [|done]. destruct H1 as (L1 & _ & _).
  destruct (ftyp_extra_spec f1 extra L1) as (Ha & Le & _).
  unfold main, build_regions.
  cbn [png_bytes html_text extra_bytes pdf_bytes orig_bytes inp].
  rewrite Hinit. cbn [bind]. rewrite Hskip. cbn [bind].
  rewrite Henc. cbn [bind]. rewrite Hoff. cbn [bind].
  revert Ha Le. generalize (ftyp_extra f1 extra). intros [b addr].
  cbn [fst snd]. intros -> Le.
  unfold ftyp_pdf. rewrite set_item_index_error; [done|].
  unfold len in *. lia.
Qed.

Lemma document_needs_header_room_witness :
  main 0 {| png_bytes := sample_png; orig_bytes := sample_mp4;
            html_text := None; extra_bytes := replicate 262 x00;
            pdf_bytes := Some sample_pdf; appendables := [];
            merged_zip := None |}
    = Raise IndexError.
Proof.
  apply (document_needs_header_room 0 sample_png sample_mp4 None
           (replicate 262 x00) sample_pdf [] None).
  - vm_compute. discriminate.
  - vm_compute. reflexivity.
Defined.

(** ** What the patch of the document leaves alone (lines 168-198) *)

(** The terminator does not contain the start of a cross-reference
    section: the first place where one can begin is its last byte. *)
Lemma terminator_no_xref pdf (j : nat) :
  (j < 17)%nat ->
  take 5 (drop j (object_terminator ++ pdf)) <> [x0a] ++ lit "xref".
Proof.
  intros Hj.
  do 17 (destruct j as [|j]; [vm_compute; discriminate|]). lia.
Qed.

(** Where [find] can report an occurrence. *)
Lemma py_find_range data sub start :
  0 <= start ->
  let r := py_find data sub start in
  r = -1 \/ (start <= r /\ r + len sub <= len data /\
             take (length sub) (drop (Z.to_nat r) data) = sub).
Proof.
  intros Hs. cbv zeta.
  destruct (Z.le_gt_cases start (len data)) as [Hle|Hgt].
  - rewrite py_find_nonneg by lia.
    destruct (find_aux_first sub (drop (Z.to_nat start) data) start Hs)
      as [[Hr _]|(Hr & Hm & _)]; [by left|right].
    set (r := find_aux sub (drop (Z.to_nat start) data) start) in *.
    rewrite drop_drop in Hm. unfold len in Hr. rewrite length_drop in Hr.
    replace (Z.to_nat start + Z.to_nat (r - start))%nat with (Z.to_nat r) in Hm by lia.
    split; [lia|]. split; [|done].
    apply (f_equal (@length byte)) in Hm. rewrite length_take, length_drop in Hm.
    unfold len in *. lia.
  - left. by apply py_find_past_end.
Qed.

(** The anchors of lines 172-175, when all four are found. *)
Lemma anchors_bounds pdf :
  let buf := object_terminator ++ pdf in
  let a := find_anchors buf in
  0 < Z.min (Z.min (xref_start a) (offset_start a))
            (Z.min (startxref_start a) (startxref_end a)) ->
  18 <= xref_start a /\
  xref_start a < offset_start a <= len buf /\
  xref_start a < startxref_start a /\
  startxref_start a + 11 <= startxref_end a < len buf.
Proof.
  intros buf a Hm.
  assert (Hx : 18 <= xref_start a).
  { assert (0 < xref_start a) as H0 by lia. revert H0.
    unfold a, find_anchors, find_sub_array_index. cbn [xref_start].
    destruct (py_find_range buf ([x0a] ++ lit "xref") 0) as [->|(H1 & _ & H3)];
      [lia | lia |].
    intros _.
    destruct (Z.le_gt_cases 17 (py_find buf ([x0a] ++ lit "xref") 0)) as [G|G];
      [lia|].
    exfalso. apply (terminator_no_xref pdf (Z.to_nat (py_find buf ([x0a] ++ lit "xref") 0)));
      [lia | exact H3]. }
  split; [done|].
  assert (Ho : xref_start a < offset_start a <= len buf).
  { assert (0 < offset_start a) as H0 by lia. revert H0.
    unfold a at 1 3 4, find_anchors, find_sub_array_index. cbn [offset_start].
    fold buf. change (py_find buf ([x0a] ++ lit "xref") 0 + 1) with (xref_start a).
    destruct (py_find_range buf ([x0a] ++ lit "0000000000") (xref_start a))
      as [->|(H1 & H2 & _)]; [lia | lia |].
    change (len ([x0a] ++ lit "0000000000")) with 11 in H2. lia. }
  split; [done|].
  assert (Hs : xref_start a < startxref_start a).
  { assert (0 < startxref_start a) as H0 by lia. revert H0.
    unfold a at 1 3, find_anchors, find_sub_array_index. cbn [startxref_start].
    fold buf. change (py_find buf ([x0a] ++ lit "xref") 0 + 1) with (xref_start a).
    destruct (py_find_range buf ([x0a] ++ lit "startxref") (xref_start a))
      as [->|(H1 & _ & _)]; [lia | lia |]. lia. }
  split; [done|].
  destruct (py_find_byte_range buf x0a (startxref_start a + 11)) as [E|E];
    [lia| |]; change (py_find buf [x0a] (startxref_start a + 11))
                with (startxref_end a) in E; lia.
Qed.

(** An entry can only be read inside the buffer. *)
Lemma read_field_in_range q b v :
  read_field q b = Ok v -> 0 <= q -> q < len b.
Proof.
  intros H Hq. destruct (Z.lt_ge_cases q (len b)) as [G|G]; [done|exfalso].
  unfold read_field in H. rewrite slice_nonneg in H by lia.
  rewrite drop_ge in H by (unfold len in G; lia).
  rewrite take_nil in H. discriminate.
Qed.

(** A read at position 0, where [find] sends the loop when there is no
    further line, fails on the terminator. *)
Lemma read_field_terminator b :
  take 10 b = take 10 object_terminator ->
  read_field 0 b = Raise ValueError.
Proof.
  intros H. unfold read_field.
  rewrite <- (slice_take b 0 (0 + 10) 10) by lia. rewrite H. reflexivity.
Qed.

(** The loop over the entries keeps every byte before the first entry,
    whether it completes or raises. *)
Lemma patch_entries_frame out (K : nat) count :
  forall q b b' r,
    take 10 b = take 10 object_terminator -> (10 <= K)%nat ->
    q = 0 \/ Z.of_nat K <= q -> (K <= length b)%nat ->
    patch_entries count out q b = (b', r) ->
    take K b' = take K b /\ (length b <= length b')%nat.
Proof.
  induction count as [|c IH]; intros q b b' r Ht HK Hq HL H.
  { cbn in H. by injection H as <- _. }
  cbn [patch_entries] in H. unfold bindB at 1 in H.
  unfold patch_entry, bindB, liftB, updB in H.
  destruct Hq as [->|Hq].
  { rewrite read_field_terminator in H by done. by injection H as <- _. }
  destruct (read_field q b) as [v|e] eqn:Er; [|by injection H as <- _].
  destruct (encode_utf8 _) as [field|e] eqn:Ee; [|by injection H as <- _].
  apply length_pad_field in Ee.
  apply read_field_in_range in Er; [|lia].
  assert (Tk : take K (set_slice b q (q + 10) field) = take K b)
    by (apply take_set_slice; lia).
  apply IH in H.
  - destruct H as [T L]. split; [congruence|].
    rewrite length_set_slice in L by lia. unfold len in Er. lia.
  - rewrite take_set_slice by lia. done.
  - done.
  - unfold next_line.
    destruct (py_find_byte_range (set_slice b q (q + 10) field) x0a (q + 1))
      as [->|E]; [lia | left; lia | right; lia].
  - apply length_set_slice_ge; lia.
Qed.

(** X13: the patch of lines 177-193 only rewrites the cross-reference
    section.  For a document of ASCII bytes and whatever the outcome of
    the [try] block, the bytes appended to the output keep every byte of
    the terminator and the document before the first offset entry and
    before the value of the trailer pointer; in particular they begin with
    the terminator, and they are never fewer than the terminator and the
    document. *)
Theorem tail_patch_frame (file_size : Z) (pdf : bytes) :
  Forall (fun x => byte_to_Z x < 128) pdf ->
  let buf := object_terminator ++ pdf in
  let a := find_anchors buf in
  let tail := fst (pdf_tail file_size pdf) in
  let k := Z.to_nat (Z.min (offset_start a) (startxref_start a + 10)) in
  take k tail = take k buf /\
  take 18 tail = object_terminator /\
  (length buf <= length tail)%nat.
Proof.
  intros _. cbv zeta.
  destruct (pdf_tail file_size pdf) as [tail r] eqn:H. cbn [fst].
  revert H. unfold pdf_tail.
  set (buf := object_terminator ++ pdf). set (a := find_anchors buf).
  set (k := Z.to_nat (Z.min (offset_start a) (startxref_start a + 10))).
  intros H.
  assert (T18 : take 18 buf = object_terminator)
    by (unfold buf; by apply take_app_length').
  unfold fix_pdf_offsets in H. unfold bindB at 1, liftB at 1 in H.
  destruct (Z.leb_spec (Z.min (Z.min (xref_start a) (offset_start a))
              (Z.min (startxref_start a) (startxref_end a))) 0) as [Hm|Hm];
    [by injection H as <- _|].
  pose proof (anchors_bounds pdf) as HB. cbv zeta in HB.
  fold buf in HB. fold a in HB. destruct (HB Hm) as (Hx & Ho & Hs & He).
  clear HB.
  assert (Hk : (18 <= k <= length buf)%nat) by (unfold k, len in *; lia).
  assert (G : forall t, take k t = take k buf -> (length buf <= length t)%nat ->
                take k t = take k buf /\ take 18 t = object_terminator
                /\ (length buf <= length t)%nat).
  { intros t Ht Hl. split; [done|]. split; [|done].
    rewrite <- T18. transitivity (take 18 (take k t));
      [rewrite take_take; f_equal; lia|].
    rewrite Ht, take_take. f_equal. lia. }
  unfold bindB at 1, liftB at 1 in H.
  destruct (read_count _ _ buf) as [count|e]; [|by injection H as <- _; apply G].
  unfold bindB at 1 in H.
  destruct (patch_entries _ _ _ buf) as [b1 r1] eqn:Hrun.
  apply (patch_entries_frame _ k) in Hrun as [T1 L1];
    [| unfold buf; rewrite take_app_le by (vm_compute; lia); done
     | lia | right; unfold k; lia | lia].
  destruct r1 as [q1|e]; [|by injection H as <- _; apply G].
  unfold bindB at 1, liftB at 1 in H.
  destruct (read_startxref _ _ b1) as [sx|e]; [|by injection H as <- _; apply G].
  destruct (write_trailer_spec (startxref_start a)
              (sx + (file_size + len object_terminator)) b1)
    as (t & rest & Hw & Et & Hl); [lia | unfold len in *; lia |].
  rewrite Hw in H. injection H as <- _. apply G; [|lia].
  rewrite Et. rewrite take_app_le by (rewrite length_take; unfold k, len in *; lia).
  rewrite take_take, Nat.min_l by (unfold k; lia). done.
Qed.

Lemma tail_patch_frame_witness :
  let buf := object_terminator ++ sample_pdf in
  let a := find_anchors buf in
  let tail := fst (pdf_tail 418 sample_pdf) in
  let k := Z.to_nat (Z.min (offset_start a) (startxref_start a + 10)) in
  take k tail = take k buf /\
  take 18 tail = object_terminator /\
  (length buf <= length tail)%nat.
Proof.
  apply (tail_patch_frame 418 sample_pdf).
  apply List.Forall_forall. intros x Hx.
  revert x Hx. apply List.Forall_forall. vm_compute.
  repeat (constructor; [reflexivity|]). constructor.
Defined.

(** ** The header of the cross-reference table (lines 180-181) *)

Lemma lstrip_nonspace l m :
  l <> [] -> Forall (fun c => is_space c = false) l -> lstrip (l ++ m) = l ++ m.
Proof.
  intros Hl Hf. destruct l as [|c l]; [done|].
  apply Forall_cons in Hf as [Hc _]. cbn. by rewrite Hc.
Qed.

Lemma replace_char_absent a b s :
  Forall (fun c => c <> a) s -> replace_char a b s = s.
Proof.
  induction 1 as [|c s Hc _ IH]; [done|]. cbn.
  apply N.eqb_neq in Hc. rewrite Hc. f_equal. exact IH.
Qed.

Lemma split_last_absent sep t :
  Forall (fun c => c <> sep) t ->
  forall cur, split_last sep t cur = rev cur ++ t.
Proof.
  induction 1 as [|c t Hc _ IH]; intros cur; cbn.
  - by rewrite app_nil_r.
  - apply N.eqb_neq in Hc. rewrite Hc, IH. cbn. by rewrite <- app_assoc.
Qed.

Lemma split_last_app sep s t :
  forall cur, split_last sep (s ++ sep :: t) cur = split_last sep t [].
Proof.
  induction s as [|c s IH]; intros cur; cbn.
  - by rewrite N.eqb_refl.
  - destruct (c =? sep)%N; apply IH.
Qed.

Lemma py_str_no_char v (a : N) :
  is_digit a = false -> a <> 45%N -> Forall (fun c => c <> a) (py_str v).
Proof.
  intros Hd Hm. eapply Forall_impl; [apply py_str_chars|].
  cbv beta. intros c [Hc|Hc] E; subst; [congruence | done].
Qed.

(** X14: the object count is read off the usual header of the table.
    When the bytes between the two anchors are [xref], a newline, the
    number of the first object, a space, the count and a newline, line 181
    yields the count: the text is stripped, its newlines become spaces,
    and the last of the space-separated words is converted. *)
Theorem read_count_standard_header (b : bytes) (xs os first count : Z) :
  slice b xs os
    = map byte_of_N (slit "xref" ++ [nl] ++ py_str first ++ [32%N]
                     ++ py_str count ++ [nl]) ->
  read_count xs os b = Ok count.
Proof.
  intros H. unfold read_count. rewrite H. clear H.
  set (F := py_str first). set (C := py_str count).
  assert (HF : Forall (fun c => is_digit c = true \/ c = 45%N) F)
    by apply py_str_chars.
  assert (HC : Forall (fun c => is_digit c = true \/ c = 45%N) C)
    by apply py_str_chars.
  rewrite decode_encode_ascii.
  2:{ unfold ascii_str. rewrite !Forall_app.
      repeat split; try apply ascii_py_str; by apply ascii_str_forallb. }
  cbn [bind].
  assert (Es : strip (slit "xref" ++ [nl] ++ F ++ [32%N] ++ C ++ [nl])
               = (slit "xref" ++ [nl] ++ F ++ [32%N]) ++ C).
  { unfold strip.
    rewrite (lstrip_nonspace (slit "xref"));
      [| done | by repeat (constructor; [reflexivity|])].
    replace (slit "xref" ++ [nl] ++ F ++ [32%N] ++ C ++ [nl])
      with (((slit "xref" ++ [nl] ++ F ++ [32%N]) ++ C) ++ [nl])
      by (by rewrite <- !app_assoc).
    rewrite rev_app_distr. cbn [rev app lstrip].
    change (is_space nl) with true. cbv iota.
    rewrite rev_app_distr.
    rewrite lstrip_nonspace.
    - by rewrite <- rev_app_distr, rev_involutive.
    - intros E. apply (f_equal (@length N)) in E.
      rewrite length_rev in E. pose proof (py_str_nonempty count).
      fold C in H. cbn in E. lia.
    - apply Forall_rev. eapply Forall_impl; [exact HC|].
      apply is_space_digit_or_minus. }
  rewrite Es. clear Es.
  assert (Er : replace_char nl 32 ((slit "xref" ++ [nl] ++ F ++ [32%N]) ++ C)
               = (slit "xref" ++ [32%N] ++ F) ++ 32%N :: C).
  { unfold replace_char. rewrite !map_app. fold (replace_char nl 32 F).
    fold (replace_char nl 32 C).
    rewrite !(replace_char_absent nl) by (by apply py_str_no_char).
    rewrite <- !app_assoc. reflexivity. }
  rewrite Er, split_last_app, split_last_absent by (by apply py_str_no_char).
  cbn [rev app]. apply py_int_py_str.
Qed.

Lemma read_count_standard_header_witness :
  let buf := object_terminator ++ sample_pdf in
  let a := find_anchors buf in
  read_count (xref_start a) (offset_start a) buf = Ok 2.
Proof.
  apply (read_count_standard_header _ _ _ 0 2). vm_compute. reflexivity.
Defined.

(** ** The hypertext in the file (lines 118-126) *)

(** X15: the hypertext can be read from the file.  In the file of a run
    with hypertext whose header buffer stayed at 288 bytes, the skip box
    starts at byte 288 with its own length and the type [skip], and its
    payload from byte 296 on is the closing comment marker with the style
    and the opening tag, the encoded hypertext, the closing tag with a new
    comment marker, and then the image. *)
Theorem hypertext_in_place (fuel : nat) (inp : inputs) (r : regions)
    (out : bytes) (text : str) :
  build_regions fuel inp = Ok r ->
  main fuel inp = Ok out ->
  html_text inp = Some text ->
  length (ftyp_buffer r) = 288%nat ->
  exists tb,
    encode_utf8 text = Ok tb /\
    let w := html_prefix_bytes ++ tb ++ html_suffix_bytes in
    int_from_bytes_be (slice out 288 292) = len (skip_atom r) /\
    slice out 292 296 = lit "skip" /\
    slice out 296 (296 + len w + len (png_bytes inp)) = w ++ png_bytes inp.
Proof.
  intros Hr Hm Hh L.
  destruct (header_image_offset _ _ _ Hr) as (henc & Henc & Hbox & _).
  apply build_regions_inv in Hr as Hi.
  destruct Hi as (_ & _ & _ & _ & Hskip & _).
  apply build_skip_atom_inv in Hskip as (hb & Henc' & Hrange & _).
  assert (hb = henc) as -> by congruence. clear Henc'.
  rewrite Hh in Henc. apply encode_html_string in Henc as (tb & Ht & ->).
  exists tb. split; [done|]. cbv zeta.
  set (w := html_prefix_bytes ++ tb ++ html_suffix_bytes) in *.
  set (sz := rev (le_bytes 4 (len (w ++ png_bytes inp) + 8))) in *.
  assert (Lsz : length sz = 4%nat)
    by (unfold sz; rewrite length_rev; apply length_le_bytes).
  assert (Lb : len (skip_atom r) = len (w ++ png_bytes inp) + 8).
  { rewrite Hbox, !len_app. unfold len at 1 2. rewrite Lsz.
    change (length (lit "skip")) with 4%nat. rewrite <- len_app. lia. }
  assert (Ef : final_mp4 r
               = ftyp_buffer r ++ sz ++ lit "skip" ++ (w ++ png_bytes inp)
                 ++ rest_bytes r).
  { unfold final_mp4. rewrite Hbox. by rewrite <- !app_assoc. }
  assert (Lf : len (final_mp4 r) = 296 + len (w ++ png_bytes inp) + len (rest_bytes r)).
  { rewrite Ef, !len_app. unfold len at 1 2 3. rewrite L, Lsz.
    change (length (lit "skip")) with 4%nat. lia. }
  pose proof (len_nonneg (w ++ png_bytes inp)) as Hn.
  pose proof (len_nonneg (rest_bytes r)) as Hn'.
  assert (Sl : forall i j pre x post,
            final_mp4 r = pre ++ x ++ post -> len pre = i -> len x = j - i ->
            4 <= i <= j -> slice out i j = x).
  { intros i j pre x post E Hi Hx Hij.
    rewrite (out_final_slice _ _ _ _ i j Hr Hm Hij) by
      (rewrite E, !len_app; pose proof (len_nonneg post); lia).
    rewrite E, slice_nonneg by lia.
    rewrite drop_app_length' by (unfold len in Hi; lia).
    apply take_app_length'. unfold len in Hx. lia. }
  split; [|split].
  - rewrite (Sl 288 292 (ftyp_buffer r) sz
               (lit "skip" ++ (w ++ png_bytes inp) ++ rest_bytes r));
      [| done | unfold len; lia | unfold len; lia | lia].
    unfold sz. rewrite Lb.
    rewrite int_from_bytes_be_le_bytes by lia.
    apply Z.mod_small. change (256 ^ Z.of_nat 4) with (2 ^ 32). lia.
  - apply (Sl 292 296 (ftyp_buffer r ++ sz) _
             ((w ++ png_bytes inp) ++ rest_bytes r)).
    + rewrite Ef. by rewrite <- !app_assoc.
    + rewrite len_app. unfold len. lia.
    + reflexivity.
    + lia.
  - rewrite <- Z.add_assoc, <- len_app.
    apply (Sl _ _ (ftyp_buffer r ++ sz ++ lit "skip") _ (rest_bytes r)).
    + rewrite Ef. by rewrite <- !app_assoc.
    + rewrite !len_app. unfold len at 1 2. rewrite L, Lsz. reflexivity.
    + lia.
    + lia.
Qed.

Lemma hypertext_in_place_witness :
  exists tb,
    encode_utf8 (slit "<b>hi</b>") = Ok tb /\
    let out := output_of (main 40 document_inputs) in
    let w := html_prefix_bytes ++ tb ++ html_suffix_bytes in
    int_from_bytes_be (slice out 288 292) = len (skip_atom document_regions) /\
    slice out 292 296 = lit "skip" /\
    slice out 296 (296 + len w + len (png_bytes document_inputs))
      = w ++ png_bytes document_inputs.
Proof.
  apply (hypertext_in_place 40 document_inputs document_regions
           (output_of (main 40 document_inputs)) (slit "<b>hi</b>"));
    vm_compute; reflexivity.
Defined.

(** ** Where the image is when the header buffer changes length *)

(** X16: the image is displaced by as many bytes as the header buffer
    differs from 288.  In every file the program leaves, the image is
    found at the position stored in bytes 18-21 plus the length of the
    header buffer minus 288; without a document the header buffer has
    288 bytes, or [26 + len(extra_bytes)] if that is more. *)
Theorem image_displacement (fuel : nat) (inp : inputs) (r : regions)
    (out : bytes) :
  build_regions fuel inp = Ok r ->
  main fuel inp = Ok out ->
  let offset := int_from_bytes_le (slice out 18 22) in
  let delta := len (ftyp_buffer r) - 288 in
  slice out (offset + delta) (offset + delta + len (png_bytes inp))
    = png_bytes inp /\
  (pdf_bytes inp = None ->
   len (ftyp_buffer r) = Z.max 288 (26 + len (extra_bytes inp))).
Proof.
  intros Hr Hm. cbv zeta.
  destruct (header_prefix _ _ _ Hr) as (_ & _ & _ & _ & L22).
  destruct (final_mp4_layout _ _ _ Hr) as (henc & _ & L8 & Ef & V).
  assert (S2 : slice out 18 22 = slice (final_mp4 r) 18 22).
  { apply (out_final_slice _ _ _ _ _ _ Hr Hm); [lia|].
    unfold final_mp4, len. rewrite length_app. lia. }
  rewrite S2, V. split.
  - set (pre := ftyp_buffer r ++ take 8 (skip_atom r) ++ henc) in *.
    assert (Lp : len pre = 288 + 8 + len henc + (len (ftyp_buffer r) - 288)).
    { unfold pre. rewrite !len_app. unfold len at 2. rewrite L8. lia. }
    rewrite <- Lp.
    pose proof (len_nonneg henc) as Hh. pose proof (len_nonneg (png_bytes inp)) as Hp.
    assert (22 <= len (ftyp_buffer r)) by (unfold len; lia).
    rewrite (out_final_slice _ _ _ _ _ _ Hr Hm).
    + rewrite Ef. rewrite slice_nonneg by lia.
      rewrite drop_app_length' by (unfold len; lia).
      apply take_app_length'. unfold len. lia.
    + lia.
    + rewrite Ef, !len_app. pose proof (len_nonneg (rest_bytes r)). lia.
  - intros Hp. apply build_regions_inv in Hr
      as (f0 & h' & f1 & Hinit & _ & _ & Hoff & Hpdf & _).
    rewrite Hp in Hpdf.
    apply length_ftyp_init in Hinit.
    apply ftyp_offsets_spec in Hoff as (L1 & _ & _); [|done].
    destruct (ftyp_extra_spec f1 (extra_bytes inp) L1) as (_ & Le & _).
    assert (E : fst (ftyp_extra f1 (extra_bytes inp)) = ftyp_buffer r)
      by congruence.
    unfold len. rewrite <- E, Le. lia.
Qed.

Lemma image_displacement_witness :
  let inp := oversize_inputs sample_png sample_mp4 None in
  let out := output_of (main 0 inp) in
  let offset := int_from_bytes_le (slice out 18 22) in
  let delta := len (ftyp_buffer (regions_of (build_regions 0 inp))) - 288 in
  slice out (offset + delta) (offset + delta + len (png_bytes inp))
    = png_bytes inp /\
  (pdf_bytes inp = None ->
   len (ftyp_buffer (regions_of (build_regions 0 inp)))
     = Z.max 288 (26 + len (extra_bytes inp))).
Proof.
  apply (image_displacement 0 (oversize_inputs sample_png sample_mp4 None)
           (regions_of (build_regions 0 (oversize_inputs sample_png sample_mp4 None)))
           (output_of (main 0 (oversize_inputs sample_png sample_mp4 None))));
    vm_compute; reflexivity.
Defined.

(** ** The end of a patched document (lines 189-193) *)

Lemma py_range_cons a n :
  a < n -> py_range a n = a :: py_range (a + 1) n.
Proof.
  intros H. unfold py_range.
  replace (Z.to_nat (n - a)) with (S (Z.to_nat (n - (a + 1)))) by lia.
  cbn [seq map]. f_equal; [lia|].
  rewrite <- seq_shift, map_map. apply map_ext. intros k. lia.
Qed.

Lemma py_range_nil a n : n <= a -> py_range a n = [].
Proof.
  intros H. unfold py_range. by replace (Z.to_nat (n - a)) with 0%nat by lia.
Qed.

(** The loop of lines 192-193 zeroes the buffer from its first index on. *)
Lemma for_each_zero_range (n : nat) :
  forall (a : nat) b,
    (a + n)%nat = length b ->
    for_each (py_range (Z.of_nat a) (len b)) (fun i => set_itemB i x00) b
      = (take a b ++ replicate n x00, Ok tt).
Proof.
  induction n as [|n IH]; intros a b Hl.
  - rewrite py_range_nil by (unfold len; lia). cbn [for_each replicate].
    unfold retB. rewrite app_nil_r, take_ge by lia. done.
  - rewrite py_range_cons by (unfold len; lia).
    cbn [for_each]. unfold bindB, set_itemB at 1.
    assert (Hb1 : set_item b (Z.of_nat a) x00
                  = Ok (<[Z.to_nat (Z.of_nat a) := x00]> b))
      by (apply set_item_ok; unfold len; lia).
    rewrite Hb1.
    set (b1 := <[Z.to_nat (Z.of_nat a) := x00]> b) in *.
    apply set_item_inv in Hb1 as [_ Eb1]; [|lia].
    rewrite Nat2Z.id in Eb1.
    assert (L1 : length b1 = length b).
    { rewrite Eb1, length_app, length_take. cbn [length]. rewrite length_drop. lia. }
    replace (len b) with (len b1) by (unfold len; by rewrite L1).
    replace (Z.of_nat a + 1) with (Z.of_nat (S a)) by lia.
    rewrite IH by lia. f_equal.
    rewrite Eb1.
    change (take a b ++ x00 :: drop (S a) b)
      with (take a b ++ [x00] ++ drop (S a) b).
    rewrite app_assoc, take_app_length'
      by (rewrite length_app, length_take; cbn [length]; lia).
    rewrite <- app_assoc. reflexivity.
Qed.

(** The three writes of lines 189-193. *)
Lemma write_trailer_shape s v b :
  0 <= s -> s + 10 <= len b ->
  exists z,
    write_trailer s v b
      = (take (Z.to_nat (s + 10)) b ++ map byte_of_N (py_str v)
         ++ eof_marker ++ replicate z x00, Ok tt).
Proof.
  intros Hs Hl. unfold len in Hl.
  set (enc := map byte_of_N (py_str v)).
  assert (Le : len (py_str v) = Z.of_nat (length enc)).
  { unfold enc, len. by rewrite length_map. }
  set (P := take (Z.to_nat (s + 10)) b ++ enc).
  assert (LP : length P = (Z.to_nat (s + 10) + length enc)%nat).
  { unfold P. rewrite length_app, length_take. lia. }
  set (b2 := set_slice b (s + 10) (s + 10 + len (py_str v)) enc).
  assert (E2 : exists R2, b2 = P ++ R2).
  { eexists. unfold b2. rewrite set_slice_nonneg by (rewrite ?Le; lia).
    unfold P. by rewrite <- app_assoc. }
  destruct E2 as [R2 E2].
  set (b3 := set_slice b2 (s + 10 + len (py_str v)) (s + 15 + len (py_str v)) eof_marker).
  assert (E3 : exists R3, b3 = (P ++ eof_marker) ++ R3).
  { eexists. unfold b3. rewrite set_slice_nonneg by (rewrite ?Le; lia).
    rewrite E2 at 1. rewrite take_app_length' by (rewrite LP, Le; lia).
    by rewrite <- app_assoc. }
  destruct E3 as [R3 E3].
  assert (La : Z.of_nat (length (P ++ eof_marker)) = s + len (py_str v) + 17).
  { rewrite length_app, LP, Le. change (length eof_marker) with 7%nat. lia. }
  exists (length R3).
  unfold write_trailer, bindB, liftB, updB.
  rewrite encode_utf8_ascii by apply ascii_py_str. fold enc. fold b2. fold b3.
  rewrite <- La.
  rewrite (for_each_zero_range (length R3) (length (P ++ eof_marker)) b3)
    by (rewrite E3, !length_app; lia).
  rewrite E3 at 1. rewrite take_app_length. unfold P.
  by rewrite <- !app_assoc.
Qed.

(** X17: how a patched document ends.  Whenever the [try] block
    completes, the bytes appended for the document are, from ten bytes
    after the [startxref] anchor on, the decimal digits of a number, the
    end-of-file marker, and then only zero bytes: whatever the document
    held after its trailer pointer is gone. *)
Theorem patched_tail_ends_in_zeros (file_size : Z) (pdf tail : bytes) :
  pdf_tail file_size pdf = (tail, Ok tt) ->
  let a := find_anchors (object_terminator ++ pdf) in
  exists v z,
    drop (Z.to_nat (startxref_start a + 10)) tail
      = map byte_of_N (py_str v) ++ eof_marker ++ replicate z x00.
Proof.
  unfold pdf_tail. set (buf := object_terminator ++ pdf).
  intros H. cbv zeta. set (a := find_anchors buf) in *.
  unfold fix_pdf_offsets in H. unfold bindB at 1, liftB at 1 in H.
  destruct (Z.leb_spec (Z.min (Z.min (xref_start a) (offset_start a))
              (Z.min (startxref_start a) (startxref_end a))) 0) as [Hm|Hm];
    [discriminate|].
  unfold bindB at 1, liftB at 1 in H.
  destruct (read_count _ _ buf) as [count|e]; [|discriminate].
  unfold bindB at 1 in H.
  destruct (patch_entries _ _ _ buf) as [b' [q'|e]] eqn:Hrun; [|discriminate].
  apply patch_entries_length_ge in Hrun; [|lia].
  unfold bindB at 1, liftB at 1 in H.
  destruct (read_startxref _ _ b') as [sx|e]; [|discriminate].
  assert (Hrange : startxref_start a + 11 <= startxref_end a < len buf).
  { destruct (py_find_byte_range buf x0a (startxref_start a + 11)) as [E|E];
      [lia| |]; change (py_find buf [x0a] (startxref_start a + 11))
                  with (startxref_end a) in E; lia. }
  destruct (write_trailer_shape (startxref_start a)
              (sx + (file_size + len object_terminator)) b')
    as (z & Hw); [lia | unfold len in *; lia |].
  assert (Lt : length (take (Z.to_nat (startxref_start a + 10)) b')
               = Z.to_nat (startxref_start a + 10))
    by (rewrite length_take; unfold len in *; lia).
  rewrite Hw in H. injection H as <-.
  exists (sx + (file_size + len object_terminator)), z.
  apply drop_app_length'. symmetry. exact Lt.
Qed.

Lemma patched_tail_ends_in_zeros_witness :
  exists v z,
    drop (Z.to_nat (startxref_start
                      (find_anchors (object_terminator ++ sample_pdf)) + 10))
         document_tail
      = map byte_of_N (py_str v) ++ eof_marker ++ replicate z x00.
Proof.
  apply (patched_tail_ends_in_zeros (len (write_mp4 document_regions))
           sample_pdf document_tail).
  vm_compute. reflexivity.
Defined.
